(** * CreatorIQ: the AI-orchestration core and the rate limiter

    A shallow embedding of
      - packages/ai-services/src/prompts.ts        (module [PromptTemplates])
      - packages/ai-services/src/types.ts          (module [Types])
      - packages/ai-services/src/openai.ts         (module [OpenAIService])
      - packages/ai-services/src/claude.ts         (module [ClaudeService])
      - packages/ai-services/src/cost-tracker.ts   (module [CostTracker])
      - packages/ai-services/src/analyzer.ts       (module [AIAnalyzer])
      - apps/api/src/middleware/error-handler.ts   (module [ErrorHandler])
      - the authentication middleware of apps/api  (module [Auth])
      - the rate-limiting middleware of apps/api   (module [RateLimiter])
      - the route POST /api/analysis of apps/api   (modules [AnalysisRoutes]
                                                    and [BackgroundAnalysis])
    followed by the properties of the specification that concern them,
    and by further properties of the code.

    Conventions.  JavaScript numbers that the code only ever uses as
    integers (token counts, cents, milliseconds, hit counts) are [Z].
    The numbers it computes with fractions (costs, rates, confidence) are
    IEEE 754 binary64 values, [Double.double], with the rounding of every
    operation.  The scores read from a provider's answer are exact
    rationals, and so is the average processing time of [getUsageStats],
    one quotient of integers that [Math.round] rounds at once.  A [Date]
    is its millisecond value, a [Z].
    Reading the clock ([new Date()], [Date.now()]) is an input of the
    operation that reads it, and so are the outcome of an HTTP exchange
    and that of a write to the database.  Optional fields are [option].
    Code that may throw returns a [JS.Completion]; an [async] function
    that rejects is one that throws; an Express middleware returns the
    error it throws, or [None] when it calls [next()].  A string is a
    sequence of characters with codes below 256, each of them one code
    unit of the JavaScript string; texts with other characters are not
    modelled.  A plain object used as a map answers a lookup with its
    own property, or else with the property of that name every object
    inherits ([JS.inherited]). *)

From Stdlib Require Import ZArith QArith Qround Qminmax Lia Ascii.
From Stdlib Require Import Floats.SpecFloat.
From stdpp Require Import gmap strings list sorting pretty.

Set Warnings "-register-all".
Close Scope Q_scope.
Open Scope Z_scope.

(** [Math.round]: the nearest integer, ties towards plus infinity. *)
Definition Math_round (q : Q) : Z := Qfloor (q + (1 # 2))%Q.

(** ** JavaScript values, as far as the services use them *)

Module JS.

(** A JavaScript number, as far as its value is read from a parsed
    answer or is the result of [Math.round]: NaN, an infinity, or a
    finite value given exactly. *)
Inductive JSNumber :=
| NaN
| PosInf
| NegInf
| Fin (q : Q).

(** A value produced by [JSON.parse], or read from one.  An object is the
    list of its own properties; the first binding of a name is the one
    that counts. *)
Inductive JsValue :=
| JUndefined
| JNull
| JBool (b : bool)
| JNum (n : JSNumber)
| JStr (s : string)
| JArr (elements : list JsValue)
| JObj (properties : list (string * JsValue)).

(** The outcome of evaluating code that may throw. *)
Inductive Completion (A : Type) :=
| Normal (a : A)
| Throw (message : string).
Arguments Normal {A} a.
Arguments Throw {A} message.

Definition bind {A B} (c : Completion A) (k : A -> Completion B) : Completion B :=
  match c with
  | Normal a => k a
  | Throw m => Throw m
  end.

(** [try { c } catch (error) { handler(error.message) }] *)
Definition tryCatch {A} (c : Completion A) (handler : string -> Completion A)
    : Completion A :=
  match c with
  | Normal a => Normal a
  | Throw m => handler m
  end.

(** The built-ins of the host the services call and this development
    does not define. *)
Class Host := {
  (** [JSON.parse(text)]: the value, or the message of the [SyntaxError]. *)
  JSON_parse : string -> Completion JsValue;
  (** The abstract operation StringToNumber of ECMAScript. *)
  StringToNumber : string -> JSNumber;
  (** [String(v)] for an array or an object [v]. *)
  ObjectToString : JsValue -> string;
  (** [String(n)] for a number [n]. *)
  NumberToString : Z -> string;
  (** [n.toLocaleString()] *)
  toLocaleString : Z -> string
}.

(** [Number(v)] *)
Definition Number `{Host} (v : JsValue) : JSNumber :=
  match v with
  | JUndefined => NaN
  | JNull => Fin 0
  | JBool b => if b then Fin 1 else Fin 0
  | JNum n => n
  | JStr s => StringToNumber s
  | JArr _ | JObj _ => StringToNumber (ObjectToString v)
  end.

Definition isNaN (n : JSNumber) : bool :=
  match n with
  | NaN => true
  | _ => false
  end.

(** [Math.round] on a JavaScript number. *)
Definition Math_round_num (n : JSNumber) : JSNumber :=
  match n with
  | Fin q => Fin (inject_Z (Math_round q))
  | _ => n
  end.

Definition Math_min (a b : JSNumber) : JSNumber :=
  match a, b with
  | NaN, _ | _, NaN => NaN
  | NegInf, _ | _, NegInf => NegInf
  | PosInf, x | x, PosInf => x
  | Fin p, Fin q => if Qle_bool p q then Fin p else Fin q
  end.

Definition Math_max (a b : JSNumber) : JSNumber :=
  match a, b with
  | NaN, _ | _, NaN => NaN
  | PosInf, _ | _, PosInf => PosInf
  | NegInf, x | x, NegInf => x
  | Fin p, Fin q => if Qle_bool q p then Fin p else Fin q
  end.

(** [n > 0] *)
Definition greaterThanZero (n : JSNumber) : bool :=
  match n with
  | PosInf => true
  | Fin q => negb (Qle_bool q 0)
  | _ => false
  end.

(** ToBoolean *)
Definition truthy (v : JsValue) : bool :=
  match v with
  | JUndefined | JNull => false
  | JBool b => b
  | JNum NaN => false
  | JNum (Fin q) => negb (Qeq_bool q 0)
  | JNum _ => true
  | JStr s => negb (bool_decide (s = EmptyString))
  | JArr _ | JObj _ => true
  end.

Fixpoint lookupProperty (name : string) (properties : list (string * JsValue))
    : JsValue :=
  match properties with
  | [] => JUndefined
  | (k, v) :: rest => if decide (k = name) then v else lookupProperty name rest
  end.

(** [v.name], for the property names the services read: none of them is
    a built-in property of a string, number, boolean or array.  Reading a
    property of [null] or [undefined] throws a [TypeError] (the message
    is V8's). *)
Definition getProp (v : JsValue) (name : string) : Completion JsValue :=
  match v with
  | JUndefined =>
      Throw ("Cannot read properties of undefined (reading '" +:+ name +:+ "')")
  | JNull =>
      Throw ("Cannot read properties of null (reading '" +:+ name +:+ "')")
  | JObj properties => Normal (lookupProperty name properties)
  | _ => Normal JUndefined
  end.

(** [a || b] *)
Definition or (a b : JsValue) : JsValue := if truthy a then a else b.

(** [Array.isArray(v) ? v : []] *)
Definition arrayOrEmpty (v : JsValue) : list JsValue :=
  match v with
  | JArr elements => elements
  | _ => []
  end.

(** The names of the properties of [Object.prototype], which every plain
    object inherits.  All of them are functions, but for [__proto__],
    an accessor that reads as [Object.prototype] itself. *)
Definition inheritedNames : list string :=
  ["constructor"; "__defineGetter__"; "__defineSetter__"; "hasOwnProperty";
   "__lookupGetter__"; "__lookupSetter__"; "isPrototypeOf";
   "propertyIsEnumerable"; "toString"; "valueOf"; "__proto__";
   "toLocaleString"].

Definition inherited (name : string) : bool :=
  bool_decide (name ∈ inheritedNames).

(** What [object[name]] evaluates to on a plain object whose own
    properties have values in [A]: the own property, or the inherited one,
    which is truthy and has none of the fields of an [A], or [undefined]. *)
Inductive Property (A : Type) :=
| Own (a : A)
| Inherited
| Absent.
Arguments Own {A} a.
Arguments Inherited {A}.
Arguments Absent {A}.

(** The own property [name] among [entries]; the first binding counts. *)
Fixpoint ownProperty {A} (name : string) (entries : list (string * A)) : option A :=
  match entries with
  | [] => None
  | (k, v) :: rest => if decide (k = name) then Some v else ownProperty name rest
  end.

(** [object[name]], the own properties of [object] being [entries]. *)
Definition property {A} (name : string) (entries : list (string * A)) : Property A :=
  match ownProperty name entries with
  | Some a => Own a
  | None => if inherited name then Inherited else Absent
  end.

End JS.

(** ** Binary floating point

    The operations of IEEE 754 binary64 as [SpecFloat] defines them: each
    gives the exact result rounded to the nearest representable number,
    ties to even. *)

Module Double.
Import JS.

Definition prec : Z := 53.
Definition emax : Z := 1024.

Definition double : Type := spec_float.

(** The double nearest to an integer; exact below 2^53. *)
Definition ofZ (z : Z) : double := binary_normalize prec emax z 0 false.

Definition add (a b : double) : double := SFadd prec emax a b.
Definition mul (a b : double) : double := SFmul prec emax a b.
Definition div (a b : double) : double := SFdiv prec emax a b.

(** A decimal literal such as [0.003], given as the fraction it denotes:
    the double nearest to it, which is the correctly rounded quotient of
    its numerator and denominator. *)
Definition literal (q : Q) : double := div (ofZ (Qnum q)) (ofZ (Zpos (Qden q))).

(** The exact value of a finite double. *)
Definition toQ (x : double) : option Q :=
  match x with
  | S754_zero _ => Some 0%Q
  | S754_finite s m e =>
      let magnitude :=
        match e with
        | Z0 => inject_Z (Zpos m)
        | Zpos p => inject_Z (Zpos m * 2 ^ Zpos p)
        | Zneg p => (Zpos m # 2 ^ p)%Q
        end in
      Some (if s then (- magnitude)%Q else magnitude)
  | _ => None
  end.

(** [a <= b] and [a < b] *)
Definition leb (a b : double) : bool := SFleb a b.
Definition ltb (a b : double) : bool := SFltb a b.

(** [Math.min(a, b)] *)
Definition Math_min (a b : double) : double :=
  match SFcompare a b with
  | Some Gt => b
  | Some _ => a
  | None => S754_nan
  end.

(** [Math.round(x)] for a cost [x], as the integer it is.  A cost is
    finite: the rates are below 1, and it takes a token count beyond
    10^300 for a product to overflow.  The integer fields of this
    development do not hold the Infinity or NaN of such counts. *)
Definition cents (x : double) : Z :=
  match toQ x with
  | Some q => Math_round q
  | None => 0
  end.

(** [Math.round(x)] *)
Definition Math_round (x : double) : JSNumber :=
  match x with
  | S754_nan => NaN
  | S754_infinity s => if s then NegInf else PosInf
  | _ => match toQ x with
         | Some q => Fin (inject_Z (Math_round q))
         | None => NaN
         end
  end.

(** [lo <= x <= hi] *)
Definition between (lo hi x : double) : Prop :=
  leb lo x = true /\ leb x hi = true.

End Double.

(** The arithmetic an expression of the code is read in: binary64, as the
    code runs, or exact, as its author may have meant it. *)
Class Arithmetic (N : Type) := {
  integer : Z -> N;
  decimal : Q -> N;
  plus : N -> N -> N;
  times : N -> N -> N;
  over : N -> N -> N
}.

Definition binary64 : Arithmetic Double.double :=
  {| integer := Double.ofZ; decimal := Double.literal;
     plus := Double.add; times := Double.mul; over := Double.div |}.

Definition exact : Arithmetic Q :=
  {| integer := inject_Z; decimal := fun q => q;
     plus := Qplus; times := Qmult; over := Qdiv |}.

#[global] Instance completion_ret : MRet JS.Completion := @JS.Normal.
#[global] Instance completion_bind : MBind JS.Completion :=
  fun A B k c => JS.bind c k.

(** ** packages/ai-services/src/prompts.ts *)

Module PromptTemplates.
Import JS.

Record PromptTemplate := mkPromptTemplate {
  id : string;
  name : string;
  version : string;
  analysisType : string;
  template : string;
  variables : list string;
  estimatedTokens : Z
}.

(** The double quote character, which the template texts contain. *)
Definition dq : string := String (Ascii.ascii_of_nat 34) EmptyString.

(** [static readonly QUICK_SCAN] *)
Definition QUICK_SCAN_template : string := Eval vm_compute in
"Analyze this YouTube channel for a quick assessment:

Channel: {{channelTitle}}
Description: {{channelDescription}}
Subscribers: {{subscriberCount}}
Videos: {{videoCount}}
Total Views: {{viewCount}}
Content Type: {{contentType}}
Topics: {{topics}}

Provide a concise analysis in JSON format:
{
 " +:+ dq +:+ "strengths" +:+ dq +:+ ": {
   " +:+ dq +:+ "summary" +:+ dq +:+ ": " +:+ dq +:+ "Brief overview of main strengths" +:+ dq +:+ ",
   " +:+ dq +:+ "details" +:+ dq +:+ ": [" +:+ dq +:+ "strength 1" +:+ dq +:+ ", " +:+ dq +:+ "strength 2" +:+ dq +:+ ", " +:+ dq +:+ "strength 3" +:+ dq +:+ "],
   " +:+ dq +:+ "score" +:+ dq +:+ ": 0-100
 },
 " +:+ dq +:+ "weaknesses" +:+ dq +:+ ": {
   " +:+ dq +:+ "summary" +:+ dq +:+ ": " +:+ dq +:+ "Brief overview of main weaknesses" +:+ dq +:+ ",
   " +:+ dq +:+ "details" +:+ dq +:+ ": [" +:+ dq +:+ "weakness 1" +:+ dq +:+ ", " +:+ dq +:+ "weakness 2" +:+ dq +:+ "],
   " +:+ dq +:+ "areas" +:+ dq +:+ ": [" +:+ dq +:+ "area for improvement 1" +:+ dq +:+ ", " +:+ dq +:+ "area 2" +:+ dq +:+ "]
 },
 " +:+ dq +:+ "opportunities" +:+ dq +:+ ": {
   " +:+ dq +:+ "summary" +:+ dq +:+ ": " +:+ dq +:+ "Key growth opportunities" +:+ dq +:+ ",
   " +:+ dq +:+ "recommendations" +:+ dq +:+ ": [
     {
       " +:+ dq +:+ "title" +:+ dq +:+ ": " +:+ dq +:+ "Recommendation title" +:+ dq +:+ ",
       " +:+ dq +:+ "description" +:+ dq +:+ ": " +:+ dq +:+ "Detailed description" +:+ dq +:+ ",
       " +:+ dq +:+ "priority" +:+ dq +:+ ": " +:+ dq +:+ "HIGH|MEDIUM|LOW" +:+ dq +:+ ",
       " +:+ dq +:+ "estimatedImpact" +:+ dq +:+ ": " +:+ dq +:+ "Description of potential impact" +:+ dq +:+ "
     }
   ]
 },
 " +:+ dq +:+ "scores" +:+ dq +:+ ": {
   " +:+ dq +:+ "overall" +:+ dq +:+ ": 0-100,
   " +:+ dq +:+ "contentQuality" +:+ dq +:+ ": 0-100,
   " +:+ dq +:+ "engagement" +:+ dq +:+ ": 0-100,
   " +:+ dq +:+ "growthPotential" +:+ dq +:+ ": 0-100
 }
}

Focus on actionable insights. Be specific and constructive.".

Definition QUICK_SCAN : PromptTemplate :=
  {| id := "quick_scan_v1";
     name := "Quick Channel Scan";
     version := "1.0";
     analysisType := "QUICK_SCAN";
     template := QUICK_SCAN_template;
     variables := ["channelTitle"; "channelDescription"; "subscriberCount"; "videoCount"; "viewCount"; "contentType"; "topics"];
     estimatedTokens := 800 |}.

(** [static readonly DEEP_DIVE] *)
Definition DEEP_DIVE_template : string := Eval vm_compute in
"Perform a comprehensive analysis of this YouTube channel:

Channel Information:
- Title: {{channelTitle}}
- Description: {{channelDescription}}
- Subscribers: {{subscriberCount}}
- Total Videos: {{videoCount}}
- Total Views: {{viewCount}}
- Content Type: {{contentType}}
- Topics: {{topics}}
- Published: {{publishedAt}}

{{#if recentVideos}}
Recent Videos Performance:
{{#each recentVideos}}
- " +:+ dq +:+ "{{title}}" +:+ dq +:+ " - {{views}} views, {{likes}} likes, {{comments}} comments ({{publishedAt}})
{{/each}}
{{/if}}

Provide a detailed analysis in JSON format with:

1. **Comprehensive Strengths Analysis**
2. **Detailed Weaknesses Assessment**
3. **Growth Opportunities with Priorities**
4. **Content Strategy Recommendations**
5. **Competitive Positioning**
6. **Detailed Scoring with Rationale**

JSON Response Format:
{
 " +:+ dq +:+ "strengths" +:+ dq +:+ ": {
   " +:+ dq +:+ "summary" +:+ dq +:+ ": " +:+ dq +:+ "Detailed overview of channel strengths" +:+ dq +:+ ",
   " +:+ dq +:+ "details" +:+ dq +:+ ": [" +:+ dq +:+ "specific strength with evidence" +:+ dq +:+ ", " +:+ dq +:+ "strength 2" +:+ dq +:+ ", " +:+ dq +:+ "strength 3" +:+ dq +:+ ", " +:+ dq +:+ "strength 4" +:+ dq +:+ ", " +:+ dq +:+ "strength 5" +:+ dq +:+ "],
   " +:+ dq +:+ "score" +:+ dq +:+ ": 0-100
 },
 " +:+ dq +:+ "weaknesses" +:+ dq +:+ ": {
   " +:+ dq +:+ "summary" +:+ dq +:+ ": " +:+ dq +:+ "Comprehensive weakness analysis" +:+ dq +:+ ",
   " +:+ dq +:+ "details" +:+ dq +:+ ": [" +:+ dq +:+ "specific weakness with suggestion" +:+ dq +:+ ", " +:+ dq +:+ "weakness 2" +:+ dq +:+ ", " +:+ dq +:+ "weakness 3" +:+ dq +:+ "],
   " +:+ dq +:+ "areas" +:+ dq +:+ ": [" +:+ dq +:+ "improvement area 1" +:+ dq +:+ ", " +:+ dq +:+ "area 2" +:+ dq +:+ ", " +:+ dq +:+ "area 3" +:+ dq +:+ "]
 },
 " +:+ dq +:+ "opportunities" +:+ dq +:+ ": {
   " +:+ dq +:+ "summary" +:+ dq +:+ ": " +:+ dq +:+ "Strategic growth opportunities" +:+ dq +:+ ",
   " +:+ dq +:+ "recommendations" +:+ dq +:+ ": [
     {
       " +:+ dq +:+ "title" +:+ dq +:+ ": " +:+ dq +:+ "Specific actionable recommendation" +:+ dq +:+ ",
       " +:+ dq +:+ "description" +:+ dq +:+ ": " +:+ dq +:+ "Detailed implementation strategy" +:+ dq +:+ ",
       " +:+ dq +:+ "priority" +:+ dq +:+ ": " +:+ dq +:+ "HIGH|MEDIUM|LOW" +:+ dq +:+ ",
       " +:+ dq +:+ "estimatedImpact" +:+ dq +:+ ": " +:+ dq +:+ "Quantified impact description" +:+ dq +:+ "
     }
   ]
 },
 " +:+ dq +:+ "contentStrategy" +:+ dq +:+ ": {
   " +:+ dq +:+ "recommendedTopics" +:+ dq +:+ ": [" +:+ dq +:+ "topic 1" +:+ dq +:+ ", " +:+ dq +:+ "topic 2" +:+ dq +:+ ", " +:+ dq +:+ "topic 3" +:+ dq +:+ "],
   " +:+ dq +:+ "contentGaps" +:+ dq +:+ ": [" +:+ dq +:+ "gap 1" +:+ dq +:+ ", " +:+ dq +:+ "gap 2" +:+ dq +:+ "],
   " +:+ dq +:+ "optimizationTips" +:+ dq +:+ ": [" +:+ dq +:+ "tip 1" +:+ dq +:+ ", " +:+ dq +:+ "tip 2" +:+ dq +:+ ", " +:+ dq +:+ "tip 3" +:+ dq +:+ "]
 },
 " +:+ dq +:+ "scores" +:+ dq +:+ ": {
   " +:+ dq +:+ "overall" +:+ dq +:+ ": 0-100,
   " +:+ dq +:+ "contentQuality" +:+ dq +:+ ": 0-100,
   " +:+ dq +:+ "engagement" +:+ dq +:+ ": 0-100,
   " +:+ dq +:+ "growthPotential" +:+ dq +:+ ": 0-100
 }
}

Provide data-driven insights with specific examples and actionable recommendations.".

Definition DEEP_DIVE : PromptTemplate :=
  {| id := "deep_dive_v1";
     name := "Deep Channel Analysis";
     version := "1.0";
     analysisType := "DEEP_DIVE";
     template := DEEP_DIVE_template;
     variables := ["channelTitle"; "channelDescription"; "subscriberCount"; "videoCount"; "viewCount"; "contentType"; "topics"; "publishedAt"; "recentVideos"];
     estimatedTokens := 1500 |}.

(** [static readonly COMPETITOR_COMPARE] *)
Definition COMPETITOR_COMPARE_template : string := Eval vm_compute in
"Analyze this channel in comparison to its competitive landscape:

Target Channel:
- Title: {{channelTitle}}
- Subscribers: {{subscriberCount}}
- Content Type: {{contentType}}
- Topics: {{topics}}

Analyze competitive positioning and provide strategic insights in JSON format:

{
 " +:+ dq +:+ "strengths" +:+ dq +:+ ": {
   " +:+ dq +:+ "summary" +:+ dq +:+ ": " +:+ dq +:+ "Competitive advantages analysis" +:+ dq +:+ ",
   " +:+ dq +:+ "details" +:+ dq +:+ ": [" +:+ dq +:+ "unique strength vs competitors" +:+ dq +:+ ", " +:+ dq +:+ "advantage 2" +:+ dq +:+ ", " +:+ dq +:+ "advantage 3" +:+ dq +:+ "],
   " +:+ dq +:+ "score" +:+ dq +:+ ": 0-100
 },
 " +:+ dq +:+ "weaknesses" +:+ dq +:+ ": {
   " +:+ dq +:+ "summary" +:+ dq +:+ ": " +:+ dq +:+ "Competitive disadvantages" +:+ dq +:+ ",
   " +:+ dq +:+ "details" +:+ dq +:+ ": [" +:+ dq +:+ "gap vs competitors" +:+ dq +:+ ", " +:+ dq +:+ "weakness 2" +:+ dq +:+ "],
   " +:+ dq +:+ "areas" +:+ dq +:+ ": [" +:+ dq +:+ "area to match competitors" +:+ dq +:+ ", " +:+ dq +:+ "improvement area 2" +:+ dq +:+ "]
 },
 " +:+ dq +:+ "opportunities" +:+ dq +:+ ": {
   " +:+ dq +:+ "summary" +:+ dq +:+ ": " +:+ dq +:+ "Market gaps and opportunities" +:+ dq +:+ ",
   " +:+ dq +:+ "recommendations" +:+ dq +:+ ": [
     {
       " +:+ dq +:+ "title" +:+ dq +:+ ": " +:+ dq +:+ "Competitive opportunity" +:+ dq +:+ ",
       " +:+ dq +:+ "description" +:+ dq +:+ ": " +:+ dq +:+ "How to capitalize vs competitors" +:+ dq +:+ ",
       " +:+ dq +:+ "priority" +:+ dq +:+ ": " +:+ dq +:+ "HIGH|MEDIUM|LOW" +:+ dq +:+ ",
       " +:+ dq +:+ "estimatedImpact" +:+ dq +:+ ": " +:+ dq +:+ "Competitive advantage gained" +:+ dq +:+ "
     }
   ]
 },
 " +:+ dq +:+ "competitors" +:+ dq +:+ ": {
   " +:+ dq +:+ "similarChannels" +:+ dq +:+ ": [
     {
       " +:+ dq +:+ "channelId" +:+ dq +:+ ": " +:+ dq +:+ "estimated_channel_id" +:+ dq +:+ ",
       " +:+ dq +:+ "name" +:+ dq +:+ ": " +:+ dq +:+ "Competitor channel name" +:+ dq +:+ ",
       " +:+ dq +:+ "subscribers" +:+ dq +:+ ": 0,
       " +:+ dq +:+ "whyRelevant" +:+ dq +:+ ": " +:+ dq +:+ "Why this channel is a relevant competitor" +:+ dq +:+ "
     }
   ],
   " +:+ dq +:+ "competitiveAdvantages" +:+ dq +:+ ": [" +:+ dq +:+ "advantage 1" +:+ dq +:+ ", " +:+ dq +:+ "advantage 2" +:+ dq +:+ "],
   " +:+ dq +:+ "gaps" +:+ dq +:+ ": [" +:+ dq +:+ "gap to fill" +:+ dq +:+ ", " +:+ dq +:+ "gap 2" +:+ dq +:+ "]
 },
 " +:+ dq +:+ "scores" +:+ dq +:+ ": {
   " +:+ dq +:+ "overall" +:+ dq +:+ ": 0-100,
   " +:+ dq +:+ "contentQuality" +:+ dq +:+ ": 0-100,
   " +:+ dq +:+ "engagement" +:+ dq +:+ ": 0-100,
   " +:+ dq +:+ "growthPotential" +:+ dq +:+ ": 0-100
 }
}

Focus on competitive differentiation and market positioning.".

Definition COMPETITOR_COMPARE : PromptTemplate :=
  {| id := "competitor_compare_v1";
     name := "Competitor Comparison";
     version := "1.0";
     analysisType := "COMPETITOR_COMPARE";
     template := COMPETITOR_COMPARE_template;
     variables := ["channelTitle"; "subscriberCount"; "contentType"; "topics"];
     estimatedTokens := 1200 |}.

(** [static readonly GROWTH_STRATEGY] *)
Definition GROWTH_STRATEGY_template : string := Eval vm_compute in
"Create a comprehensive growth strategy for this YouTube channel:

Channel Details:
- Title: {{channelTitle}}
- Current Subscribers: {{subscriberCount}}
- Content Focus: {{contentType}}
- Topics: {{topics}}

{{#if recentVideos}}
Recent Performance:
{{#each recentVideos}}
- " +:+ dq +:+ "{{title}}" +:+ dq +:+ " - {{views}} views, {{likes}} likes ({{publishedAt}})
{{/each}}
{{/if}}

Develop a strategic growth plan in JSON format:

{
 " +:+ dq +:+ "strengths" +:+ dq +:+ ": {
   " +:+ dq +:+ "summary" +:+ dq +:+ ": " +:+ dq +:+ "Current assets to leverage for growth" +:+ dq +:+ ",
   " +:+ dq +:+ "details" +:+ dq +:+ ": [" +:+ dq +:+ "leverageable strength 1" +:+ dq +:+ ", " +:+ dq +:+ "growth asset 2" +:+ dq +:+ ", " +:+ dq +:+ "strength 3" +:+ dq +:+ "],
   " +:+ dq +:+ "score" +:+ dq +:+ ": 0-100
 },
 " +:+ dq +:+ "weaknesses" +:+ dq +:+ ": {
   " +:+ dq +:+ "summary" +:+ dq +:+ ": " +:+ dq +:+ "Growth blockers to address" +:+ dq +:+ ",
   " +:+ dq +:+ "details" +:+ dq +:+ ": [" +:+ dq +:+ "growth blocker 1" +:+ dq +:+ ", " +:+ dq +:+ "limiting factor 2" +:+ dq +:+ "],
   " +:+ dq +:+ "areas" +:+ dq +:+ ": [" +:+ dq +:+ "critical improvement area" +:+ dq +:+ ", " +:+ dq +:+ "optimization area 2" +:+ dq +:+ "]
 },
 " +:+ dq +:+ "opportunities" +:+ dq +:+ ": {
   " +:+ dq +:+ "summary" +:+ dq +:+ ": " +:+ dq +:+ "Strategic growth opportunities" +:+ dq +:+ ",
   " +:+ dq +:+ "recommendations" +:+ dq +:+ ": [
     {
       " +:+ dq +:+ "title" +:+ dq +:+ ": " +:+ dq +:+ "Growth strategy recommendation" +:+ dq +:+ ",
       " +:+ dq +:+ "description" +:+ dq +:+ ": " +:+ dq +:+ "Detailed implementation plan with timeline" +:+ dq +:+ ",
       " +:+ dq +:+ "priority" +:+ dq +:+ ": " +:+ dq +:+ "HIGH|MEDIUM|LOW" +:+ dq +:+ ",
       " +:+ dq +:+ "estimatedImpact" +:+ dq +:+ ": " +:+ dq +:+ "Expected growth outcome (subscribers, views, etc.)" +:+ dq +:+ "
     }
   ]
 },
 " +:+ dq +:+ "contentStrategy" +:+ dq +:+ ": {
   " +:+ dq +:+ "recommendedTopics" +:+ dq +:+ ": [" +:+ dq +:+ "high-growth topic 1" +:+ dq +:+ ", " +:+ dq +:+ "trending topic 2" +:+ dq +:+ ", " +:+ dq +:+ "niche topic 3" +:+ dq +:+ "],
   " +:+ dq +:+ "contentGaps" +:+ dq +:+ ": [" +:+ dq +:+ "underserved content area 1" +:+ dq +:+ ", " +:+ dq +:+ "gap 2" +:+ dq +:+ "],
   " +:+ dq +:+ "optimizationTips" +:+ dq +:+ ": [
     " +:+ dq +:+ "SEO optimization strategy" +:+ dq +:+ ",
     " +:+ dq +:+ "Engagement optimization tip" +:+ dq +:+ ",
     " +:+ dq +:+ "Algorithm optimization strategy" +:+ dq +:+ "
   ]
 },
 " +:+ dq +:+ "scores" +:+ dq +:+ ": {
   " +:+ dq +:+ "overall" +:+ dq +:+ ": 0-100,
   " +:+ dq +:+ "contentQuality" +:+ dq +:+ ": 0-100,
   " +:+ dq +:+ "engagement" +:+ dq +:+ ": 0-100,
   " +:+ dq +:+ "growthPotential" +:+ dq +:+ ": 0-100
 }
}

Focus on actionable, timeline-specific growth strategies with measurable outcomes.".

Definition GROWTH_STRATEGY : PromptTemplate :=
  {| id := "growth_strategy_v1";
     name := "Growth Strategy Analysis";
     version := "1.0";
     analysisType := "GROWTH_STRATEGY";
     template := GROWTH_STRATEGY_template;
     variables := ["channelTitle"; "subscriberCount"; "contentType"; "topics"; "recentVideos"];
     estimatedTokens := 1400 |}.

(** [getPromptTemplate(analysisType)] *)
Definition getPromptTemplate (analysisType : string) : Completion PromptTemplate :=
  if decide (analysisType = "QUICK_SCAN") then Normal QUICK_SCAN
  else if decide (analysisType = "DEEP_DIVE") then Normal DEEP_DIVE
  else if decide (analysisType = "COMPETITOR_COMPARE") then Normal COMPETITOR_COMPARE
  else if decide (analysisType = "GROWTH_STRATEGY") then Normal GROWTH_STRATEGY
  else Throw ("Unknown analysis type: " +:+ analysisType).

(** *** Text matching

    The three regular expressions of [replaceVariables] are matched by
    the functions below.  A text is a [string], each character being one
    code unit. *)

(** [s] without its prefix [p], when it has that prefix. *)
Fixpoint stripPrefix (p s : string) : option string :=
  match p, s with
  | EmptyString, _ => Some s
  | String a p', String b s' => if Ascii.eqb a b then stripPrefix p' s' else None
  | String _ _, EmptyString => None
  end.

(** The character class [\w]. *)
Definition isWordChar (c : ascii) : bool :=
  let n := Ascii.N_of_ascii c in
  ((48 <=? n) && (n <=? 57) || (65 <=? n) && (n <=? 90)
   || (97 <=? n) && (n <=? 122) || (n =? 95))%N.

(** The longest prefix of word characters, and what follows it. *)
Fixpoint spanWord (s : string) : string * string :=
  match s with
  | EmptyString => (EmptyString, EmptyString)
  | String c s' =>
      if isWordChar c
      then let '(w, rest) := spanWord s' in (String c w, rest)
      else (EmptyString, s)
  end.

(** The text before and after the first occurrence of [pat] in [s]. *)
Fixpoint splitAtFirst (pat s : string) : option (string * string) :=
  match stripPrefix pat s with
  | Some after => Some (EmptyString, after)
  | None =>
      match s with
      | EmptyString => None
      | String c s' =>
          match splitAtFirst pat s' with
          | Some (before, after) => Some (String c before, after)
          | None => None
          end
      end
  end.

(** Whether [s] is one or more word characters, as [\w+] asks. *)
Fixpoint allWordChars (s : string) : bool :=
  match s with
  | EmptyString => true
  | String c s' => isWordChar c && allWordChars s'
  end.

Definition isWord (s : string) : bool :=
  negb (bool_decide (s = EmptyString)) && allWordChars s.

(** Whether [pat] occurs in [s]. *)
Definition occurs (pat s : string) : bool :=
  match splitAtFirst pat s with
  | Some _ => true
  | None => false
  end.

(** [String.prototype.replace] with a global regular expression.
    [matchAt before s] tries the expression at the start of [s], where
    [before] is the text already passed; it answers with the text that
    replaces the match and the length of the match, which is positive.
    The search resumes after the match; [skip] counts the characters of
    the current match still to pass. *)
Fixpoint globalReplace (matchAt : string -> string -> option (string * nat))
    (before : string) (skip : nat) (s : string) : string :=
  match s with
  | EmptyString => EmptyString
  | String c s' =>
      let before' := before +:+ String c EmptyString in
      match skip with
      | S k => globalReplace matchAt before' k s'
      | O =>
          match matchAt before s with
          | Some (replacement, len) =>
              replacement +:+ globalReplace matchAt before' (Nat.pred len) s'
          | None => String c (globalReplace matchAt before' 0 s')
          end
      end
  end.

(** An expression that can only match where [opener] starts. *)
Definition guardedBy (matchAt : string -> string -> option (string * nat))
    (opener : string) : Prop :=
  forall before s, stripPrefix opener s = None -> matchAt before s = None.

(** The replacement text for one match of an expression without capture
    groups, when the replacement is given as a string: [$$] is a dollar
    sign, [$&] the match, [$`] the text before the match, [$'] the text
    after it, and any other character stands for itself. *)
Fixpoint getSubstitution (matched before after replacement : string) : string :=
  match replacement with
  | EmptyString => EmptyString
  | String c r =>
      if Ascii.eqb c "$"
      then match r with
           | EmptyString => String c EmptyString
           | String d r' =>
               if Ascii.eqb d "$" then String d (getSubstitution matched before after r')
               else if Ascii.eqb d "&" then matched +:+ getSubstitution matched before after r'
               else if Ascii.eqb d "`" then before +:+ getSubstitution matched before after r'
               else if Ascii.eqb d "'" then after +:+ getSubstitution matched before after r'
               else String c (getSubstitution matched before after r)
           end
      else String c (getSubstitution matched before after r)
  end.

(** A replacement string without a dollar sign stands for itself. *)
Definition plain (replacement : string) : bool :=
  negb (occurs "$" replacement).

(** Whether [s] is made of decimal digits. *)
Fixpoint allDigits (s : string) : bool :=
  match s with
  | EmptyString => true
  | String c s' =>
      (let n := Ascii.N_of_ascii c in (48 <=? n) && (n <=? 57))%N && allDigits s'
  end.

(** The keys [k] for which the expression [new RegExp(`{{${k}}}`, 'g')]
    matches the text [{{k}}] and nothing else: words ([\w+]) that are not
    numbers.  A word has no character that is special in an expression,
    and its braces are then ordinary characters; around a number they are
    a quantifier, [{{12}}] being an opening brace twelve times and a
    closing brace.  The keys and element properties of every caller in
    the repository are such words. *)
Definition literalKey (key : string) : bool :=
  isWord key && negb (allDigits key).

(** [new RegExp(`{{${key}}}`, 'g')] at the start of [s], with the
    replacement string [replacement], for a key that is a [literalKey]:
    the expression matches the literal text and has no capture group.
    For other keys the expression is another one, or a [SyntaxError];
    they are not modelled, and what is stated of this function is stated
    of literal keys. *)
Definition matchToken (key replacement : string) (before s : string)
    : option (string * nat) :=
  let token := "{{" +:+ key +:+ "}}" in
  match stripPrefix token s with
  | Some after =>
      Some (getSubstitution token before after replacement, String.length token)
  | None => None
  end.

(** [text.replace(new RegExp(`{{${key}}}`, 'g'), replacement)] *)
Definition replaceToken (key replacement : string) (text : string) : string :=
  globalReplace (matchToken key replacement) EmptyString 0 text.

(** [/{{#tag (\w+)}}([\s\S]*?){{\/tag}}/] at the start of [s], with the
    replacer function [f] applied to the two groups.  [opener] is
    [{{#tag ] with its space, [closer] is [{{/tag}}]. *)
Definition matchBlock (opener closer : string) (f : string -> string -> string)
    (before s : string) : option (string * nat) :=
  match stripPrefix opener s with
  | None => None
  | Some s1 =>
      let '(varName, s2) := spanWord s1 in
      if decide (varName = EmptyString) then None
      else
        match stripPrefix "}}" s2 with
        | None => None
        | Some s3 =>
            match splitAtFirst closer s3 with
            | None => None
            | Some (content, _) =>
                Some (f varName content,
                      (String.length opener + String.length varName + 2
                       + String.length content + String.length closer)%nat)
            end
        end
  end.

(** *** Template variables *)

(** An element of an array variable: its own properties in order, each
    value already converted by [String(val)]. *)
Definition Item := list (string * string).

(** The value of a template variable: a string, or an array of objects.
    These are the two kinds the services pass. *)
Inductive Value :=
| VStr (s : string)
| VArr (items : list Item).

(** [String(value)] *)
Definition toString (v : Value) : string :=
  match v with
  | VStr s => s
  | VArr items =>
      String.concat "," (map (fun _ => "[object Object]") items)
  end.

(** The own property [varName] of [variables]. *)
Fixpoint lookup (varName : string) (variables : list (string * Value))
    : option Value :=
  match variables with
  | [] => None
  | (k, v) :: rest => if decide (k = varName) then Some v else lookup varName rest
  end.

(** [variables[varName]]: the own property, or else the property of that
    name every object inherits. *)
Definition get (varName : string) (variables : list (string * Value))
    : Property Value :=
  match lookup varName variables with
  | Some v => Own v
  | None => if inherited varName then Inherited else Absent
  end.

(** Truthiness of [variables[varName]]. *)
Definition isTruthy (v : Property Value) : bool :=
  match v with
  | Own (VStr s) => negb (bool_decide (s = EmptyString))
  | Own (VArr _) => true
  | Inherited => true
  | Absent => false
  end.

(** First pass: [Object.entries(variables).forEach(...)]. *)
Definition substituteVariables (variables : list (string * Value)) (text : string)
    : string :=
  foldl (fun result kv => replaceToken (fst kv) (toString (snd kv)) result)
        text variables.

(** The replacer of the second pass. *)
Definition ifReplacer (variables : list (string * Value))
    (varName content : string) : string :=
  if isTruthy (get varName variables) then content else EmptyString.

(** Second pass. *)
Definition expandConditionals (variables : list (string * Value)) (text : string)
    : string :=
  globalReplace (matchBlock "{{#if " "{{/if}}" (ifReplacer variables))
                EmptyString 0 text.

(** The body of [array.map(item => ...)]. *)
Definition renderItem (template : string) (item : Item) : string :=
  foldl (fun itemResult pv => replaceToken (fst pv) (snd pv) itemResult)
        template item.

(** The replacer of the third pass. *)
Definition eachReplacer (variables : list (string * Value))
    (varName template : string) : string :=
  match get varName variables with
  | Own (VArr array) =>
      String.concat EmptyString (map (renderItem template) array)
  | _ => EmptyString
  end.

(** Third pass. *)
Definition expandLoops (variables : list (string * Value)) (text : string)
    : string :=
  globalReplace (matchBlock "{{#each " "{{/each}}" (eachReplacer variables))
                EmptyString 0 text.

(** [replaceVariables(template, variables)] *)
Definition replaceVariables (template : string) (variables : list (string * Value))
    : string :=
  let result := template in
  let result := substituteVariables variables result in
  let result := expandConditionals variables result in
  let result := expandLoops variables result in
  result.

(** [estimateTokens(text)]: [Math.ceil(text.length / 4)] *)
Definition estimateTokens (text : string) : Z :=
  (Z.of_nat (String.length text) + 3) / 4.

(** The names [n] for which the token [{{n}}] occurs in [text]: at each
    opening [{{] followed by word characters and [}}]. *)
Fixpoint tokenNames (text : string) : list string :=
  match text with
  | EmptyString => []
  | String c text' =>
      match stripPrefix "{{" text with
      | Some s1 =>
          let '(w, s2) := spanWord s1 in
          match stripPrefix "}}" s2 with
          | Some _ =>
              if decide (w = EmptyString) then tokenNames text'
              else w :: tokenNames text'
          | None => tokenNames text'
          end
      | None => tokenNames text'
      end
  end.

(** The token of a name. *)
Definition tokenOf (n : string) : string := "{{" +:+ n +:+ "}}".

(** The properties of an element of [recentVideos]. *)
Definition videoProperties : list string :=
  ["title"; "views"; "likes"; "comments"; "publishedAt"].

(** [text] without the bodies of its [{{#each}}] blocks. *)
Definition withoutLoopBodies (text : string) : string :=
  globalReplace (matchBlock "{{#each " "{{/each}}" (fun _ _ => EmptyString))
                EmptyString 0 text.

End PromptTemplates.

(** ** packages/ai-services/src/types.ts *)

Module Types.
Import JS.

(** [type AIProvider] *)
Inductive AIProvider := openai | claude | google.

#[global] Instance AIProvider_eq_dec : EqDecision AIProvider.
Proof. solve_decision. Defined.

Definition providerName (p : AIProvider) : string :=
  match p with
  | openai => "openai"
  | claude => "claude"
  | google => "google"
  end.

(** The type of [AIAnalysisRequest.analysisType]. *)
Inductive AnalysisType :=
| QUICK_SCAN
| DEEP_DIVE
| COMPETITOR_COMPARE
| GROWTH_STRATEGY.

#[global] Instance AnalysisType_eq_dec : EqDecision AnalysisType.
Proof. solve_decision. Defined.

Definition analysisTypeName (t : AnalysisType) : string :=
  match t with
  | QUICK_SCAN => "QUICK_SCAN"
  | DEEP_DIVE => "DEEP_DIVE"
  | COMPETITOR_COMPARE => "COMPETITOR_COMPARE"
  | GROWTH_STRATEGY => "GROWTH_STRATEGY"
  end.

Record Video := mkVideo {
  video_title : string;
  views : Z;
  likes : Z;
  comments : Z;
  publishedAt : string
}.

Record ChannelData := mkChannelData {
  channel_id : string;
  title : string;
  description : string;
  subscriberCount : Z;
  videoCount : Z;
  viewCount : Z;
  contentType : string;
  topics : list string;
  recentVideos : option (list Video)
}.

(** [interface AIAnalysisRequest]; its [options] are never read. *)
Record AIAnalysisRequest := mkRequest {
  channelData : ChannelData;
  analysisType : AnalysisType
}.

Record Strengths := mkStrengths {
  strengths_summary : JsValue;
  strengths_details : list JsValue;
  score : JSNumber
}.

Record Weaknesses := mkWeaknesses {
  weaknesses_summary : JsValue;
  weaknesses_details : list JsValue;
  areas : list JsValue
}.

Record Opportunities := mkOpportunities {
  opportunities_summary : JsValue;
  recommendations : list JsValue
}.

Record Scores := mkScores {
  overall : JSNumber;
  contentQuality : JSNumber;
  engagement : JSNumber;
  growthPotential : JSNumber
}.

Record AnalysisMetadata := mkAnalysisMetadata {
  aiModel : string;
  promptVersion : string;
  analysis_processingTime : Z;
  confidence : Double.double;
  analysis_costCents : Z
}.

(** [interface AIAnalysisResponse].  The fields copied from the parsed
    answer keep whatever value it had there. *)
Record AIAnalysisResponse := mkAnalysis {
  strengths : Strengths;
  weaknesses : Weaknesses;
  opportunities : Opportunities;
  competitors : JsValue;
  contentStrategy : JsValue;
  scores : Scores;
  analysis_metadata : AnalysisMetadata
}.

(** [interface AIModelConfig].  The temperature and the two rates are
    the decimal literals of the source, each given as the fraction it
    denotes; the number the code computes with is the double nearest to
    it ([decimal]). *)
Record AIModelConfig := mkModelConfig {
  config_provider : AIProvider;
  config_model : string;
  maxTokens : Z;
  temperature : Q;
  costPerInputToken : Q;
  costPerOutputToken : Q
}.

(** [interface CostEstimate].  The estimated cost is the value of
    [Math.round], which is NaN when the rates are [undefined]. *)
Record CostEstimate := mkCostEstimate {
  estimate_provider : AIProvider;
  estimate_model : string;
  estimatedInputTokens : Z;
  estimatedOutputTokens : Z;
  estimatedCostCents : JSNumber
}.

Record ServiceError := mkServiceError {
  code : string;
  message : string;
  error_provider : option AIProvider
}.

Record ResponseMetadata := mkResponseMetadata {
  requestId : string;
  processingTime : Z;
  tokensUsed : Z;
  costCents : Z
}.

(** [interface AIServiceResponse<AIAnalysisResponse>] *)
Record AIServiceResponse := mkResponse {
  success : bool;
  data : option AIAnalysisResponse;
  error : option ServiceError;
  metadata : ResponseMetadata
}.

(** A score within bounds: an integer from 0 to 100. *)
Definition validScore (n : JSNumber) : Prop :=
  exists z : Z, n = Fin (inject_Z z) /\ 0 <= z <= 100.

(** All five scores of a result are within bounds. *)
Definition validScores (r : AIAnalysisResponse) : Prop :=
  validScore (score (strengths r)) /\
  validScore (overall (scores r)) /\
  validScore (contentQuality (scores r)) /\
  validScore (engagement (scores r)) /\
  validScore (growthPotential (scores r)).

(** The five scores of [r] are what [validate] makes of the five score
    fields of the parsed answer [parsed]. *)
Definition scoresFrom (validate : JsValue -> JSNumber) (parsed : JsValue)
    (r : AIAnalysisResponse) : Prop :=
  exists p_strengths p_scores,
    getProp parsed "strengths" = Normal p_strengths
    /\ getProp parsed "scores" = Normal p_scores
    /\ (exists v, getProp p_strengths "score" = Normal v
                  /\ score (strengths r) = validate v)
    /\ (exists v, getProp p_scores "overall" = Normal v
                  /\ overall (scores r) = validate v)
    /\ (exists v, getProp p_scores "contentQuality" = Normal v
                  /\ contentQuality (scores r) = validate v)
    /\ (exists v, getProp p_scores "engagement" = Normal v
                  /\ engagement (scores r) = validate v)
    /\ (exists v, getProp p_scores "growthPotential" = Normal v
                  /\ growthPotential (scores r) = validate v).

(** What one [fetch] of a provider's API comes to, as [makeAPICall] sees
    it.  [usage] is the token count object of the provider. *)
Inductive HttpOutcome (Usage : Type) :=
| Failed (message : string)
    (** [fetch] or [response.json()] threw, or the body lacks the fields
        read from it *)
| NotOk (errorMessage : option string)
    (** [!response.ok], with [error.error?.message] when it is truthy *)
| Ok (content : string) (usage : Usage).
Arguments Failed {Usage} message.
Arguments NotOk {Usage} errorMessage.
Arguments Ok {Usage} content usage.

(** What one [fetch] comes to when the request names no model.  For a
    model name such as [constructor], [MODEL_CONFIGS[model]] is a property
    every object inherits: it has no [model], [maxTokens] or
    [temperature], and [JSON.stringify] leaves these fields out of the
    request.  Both APIs require [model], so the exchange does not end in a
    completion: [fetch] or [response.json()] throws, or the answer is not
    ok. *)
Inductive Rejection :=
| Unreachable (message : string)
| Rejected (errorMessage : option string).

(** The inputs of one invocation of a provider client that come from
    outside: what the HTTP exchange comes to for the prompt and the model
    configuration sent, what it comes to for the prompt when the request
    names no model, the generated request id, and the milliseconds on
    the clock between the start of the invocation and the moment its
    processing time is taken. *)
Record Invocation (Usage : Type) := mkInvocation {
  exchange : string -> AIModelConfig -> HttpOutcome Usage;
  exchangeWithoutModel : string -> Rejection;
  generatedRequestId : string;
  elapsed : Z
}.
Arguments exchange {Usage} i prompt config.
Arguments exchangeWithoutModel {Usage} i prompt.
Arguments generatedRequestId {Usage} i.
Arguments elapsed {Usage} i.

(** The template variables both provider clients build from a request. *)
Definition videoItem `{Host} (v : Video) : PromptTemplates.Item :=
  [("title", video_title v);
   ("views", NumberToString (views v));
   ("likes", NumberToString (likes v));
   ("comments", NumberToString (comments v));
   ("publishedAt", publishedAt v)].

Definition promptVariables `{Host} (request : AIAnalysisRequest)
    : list (string * PromptTemplates.Value) :=
  let c := channelData request in
  [("channelTitle", PromptTemplates.VStr (title c));
   ("channelDescription", PromptTemplates.VStr (description c));
   ("subscriberCount", PromptTemplates.VStr (toLocaleString (subscriberCount c)));
   ("videoCount", PromptTemplates.VStr (toLocaleString (videoCount c)));
   ("viewCount", PromptTemplates.VStr (toLocaleString (viewCount c)));
   ("contentType", PromptTemplates.VStr (contentType c));
   ("topics", PromptTemplates.VStr (String.concat ", " (topics c)));
   ("recentVideos", PromptTemplates.VArr (map videoItem (default [] (recentVideos c))))].

(** A response of the provider client [provider], whose error code is
    [errorCode], to an invocation with the given request id and elapsed
    time for [model]: either a success carrying a result and no error,
    with the model, the time and the cost repeated in the metadata of the
    result, or a failure carrying an error tagged with the provider, no
    result, and neither tokens nor cost. *)
Definition tagged (errorCode : string) (provider : AIProvider)
    (id : string) (time : Z) (model : string) (r : AIServiceResponse) : Prop :=
  requestId (metadata r) = id
  /\ processingTime (metadata r) = time
  /\ ((success r = true /\ error r = None
       /\ exists result,
            data r = Some result
            /\ aiModel (analysis_metadata result) = model
            /\ analysis_processingTime (analysis_metadata result) = time
            /\ analysis_costCents (analysis_metadata result) = costCents (metadata r))
      \/ (success r = false /\ data r = None
          /\ tokensUsed (metadata r) = 0 /\ costCents (metadata r) = 0
          /\ exists text,
               error r = Some {| code := errorCode; message := text;
                                 error_provider := Some provider |})).

(** The failure response of a provider client with the message [text]. *)
Definition failedWith (errorCode : string) (provider : AIProvider)
    (id : string) (time : Z) (text : string) : AIServiceResponse :=
  {| success := false;
     data := None;
     error := Some {| code := errorCode;
                      message := text;
                      error_provider := Some provider |};
     metadata := {| requestId := id; processingTime := time;
                    tokensUsed := 0; costCents := 0 |} |}.

(** The response of a provider client to a model its table does not have. *)
Definition unsupportedModel (errorCode : string) (provider : AIProvider)
    (id : string) (time : Z) (model : string) : AIServiceResponse :=
  failedWith errorCode provider id time ("Unsupported model: " +:+ model).

End Types.

(** ** packages/ai-services/src/openai.ts *)

Module OpenAIService.
Import JS Types.

(** [data.usage] of the chat completions API. *)
Record Usage := mkUsage {
  prompt_tokens : Z;
  completion_tokens : Z;
  total_tokens : Z
}.

(** [private static readonly MODEL_CONFIGS]: its own properties. *)
Definition modelConfigs : list (string * AIModelConfig) :=
  [("gpt-4",
    {| config_provider := openai; config_model := "gpt-4";
       maxTokens := 8192; temperature := 7 # 10;
       costPerInputToken := 3 # 1000; costPerOutputToken := 6 # 1000 |});
   ("gpt-4-turbo",
    {| config_provider := openai; config_model := "gpt-4-turbo-preview";
       maxTokens := 4096; temperature := 7 # 10;
       costPerInputToken := 1 # 1000; costPerOutputToken := 3 # 1000 |});
   ("gpt-3.5-turbo",
    {| config_provider := openai; config_model := "gpt-3.5-turbo";
       maxTokens := 4096; temperature := 7 # 10;
       costPerInputToken := 5 # 10000; costPerOutputToken := 15 # 10000 |})].

(** [MODEL_CONFIGS[model]] *)
Definition MODEL_CONFIGS (model : string) : Property AIModelConfig :=
  property model modelConfigs.

(** [getModelConfig(model)] *)
Definition getModelConfig (model : string) : Property AIModelConfig :=
  MODEL_CONFIGS model.

(** [makeAPICall(prompt, model, config)], given what the exchange came to. *)
Definition makeAPICall (outcome : HttpOutcome Usage) : Completion (string * Usage) :=
  match outcome with
  | Failed m => Throw m
  | NotOk errorMessage =>
      Throw ("OpenAI API Error: " +:+ default "Unknown error" errorMessage)
  | Ok content usage => Normal (content, usage)
  end.

(** [makeAPICall(prompt, model, config)] when [config] is an inherited
    property, so that the request names no model: it throws. *)
Definition makeAPICallWithoutModel {A} (outcome : Rejection) : Completion A :=
  match outcome with
  | Unreachable m => Throw m
  | Rejected errorMessage =>
      Throw ("OpenAI API Error: " +:+ default "Unknown error" errorMessage)
  end.

(** [validateScore(score)] *)
Definition validateScore `{Host} (score : JsValue) : JSNumber :=
  let num := Number score in
  if isNaN num then Fin 0
  else Math_max (Fin 0) (Math_min (Fin 100) (Math_round_num num)).

(** [parseAnalysisResponse(content)] *)
Definition parseAnalysisResponse `{Host} (content : string)
    : Completion AIAnalysisResponse :=
  tryCatch
    (parsed ← JSON_parse content;
     p_strengths ← getProp parsed "strengths";
     p_weaknesses ← getProp parsed "weaknesses";
     p_opportunities ← getProp parsed "opportunities";
     p_scores ← getProp parsed "scores";
     if negb (truthy p_strengths) || negb (truthy p_weaknesses)
        || negb (truthy p_opportunities) || negb (truthy p_scores)
     then Throw "Invalid response format: missing required fields"
     else
       s_summary ← getProp p_strengths "summary";
       s_details ← getProp p_strengths "details";
       s_score ← getProp p_strengths "score";
       w_summary ← getProp p_weaknesses "summary";
       w_details ← getProp p_weaknesses "details";
       w_areas ← getProp p_weaknesses "areas";
       o_summary ← getProp p_opportunities "summary";
       o_recommendations ← getProp p_opportunities "recommendations";
       p_competitors ← getProp parsed "competitors";
       p_contentStrategy ← getProp parsed "contentStrategy";
       sc_overall ← getProp p_scores "overall";
       sc_contentQuality ← getProp p_scores "contentQuality";
       sc_engagement ← getProp p_scores "engagement";
       sc_growthPotential ← getProp p_scores "growthPotential";
       Normal
         {| strengths :=
              {| strengths_summary := or s_summary (JStr EmptyString);
                 strengths_details := arrayOrEmpty s_details;
                 score := validateScore s_score |};
            weaknesses :=
              {| weaknesses_summary := or w_summary (JStr EmptyString);
                 weaknesses_details := arrayOrEmpty w_details;
                 areas := arrayOrEmpty w_areas |};
            opportunities :=
              {| opportunities_summary := or o_summary (JStr EmptyString);
                 recommendations := arrayOrEmpty o_recommendations |};
            competitors := or p_competitors JUndefined;
            contentStrategy := or p_contentStrategy JUndefined;
            scores :=
              {| overall := validateScore sc_overall;
                 contentQuality := validateScore sc_contentQuality;
                 engagement := validateScore sc_engagement;
                 growthPotential := validateScore sc_growthPotential |};
            analysis_metadata :=
              {| aiModel := EmptyString; promptVersion := EmptyString;
                 analysis_processingTime := 0; confidence := Double.ofZ 0;
                 analysis_costCents := 0 |} |})
    (fun m => Throw ("Failed to parse AI response: " +:+ m)).

(** [calculateCost(inputTokens, outputTokens, config)], in the
    arithmetic [N]: binary64 is what the client computes. *)
Definition calculateCost {N} {A : Arithmetic N} (inputTokens outputTokens : Z)
    (config : AIModelConfig) : N :=
  let inputCost :=
    times (over (integer inputTokens) (integer 1000))
          (decimal (costPerInputToken config)) in
  let outputCost :=
    times (over (integer outputTokens) (integer 1000))
          (decimal (costPerOutputToken config)) in
  plus inputCost outputCost.

(** [calculateConfidence(result)] *)
Definition calculateConfidence (result : AIAnalysisResponse) : Double.double :=
  let confidence := Double.literal (5 # 10) in
  let confidence :=
    if decide (3 <= length (strengths_details (strengths result)))%nat
    then Double.add confidence (Double.literal (1 # 10)) else confidence in
  let confidence :=
    if decide (2 <= length (weaknesses_details (weaknesses result)))%nat
    then Double.add confidence (Double.literal (1 # 10)) else confidence in
  let confidence :=
    if decide (1 <= length (recommendations (opportunities result)))%nat
    then Double.add confidence (Double.literal (1 # 10)) else confidence in
  let confidence :=
    if greaterThanZero (overall (scores result))
    then Double.add confidence (Double.literal (1 # 10)) else confidence in
  let confidence :=
    if truthy (contentStrategy result)
    then Double.add confidence (Double.literal (1 # 10)) else confidence in
  Double.Math_min (Double.ofZ 1) confidence.

(** [analyzeChannel(request, model)] *)
Definition analyzeChannel `{Host} (call : Invocation Usage)
    (request : AIAnalysisRequest) (model : string) : AIServiceResponse :=
  let requestId := generatedRequestId call in
  let attempt : Completion AIServiceResponse :=
    promptTemplate ←
      PromptTemplates.getPromptTemplate (analysisTypeName (analysisType request));
    let prompt :=
      PromptTemplates.replaceVariables
        (PromptTemplates.template promptTemplate) (promptVariables request) in
    let inputTokens := PromptTemplates.estimateTokens prompt in
    match MODEL_CONFIGS model with
    | Absent => Throw ("Unsupported model: " +:+ model)
    | Inherited => makeAPICallWithoutModel (exchangeWithoutModel call prompt)
    | Own config =>
        response ← makeAPICall (exchange call prompt config);
        analysisResult ← parseAnalysisResponse (fst response);
        let totalCost :=
          calculateCost (A := binary64) (prompt_tokens (snd response))
                        (completion_tokens (snd response)) config in
        let processingTime := elapsed call in
        let analysisResult :=
          {| strengths := strengths analysisResult;
             weaknesses := weaknesses analysisResult;
             opportunities := opportunities analysisResult;
             competitors := competitors analysisResult;
             contentStrategy := contentStrategy analysisResult;
             scores := scores analysisResult;
             analysis_metadata :=
               {| aiModel := model;
                  promptVersion := PromptTemplates.version promptTemplate;
                  analysis_processingTime := processingTime;
                  confidence := calculateConfidence analysisResult;
                  analysis_costCents :=
                    Double.cents (Double.mul totalCost (Double.ofZ 100)) |} |} in
        Normal
          {| success := true;
             data := Some analysisResult;
             error := None;
             metadata :=
               {| requestId := requestId;
                  processingTime := processingTime;
                  tokensUsed := total_tokens (snd response);
                  costCents :=
                    Double.cents (Double.mul totalCost (Double.ofZ 100)) |} |}
    end in
  match attempt with
  | Normal response => response
  | Throw m =>
      {| success := false;
         data := None;
         error := Some {| code := "OPENAI_ERROR"; message := m;
                          error_provider := Some openai |};
         metadata :=
           {| requestId := requestId;
              processingTime := elapsed call;
              tokensUsed := 0;
              costCents := 0 |} |}
  end.

(** [getAvailableModels()]: [Object.keys(MODEL_CONFIGS)], the own keys. *)
Definition getAvailableModels : list string := modelConfigs.*1.

(** [a || b] for an optional string [a]: the empty string is falsy. *)
Definition keyOr (a : option string) (b : string) : string :=
  match a with
  | Some s => if decide (s = EmptyString) then b else s
  | None => b
  end.

(** [new OpenAIService(apiKey)], with the environment variable it reads:
    the [apiKey] field of the new object, or the error thrown. *)
Definition construct (apiKey OPENAI_API_KEY : option string) : Completion string :=
  let apiKey := keyOr apiKey (keyOr OPENAI_API_KEY EmptyString) in
  if decide (apiKey = EmptyString) then Throw "OpenAI API key is required"
  else Normal apiKey.

End OpenAIService.

(** ** packages/ai-services/src/claude.ts *)

Module ClaudeService.
Import JS Types.

(** [data.usage] of the messages API. *)
Record Usage := mkUsage {
  input_tokens : Z;
  output_tokens : Z
}.

(** [private static readonly MODEL_CONFIGS]: its own properties. *)
Definition modelConfigs : list (string * AIModelConfig) :=
  [("claude-3-opus",
    {| config_provider := claude; config_model := "claude-3-opus-20240229";
       maxTokens := 4096; temperature := 7 # 10;
       costPerInputToken := 15 # 1000; costPerOutputToken := 75 # 1000 |});
   ("claude-3-sonnet",
    {| config_provider := claude; config_model := "claude-3-sonnet-20240229";
       maxTokens := 4096; temperature := 7 # 10;
       costPerInputToken := 3 # 1000; costPerOutputToken := 15 # 1000 |});
   ("claude-3-haiku",
    {| config_provider := claude; config_model := "claude-3-haiku-20240307";
       maxTokens := 4096; temperature := 7 # 10;
       costPerInputToken := 25 # 100000; costPerOutputToken := 125 # 100000 |})].

(** [MODEL_CONFIGS[model]] *)
Definition MODEL_CONFIGS (model : string) : Property AIModelConfig :=
  property model modelConfigs.

(** [getModelConfig(model)] *)
Definition getModelConfig (model : string) : Property AIModelConfig :=
  MODEL_CONFIGS model.

(** [makeAPICall(prompt, model, config)], given what the exchange came to. *)
Definition makeAPICall (outcome : HttpOutcome Usage) : Completion (string * Usage) :=
  match outcome with
  | Failed m => Throw m
  | NotOk errorMessage =>
      Throw ("Claude API Error: " +:+ default "Unknown error" errorMessage)
  | Ok content usage => Normal (content, usage)
  end.

(** [makeAPICall(prompt, model, config)] when [config] is an inherited
    property, so that the request names no model: it throws. *)
Definition makeAPICallWithoutModel {A} (outcome : Rejection) : Completion A :=
  match outcome with
  | Unreachable m => Throw m
  | Rejected errorMessage =>
      Throw ("Claude API Error: " +:+ default "Unknown error" errorMessage)
  end.

(** [validateScore(score)] *)
Definition validateScore `{Host} (score : JsValue) : JSNumber :=
  let num := Number score in
  if isNaN num then Fin 0
  else Math_max (Fin 0) (Math_min (Fin 100) (Math_round_num num)).

(** The prefix of [s] that ends with its last closing brace. *)
Fixpoint throughLastBrace (s : string) : option string :=
  match s with
  | EmptyString => None
  | String c s' =>
      match throughLastBrace s' with
      | Some r => Some (String c r)
      | None => if Ascii.eqb c "}" then Some (String c EmptyString) else None
      end
  end.

(** [content.match(/\{[\s\S]*\}/)]: from the first opening brace to
    the last closing brace after it. *)
Fixpoint jsonMatch (content : string) : option string :=
  match content with
  | EmptyString => None
  | String c s' =>
      if Ascii.eqb c "{" then throughLastBrace content else jsonMatch s'
  end.

(** [parseAnalysisResponse(content)] *)
Definition parseAnalysisResponse `{Host} (content : string)
    : Completion AIAnalysisResponse :=
  tryCatch
    (matched ←
       match jsonMatch content with
       | Some m => Normal m
       | None => Throw "No JSON found in response"
       end;
     parsed ← JSON_parse matched;
     p_strengths ← getProp parsed "strengths";
     p_weaknesses ← getProp parsed "weaknesses";
     p_opportunities ← getProp parsed "opportunities";
     p_scores ← getProp parsed "scores";
     if negb (truthy p_strengths) || negb (truthy p_weaknesses)
        || negb (truthy p_opportunities) || negb (truthy p_scores)
     then Throw "Invalid response format: missing required fields"
     else
       s_summary ← getProp p_strengths "summary";
       s_details ← getProp p_strengths "details";
       s_score ← getProp p_strengths "score";
       w_summary ← getProp p_weaknesses "summary";
       w_details ← getProp p_weaknesses "details";
       w_areas ← getProp p_weaknesses "areas";
       o_summary ← getProp p_opportunities "summary";
       o_recommendations ← getProp p_opportunities "recommendations";
       p_competitors ← getProp parsed "competitors";
       p_contentStrategy ← getProp parsed "contentStrategy";
       sc_overall ← getProp p_scores "overall";
       sc_contentQuality ← getProp p_scores "contentQuality";
       sc_engagement ← getProp p_scores "engagement";
       sc_growthPotential ← getProp p_scores "growthPotential";
       Normal
         {| strengths :=
              {| strengths_summary := or s_summary (JStr EmptyString);
                 strengths_details := arrayOrEmpty s_details;
                 score := validateScore s_score |};
            weaknesses :=
              {| weaknesses_summary := or w_summary (JStr EmptyString);
                 weaknesses_details := arrayOrEmpty w_details;
                 areas := arrayOrEmpty w_areas |};
            opportunities :=
              {| opportunities_summary := or o_summary (JStr EmptyString);
                 recommendations := arrayOrEmpty o_recommendations |};
            competitors := or p_competitors JUndefined;
            contentStrategy := or p_contentStrategy JUndefined;
            scores :=
              {| overall := validateScore sc_overall;
                 contentQuality := validateScore sc_contentQuality;
                 engagement := validateScore sc_engagement;
                 growthPotential := validateScore sc_growthPotential |};
            analysis_metadata :=
              {| aiModel := EmptyString; promptVersion := EmptyString;
                 analysis_processingTime := 0; confidence := Double.ofZ 0;
                 analysis_costCents := 0 |} |})
    (fun m => Throw ("Failed to parse Claude response: " +:+ m)).

(** [calculateCost(inputTokens, outputTokens, config)], in the
    arithmetic [N]: binary64 is what the client computes. *)
Definition calculateCost {N} {A : Arithmetic N} (inputTokens outputTokens : Z)
    (config : AIModelConfig) : N :=
  let inputCost :=
    times (times (over (integer inputTokens) (integer 1000000))
                 (decimal (costPerInputToken config)))
          (integer 1000) in
  let outputCost :=
    times (times (over (integer outputTokens) (integer 1000000))
                 (decimal (costPerOutputToken config)))
          (integer 1000) in
  plus inputCost outputCost.

(** [calculateConfidence(result)] *)
Definition calculateConfidence (result : AIAnalysisResponse) : Double.double :=
  let confidence := Double.literal (6 # 10) in
  let confidence :=
    if decide (3 <= length (strengths_details (strengths result)))%nat
    then Double.add confidence (Double.literal (1 # 10)) else confidence in
  let confidence :=
    if decide (2 <= length (weaknesses_details (weaknesses result)))%nat
    then Double.add confidence (Double.literal (1 # 10)) else confidence in
  let confidence :=
    if decide (1 <= length (recommendations (opportunities result)))%nat
    then Double.add confidence (Double.literal (1 # 10)) else confidence in
  let confidence :=
    if greaterThanZero (overall (scores result))
    then Double.add confidence (Double.literal (5 # 100)) else confidence in
  let confidence :=
    if truthy (contentStrategy result)
    then Double.add confidence (Double.literal (5 # 100)) else confidence in
  Double.Math_min (Double.ofZ 1) confidence.

(** [analyzeChannel(request, model)] *)
Definition analyzeChannel `{Host} (call : Invocation Usage)
    (request : AIAnalysisRequest) (model : string) : AIServiceResponse :=
  let requestId := generatedRequestId call in
  let attempt : Completion AIServiceResponse :=
    promptTemplate ←
      PromptTemplates.getPromptTemplate (analysisTypeName (analysisType request));
    let prompt :=
      PromptTemplates.replaceVariables
        (PromptTemplates.template promptTemplate) (promptVariables request) in
    match MODEL_CONFIGS model with
    | Absent => Throw ("Unsupported model: " +:+ model)
    | Inherited => makeAPICallWithoutModel (exchangeWithoutModel call prompt)
    | Own config =>
        response ← makeAPICall (exchange call prompt config);
        analysisResult ← parseAnalysisResponse (fst response);
        let totalCost :=
          calculateCost (A := binary64) (input_tokens (snd response))
                        (output_tokens (snd response)) config in
        let processingTime := elapsed call in
        let analysisResult :=
          {| strengths := strengths analysisResult;
             weaknesses := weaknesses analysisResult;
             opportunities := opportunities analysisResult;
             competitors := competitors analysisResult;
             contentStrategy := contentStrategy analysisResult;
             scores := scores analysisResult;
             analysis_metadata :=
               {| aiModel := model;
                  promptVersion := PromptTemplates.version promptTemplate;
                  analysis_processingTime := processingTime;
                  confidence := calculateConfidence analysisResult;
                  analysis_costCents :=
                    Double.cents (Double.mul totalCost (Double.ofZ 100)) |} |} in
        Normal
          {| success := true;
             data := Some analysisResult;
             error := None;
             metadata :=
               {| requestId := requestId;
                  processingTime := processingTime;
                  tokensUsed := input_tokens (snd response) + output_tokens (snd response);
                  costCents :=
                    Double.cents (Double.mul totalCost (Double.ofZ 100)) |} |}
    end in
  match attempt with
  | Normal response => response
  | Throw m =>
      {| success := false;
         data := None;
         error := Some {| code := "CLAUDE_ERROR"; message := m;
                          error_provider := Some claude |};
         metadata :=
           {| requestId := requestId;
              processingTime := elapsed call;
              tokensUsed := 0;
              costCents := 0 |} |}
  end.

(** [getAvailableModels()]: [Object.keys(MODEL_CONFIGS)], the own keys. *)
Definition getAvailableModels : list string := modelConfigs.*1.

(** [a || b] for an optional string [a]: the empty string is falsy. *)
Definition keyOr (a : option string) (b : string) : string :=
  match a with
  | Some s => if decide (s = EmptyString) then b else s
  | None => b
  end.

(** [new ClaudeService(apiKey)], with the environment variable it reads:
    the [apiKey] field of the new object, or the error thrown. *)
Definition construct (apiKey ANTHROPIC_API_KEY : option string) : Completion string :=
  let apiKey := keyOr apiKey (keyOr ANTHROPIC_API_KEY EmptyString) in
  if decide (apiKey = EmptyString) then Throw "Anthropic API key is required"
  else Normal apiKey.

End ClaudeService.

(** ** packages/ai-services/src/cost-tracker.ts *)

Module CostTracker.
Import JS.

Record UsageRecord := mkUsageRecord {
  provider : string;
  model : string;
  analysisType : string;
  tokensUsed : Z;
  costCents : Z;
  processingTime : Z;
  success : bool;
  error : option string;
  timestamp : option Z
}.

(** [private readonly maxHistorySize = 10000] *)
Definition maxHistorySize : nat := Z.to_nat 10000.

(** [{ ...record, timestamp: new Date() }] *)
Definition fullRecord (now : Z) (record : UsageRecord) : UsageRecord :=
  {| provider := provider record;
     model := model record;
     analysisType := analysisType record;
     tokensUsed := tokensUsed record;
     costCents := costCents record;
     processingTime := processingTime record;
     success := success record;
     error := error record;
     timestamp := Some now |}.

(** [Array.prototype.slice(-n)] for [n > 0]: the last [n] elements, the
    whole array when it is shorter. *)
Definition slice_last {A} (n : nat) (l : list A) : list A :=
  drop (length l - n)%nat l.

(** [recordUsage(record)], on the [usageHistory] field; [now] is the value
    of [new Date()]. *)
Definition recordUsage (now : Z) (record : UsageRecord)
    (usageHistory : list UsageRecord) : list UsageRecord :=
  let pushed := usageHistory ++ [fullRecord now record] in
  if decide (maxHistorySize < length pushed)%nat
  then slice_last maxHistorySize pushed
  else pushed.

(** [clearHistory()] *)
Definition clearHistory (usageHistory : list UsageRecord) : list UsageRecord := [].

(** A run of [recordUsage] calls, each with the clock value it reads. *)
Definition recordAll (calls : list (Z * UsageRecord))
    (usageHistory : list UsageRecord) : list UsageRecord :=
  foldl (fun h c => recordUsage (fst c) (snd c) h) usageHistory calls.

(** The records a run of calls pushes, in call order. *)
Definition pushedRecords (calls : list (Z * UsageRecord)) : list UsageRecord :=
  (fun c => fullRecord (fst c) (snd c)) <$> calls.

(** A value of [costByProvider] or [costByAnalysisType]: a number of
    cents, or the string [+] makes of a property the object inherits and
    a number, which further additions only lengthen. *)
Inductive Slot :=
| Cents (cents : Z)
| Text.

Record UsageStats := mkUsageStats {
  totalRequests : Z;
  successfulRequests : Z;
  failedRequests : Z;
  totalCostCents : Z;
  totalTokensUsed : Z;
  averageProcessingTime : Z;
  costByProvider : gmap string Slot;
  costByAnalysisType : gmap string Slot
}.

Definition getEmptyStats : UsageStats :=
  {| totalRequests := 0; successfulRequests := 0; failedRequests := 0;
     totalCostCents := 0; totalTokensUsed := 0; averageProcessingTime := 0;
     costByProvider := ∅; costByAnalysisType := ∅ |}.

(** [record => record.timestamp && record.timestamp >= cutoffDate] *)
Definition inWindow (cutoffDate : Z) (record : UsageRecord) : bool :=
  match timestamp record with
  | Some t => bool_decide (cutoffDate <= t)
  | None => false
  end.

Definition relevantRecords (cutoffDate : Z) (usageHistory : list UsageRecord)
    : list UsageRecord :=
  List.filter (inWindow cutoffDate) usageHistory.

(** [reduce((sum, r) => sum + f(r), 0)] *)
Definition sumOf (f : UsageRecord -> Z) (l : list UsageRecord) : Z :=
  foldl (fun sum r => sum + f r) 0 l.

(** [acc[key] = (acc[key] || 0) + cents] on a plain object [acc], given
    by its own properties.  An own number is added to.  Where there is no
    own property, an inherited one is read instead: it is truthy, [+]
    turns it into a string, and the assignment makes that string an own
    property, except for [__proto__], whose setter drops it. *)
Definition addCost (key : string) (cents : Z) (acc : gmap string Slot)
    : gmap string Slot :=
  match acc !! key with
  | Some (Cents sum) => <[key := Cents (sum + cents)]> acc
  | Some Text => <[key := Text]> acc
  | None =>
      if decide (key = "__proto__") then acc
      else if inherited key then <[key := Text]> acc
      else <[key := Cents (0 + cents)]> acc
  end.

(** [forEach(record => { acc[key(record)] = (acc[key(record)] || 0) + record.costCents })] *)
Definition costBy (key : UsageRecord -> string) (l : list UsageRecord)
    : gmap string Slot :=
  foldl (fun acc r => addCost (key r) (costCents r) acc) ∅ l.

(** [getUsageStats(timeframe)].  [cutoffDate] is the result of
    [getCutoffDate(now, timeframe)], a calendar computation of the host
    ([setHours], [setDate], [setMonth]). *)
Definition getUsageStats (cutoffDate : Z) (usageHistory : list UsageRecord)
    : UsageStats :=
  let relevant := relevantRecords cutoffDate usageHistory in
  if decide (length relevant = 0%nat) then getEmptyStats
  else
    let total := Z.of_nat (length relevant) in
    let successful := Z.of_nat (length (List.filter success relevant)) in
    {| totalRequests := total;
       successfulRequests := successful;
       failedRequests := total - successful;
       totalCostCents := sumOf costCents relevant;
       totalTokensUsed := sumOf tokensUsed relevant;
       averageProcessingTime :=
         Math_round (inject_Z (sumOf processingTime relevant) / inject_Z total)%Q;
       costByProvider := costBy provider relevant;
       costByAnalysisType := costBy analysisType relevant |}.

(** [checkBudgetLimits], given the two cutoffs of its two
    [getUsageStats] calls.  The result is
    [(withinDailyLimit, withinMonthlyLimit, dailyUsed, monthlyUsed)]. *)
Definition checkBudgetLimits (todayCutoff monthCutoff : Z)
    (dailyLimitCents monthlyLimitCents : Z) (usageHistory : list UsageRecord)
    : bool * bool * Z * Z :=
  let todayStats := getUsageStats todayCutoff usageHistory in
  let monthStats := getUsageStats monthCutoff usageHistory in
  (bool_decide (totalCostCents todayStats <= dailyLimitCents),
   bool_decide (totalCostCents monthStats <= monthlyLimitCents),
   totalCostCents todayStats,
   totalCostCents monthStats).

(** The timestamps of a history, oldest first. *)
Definition timestamps (usageHistory : list UsageRecord) : list Z :=
  omap timestamp usageHistory.

(** [Array.prototype.slice(start, end)]: a negative index counts from
    the end, and both indices are clamped to the array. *)
Definition relativeIndex (len index : Z) : Z :=
  if decide (index < 0) then Z.max (len + index) 0 else Z.min index len.

Definition slice {A} (start finish : Z) (l : list A) : list A :=
  let len := Z.of_nat (length l) in
  let k := relativeIndex len start in
  let final := relativeIndex len finish in
  take (Z.to_nat (final - k)) (drop (Z.to_nat k) l).

(** [Array.prototype.slice(start)] *)
Definition sliceFrom {A} (start : Z) (l : list A) : list A :=
  slice start (Z.of_nat (length l)) l.

(** [getRecentUsage(limit)]; the default [limit] is 50. *)
Definition getRecentUsage (limit : Z) (usageHistory : list UsageRecord)
    : list UsageRecord :=
  reverse (sliceFrom (- limit) usageHistory).

(** [exportUsageData()] *)
Definition exportUsageData (usageHistory : list UsageRecord) : list UsageRecord :=
  usageHistory.

(** The values of [providerStats] in [getProviderComparison]. *)
Record ProviderTotals := mkProviderTotals {
  totalCost : Z;
  totalTime : Z;
  providerRequests : Z;
  providerSuccesses : Z
}.

(** One step of the [forEach] over the history, for a provider name
    that no object inherits: [providerStats] is an object, kept here as
    the list of its entries in insertion order, the order of
    [Object.entries] for names that are not array indices. *)
Fixpoint tally (record : UsageRecord) (providerStats : list (string * ProviderTotals))
    : list (string * ProviderTotals) :=
  let add stats :=
    {| totalCost := totalCost stats + costCents record;
       totalTime := totalTime stats + processingTime record;
       providerRequests := providerRequests stats + 1;
       providerSuccesses :=
         if success record then providerSuccesses stats + 1
         else providerSuccesses stats |} in
  match providerStats with
  | [] => [(provider record, add (mkProviderTotals 0 0 0 0))]
  | (name, stats) :: rest =>
      if decide (name = provider record) then (name, add stats) :: rest
      else (name, stats) :: tally record rest
  end.

(** An entry of [providerStats] with at least one request, of which some
    succeeded. *)
Definition counted (entry : string * ProviderTotals) : Prop :=
  1 <= providerRequests entry.2
  /\ 0 <= providerSuccesses entry.2 <= providerRequests entry.2.

(** An element of the result of [getProviderComparison]. *)
Record ProviderComparison := mkProviderComparison {
  comparedProvider : string;
  avgCostCents : JSNumber;
  avgProcessingTime : JSNumber;
  successRate : JSNumber;
  comparedRequests : Z
}.

(** The body of the [forEach] of [getProviderComparison].  For a provider
    name that every object inherits, [providerStats[record.provider]] is
    the inherited property: it is truthy, so no entry is made, and the
    four sums are written on the inherited object, where nothing reads
    them. *)
Definition countRecord (providerStats : list (string * ProviderTotals))
    (record : UsageRecord) : list (string * ProviderTotals) :=
  if inherited (provider record) then providerStats
  else tally record providerStats.

(** [getProviderComparison()] *)
Definition getProviderComparison (usageHistory : list UsageRecord)
    : list ProviderComparison :=
  let providerStats := foldl countRecord [] usageHistory in
  (fun entry =>
     let stats := snd entry in
     {| comparedProvider := fst entry;
        avgCostCents :=
          Double.Math_round
            (Double.div (Double.ofZ (totalCost stats))
                        (Double.ofZ (providerRequests stats)));
        avgProcessingTime :=
          Double.Math_round
            (Double.div (Double.ofZ (totalTime stats))
                        (Double.ofZ (providerRequests stats)));
        successRate :=
          Double.Math_round
            (Double.mul (Double.div (Double.ofZ (providerSuccesses stats))
                                    (Double.ofZ (providerRequests stats)))
                        (Double.ofZ 100));
        comparedRequests := providerRequests stats |}) <$> providerStats.

(** The sum of a list of numbers. *)
Definition total (l : list Z) : Z := foldr Z.add 0 l.

(** The sum of the numbers of a breakdown such as [costByProvider]. *)
Definition breakdownTotal (breakdown : gmap string Slot) : Z :=
  map_fold (fun _ slot total =>
              match slot with
              | Cents cents => cents + total
              | Text => total
              end) 0 breakdown.

(** A breakdown in the making: inherited names hold a string, the
    other names a number, and [__proto__] holds nothing. *)
Definition wellKeyed (acc : gmap string Slot) : Prop :=
  forall k slot, acc !! k = Some slot ->
    k <> "__proto__"
    /\ (inherited k = true -> slot = Text)
    /\ (inherited k = false -> exists cents, slot = Cents cents).

(** The records whose key is a name no object inherits. *)
Definition ownKeyed (key : UsageRecord -> string) (l : list UsageRecord)
    : list UsageRecord :=
  List.filter (fun r => negb (inherited (key r))) l.

End CostTracker.

(** ** packages/ai-services/src/analyzer.ts *)

Module AIAnalyzer.
Import JS Types.

(** The two optional services of an [AIAnalyzer]: whether each one was
    constructed. *)
Record Services := mkServices {
  openaiService : bool;
  claudeService : bool
}.

(** [a || b || ...] on optional strings: is any of them a non-empty string? *)
Definition anyKey (keys : list (option string)) : bool :=
  existsb (fun k => match k with
                    | Some s => negb (bool_decide (s = EmptyString))
                    | None => false
                    end) keys.

(** [new AIAnalyzer(config)], with the two environment variables it reads. *)
Definition create (openaiApiKey claudeApiKey : option string)
    (OPENAI_API_KEY ANTHROPIC_API_KEY : option string) : Services :=
  {| openaiService := anyKey [openaiApiKey; OPENAI_API_KEY];
     claudeService := anyKey [claudeApiKey; ANTHROPIC_API_KEY] |}.

(** The [options] argument of [analyzeChannel]. *)
Record Options := mkOptions {
  provider : option AIProvider;
  model : option string;
  fallbackProvider : option AIProvider
}.

(** What one call of [analyzeChannel] takes from outside: the invocation
    inputs of each provider client, and the clock. *)
Record Environment := mkEnvironment {
  openaiCall : Invocation OpenAIService.Usage;
  claudeCall : Invocation ClaudeService.Usage;
  now : Z
}.

(** The state [analyzeChannel] changes: the history of its cost tracker.
    [invocations] is not a field of the program; it lists, oldest first,
    the provider clients invoked so far, with the model passed. *)
Record World := mkWorld {
  usageHistory : list CostTracker.UsageRecord;
  invocations : list (AIProvider * string)
}.

Definition recordUsage (t : Z) (record : CostTracker.UsageRecord) (w : World) : World :=
  {| usageHistory := CostTracker.recordUsage t record (usageHistory w);
     invocations := invocations w |}.

Definition invoked (p : AIProvider) (m : string) (w : World) : World :=
  {| usageHistory := usageHistory w;
     invocations := invocations w ++ [(p, m)] |}.

(** [selectOptimalProvider(request)] *)
Definition selectOptimalProvider (this : Services) (request : AIAnalysisRequest)
    : Completion AIProvider :=
  let t := analysisType request in
  if (bool_decide (t = DEEP_DIVE) || bool_decide (t = GROWTH_STRATEGY))
     && claudeService this
  then Normal claude
  else if bool_decide (t = QUICK_SCAN) && openaiService this
  then Normal openai
  else if openaiService this then Normal openai
  else if claudeService this then Normal claude
  else Throw "No AI services available. Check API keys.".

(** [getDefaultModel(provider)] *)
Definition getDefaultModel (provider : AIProvider) : Completion string :=
  match provider with
  | openai => Normal "gpt-4-turbo"
  | claude => Normal "claude-3-sonnet"
  | _ => Throw ("Unknown provider: " +:+ providerName provider)
  end.

(** [Math.ceil(n / 4)] for a length [n]. *)
Definition ceilQuarter (n : nat) : Z := (Z.of_nat n + 3) / 4.

(** [estimateInputTokens(request)] *)
Definition estimateInputTokens (request : AIAnalysisRequest) : Z :=
  let c := channelData request in
  let baseTokens := 500 in
  let baseTokens := baseTokens + ceilQuarter (String.length (title c)) in
  let baseTokens := baseTokens + ceilQuarter (String.length (description c)) in
  let baseTokens := baseTokens + 50 in
  let baseTokens :=
    match recentVideos c with
    | Some videos => baseTokens + Z.of_nat (length videos) * 100
    | None => baseTokens
    end in
  match analysisType request with
  | QUICK_SCAN => baseTokens + 300
  | DEEP_DIVE => baseTokens + 800
  | COMPETITOR_COMPARE => baseTokens + 600
  | GROWTH_STRATEGY => baseTokens + 700
  end.

(** [estimateOutputTokens(analysisType)] *)
Definition estimateOutputTokens (analysisType : AnalysisType) : Z :=
  match analysisType with
  | QUICK_SCAN => 800
  | DEEP_DIVE => 1500
  | COMPETITOR_COMPARE => 1200
  | GROWTH_STRATEGY => 1400
  end.

(** [a || b] for an optional string [a]. *)
Definition orDefault (a : option string) (b : Completion string) : Completion string :=
  match a with
  | Some s => if decide (s = EmptyString) then b else Normal s
  | None => b
  end.

(** [estimateCost(request, provider, model)] *)
Definition estimateCost (request : AIAnalysisRequest) (provider : AIProvider)
    (model : option string) : Completion CostEstimate :=
  selectedModel ← orDefault model (getDefaultModel provider);
  modelConfig ←
    match provider with
    | openai => Normal (OpenAIService.getModelConfig selectedModel)
    | claude => Normal (ClaudeService.getModelConfig selectedModel)
    | _ => Throw ("Unsupported provider: " +:+ providerName provider)
    end;
  let estimatedInputTokens := estimateInputTokens request in
  let estimatedOutputTokens := estimateOutputTokens (analysisType request) in
  match modelConfig with
  | Absent =>
      Throw ("Unknown model: " +:+ selectedModel +:+ " for provider: "
             +:+ providerName provider)
  | Inherited =>
      (* the two rates are [undefined], and every product with them NaN *)
      Normal {| estimate_provider := provider;
                estimate_model := selectedModel;
                estimatedInputTokens := estimatedInputTokens;
                estimatedOutputTokens := estimatedOutputTokens;
                estimatedCostCents := NaN |}
  | Own modelConfig =>
      let inputCost :=
        Double.mul (Double.div (Double.ofZ estimatedInputTokens) (Double.ofZ 1000))
                   (Double.literal (costPerInputToken modelConfig)) in
      let outputCost :=
        Double.mul (Double.div (Double.ofZ estimatedOutputTokens) (Double.ofZ 1000))
                   (Double.literal (costPerOutputToken modelConfig)) in
      Normal {| estimate_provider := provider;
                estimate_model := selectedModel;
                estimatedInputTokens := estimatedInputTokens;
                estimatedOutputTokens := estimatedOutputTokens;
                estimatedCostCents :=
                  Double.Math_round
                    (Double.mul (Double.add inputCost outputCost)
                                (Double.ofZ 100)) |}
  end.

(** The [switch (provider)] inside the [try] of [analyzeChannel]. *)
Definition dispatch `{Host} (this : Services) (env : Environment)
    (request : AIAnalysisRequest) (provider : AIProvider) (model : string)
    (w : World) : World * Completion AIServiceResponse :=
  match provider with
  | openai =>
      if negb (openaiService this)
      then (w, Throw "OpenAI service not initialized. Check API key.")
      else (invoked openai model w,
            Normal (OpenAIService.analyzeChannel (openaiCall env) request model))
  | claude =>
      if negb (claudeService this)
      then (w, Throw "Claude service not initialized. Check API key.")
      else (invoked claude model w,
            Normal (ClaudeService.analyzeChannel (claudeCall env) request model))
  | _ => (w, Throw ("Unsupported provider: " +:+ providerName provider))
  end.

(** The record of a successful result. *)
Definition successRecord (provider : AIProvider) (model : string)
    (request : AIAnalysisRequest) (result : AIServiceResponse)
    : CostTracker.UsageRecord :=
  {| CostTracker.provider := providerName provider;
     CostTracker.model := model;
     CostTracker.analysisType := analysisTypeName (analysisType request);
     CostTracker.tokensUsed := tokensUsed (metadata result);
     CostTracker.costCents := costCents (metadata result);
     CostTracker.processingTime := processingTime (metadata result);
     CostTracker.success := true;
     CostTracker.error := None;
     CostTracker.timestamp := None |}.

(** The record of the [catch] block. *)
Definition failureRecord (provider : AIProvider) (model : string)
    (request : AIAnalysisRequest) (errorMessage : string)
    : CostTracker.UsageRecord :=
  {| CostTracker.provider := providerName provider;
     CostTracker.model := model;
     CostTracker.analysisType := analysisTypeName (analysisType request);
     CostTracker.tokensUsed := 0;
     CostTracker.costCents := 0;
     CostTracker.processingTime := 0;
     CostTracker.success := false;
     CostTracker.error := Some errorMessage;
     CostTracker.timestamp := None |}.

(** The result the [catch] block returns. *)
Definition analysisFailed `{Host} (provider : AIProvider) (errorMessage : string)
    (t : Z) : AIServiceResponse :=
  {| success := false;
     data := None;
     error := Some {| code := "ANALYSIS_FAILED"; message := errorMessage;
                      error_provider := Some provider |};
     metadata := {| requestId := "failed_" +:+ NumberToString t;
                    processingTime := 0; tokensUsed := 0; costCents := 0 |} |}.

(** The three statements of [analyzeChannel] before its [try] block:
    the provider, the model, and the cost estimate, which is computed and
    not used. *)
Definition beforeTry (this : Services) (request : AIAnalysisRequest)
    (options : option Options) : Completion (AIProvider * string) :=
  provider ←
    match options ≫= provider with
    | Some p => Normal p
    | None => selectOptimalProvider this request
    end;
  model ← orDefault (options ≫= model) (getDefaultModel provider);
  costEstimate ← estimateCost request provider (Some model);
  Normal (provider, model).

(** [analyzeChannel(request, options)].  The result is the new state and
    either the response the promise resolves to or the error it rejects
    with.  [fuel] bounds the depth of the recursive call of the [catch]
    block; [None] means the bound was reached. *)
Fixpoint analyzeChannel `{Host} (fuel : nat) (this : Services) (env : Environment)
    (request : AIAnalysisRequest) (options : option Options) (w : World)
    : option (World * Completion AIServiceResponse) :=
  match fuel with
  | O => None
  | S fuel' =>
      match beforeTry this request options with
      | Throw m => Some (w, Throw m)
      | Normal (provider, model) =>
          match dispatch this env request provider model w with
          | (w1, Normal result) =>
              let w2 :=
                if success result
                then recordUsage (now env)
                       (successRecord provider model request result) w1
                else w1 in
              Some (w2, Normal result)
          | (w1, Throw errorMessage) =>
              let noFallback :=
                Some (recordUsage (now env)
                        (failureRecord provider model request errorMessage) w1,
                      Normal (analysisFailed provider errorMessage (now env))) in
              match options ≫= fallbackProvider with
              | Some fallback =>
                  if decide (fallback <> provider)
                  then
                    match getDefaultModel fallback with
                    | Throw m => Some (w1, Throw m)
                    | Normal fallbackModel =>
                        analyzeChannel fuel' this env request
                          (Some {| provider := Some fallback;
                                   model := Some fallbackModel;
                                   fallbackProvider := None |}) w1
                    end
                  else noFallback
              | None => noFallback
              end
          end
      end
  end.

(** The constructor of [AIAnalyzer] with the constructors of the two
    services it calls: the key each service holds, if it was constructed,
    or the error thrown. *)
Definition construct (openaiApiKey claudeApiKey : option string)
    (OPENAI_API_KEY ANTHROPIC_API_KEY : option string)
    : Completion (option string * option string) :=
  openaiKey ←
    (if anyKey [openaiApiKey; OPENAI_API_KEY]
     then key ← OpenAIService.construct openaiApiKey OPENAI_API_KEY; Normal (Some key)
     else Normal None);
  claudeKey ←
    (if anyKey [claudeApiKey; ANTHROPIC_API_KEY]
     then key ← ClaudeService.construct claudeApiKey ANTHROPIC_API_KEY; Normal (Some key)
     else Normal None);
  Normal (openaiKey, claudeKey).

(** [getAvailableProviders()] *)
Definition getAvailableProviders (this : Services) : list AIProvider :=
  let providers := [] in
  let providers := if openaiService this then providers ++ [openai] else providers in
  let providers := if claudeService this then providers ++ [claude] else providers in
  providers.

(** [getAvailableModels(provider)] *)
Definition getAvailableModels (provider : AIProvider) : list string :=
  match provider with
  | openai => OpenAIService.getAvailableModels
  | claude => ClaudeService.getAvailableModels
  | _ => []
  end.

(** The state after a call that recorded [records] at time [t], oldest
    first, and invoked the provider clients [invoked]. *)
Definition after (t : Z) (records : list CostTracker.UsageRecord)
    (clients : list (AIProvider * string)) (w : World) : World :=
  {| usageHistory :=
       CostTracker.recordAll ((fun record => (t, record)) <$> records)
                             (usageHistory w);
     invocations := invocations w ++ clients |}.

(** The effects and the outcome of a call, from any state. *)
Definition effects `{Host} (this : Services) (env : Environment)
    (request : AIAnalysisRequest) (options : option Options) (fuel : nat)
    (records : list CostTracker.UsageRecord)
    (clients : list (AIProvider * string))
    (outcome : Completion AIServiceResponse) : Prop :=
  (forall w, analyzeChannel fuel this env request options w
             = Some (after (now env) records clients w, outcome))
  /\ (length records <= 1)%nat /\ (length clients <= 1)%nat
  /\ (forall record, record ∈ records ->
        if CostTracker.success record
        then exists p m response,
               clients = [(p, m)] /\ outcome = Normal response
               /\ success response = true
               /\ record = successRecord p m request response
        else clients = []
             /\ exists response, outcome = Normal response
                                 /\ success response = false)
  /\ (forall text, outcome = Throw text -> records = [] /\ clients = []).

(** The [options] argument of [analyzeMultipleChannels]. *)
Record BatchOptions := mkBatchOptions {
  batch_provider : option AIProvider;
  concurrency : option Z;
  delayMs : option Z
}.

(** [a || b] for an optional number [a]: zero is falsy. *)
Definition numberOr (a : option Z) (b : Z) : Z :=
  match a with
  | Some n => if decide (n = 0) then b else n
  | None => b
  end.

(** [await Promise.all(batch.map(request => this.analyzeChannel(request,
    { provider: options?.provider })))].  Each request comes with the
    environment its call meets.  All calls of the batch run.  With these
    options a call can only throw before its [try] block, ahead of any
    exchange, so the promise rejects with the error of the first call in
    the batch that throws.  The calls of one batch are awaited together;
    they are taken here to record their usage in the order of the batch.
    Two units of fuel are all a call uses. *)
Fixpoint analyzeBatch `{Host} (this : Services) (provider : option AIProvider)
    (batch : list (Environment * AIAnalysisRequest)) (w : World)
    : option (World * Completion (list AIServiceResponse)) :=
  match batch with
  | [] => Some (w, Normal [])
  | (env, request) :: rest =>
      match analyzeChannel 2 this env request
              (Some {| provider := provider; model := None;
                       fallbackProvider := None |}) w with
      | None => None
      | Some (w1, outcome) =>
          match analyzeBatch this provider rest w1 with
          | None => None
          | Some (w2, outcomes) =>
              Some (w2,
                    result ← outcome;
                    results ← outcomes;
                    Normal (result :: results))
          end
      end
  end.

(** The [for] loop of [analyzeMultipleChannels] from index [i] on, with
    the [results] gathered so far and the delays waited for so far.
    [fuel] bounds the number of rounds; [None] means the bound was
    reached. *)
Fixpoint batchLoop `{Host} (fuel : nat) (this : Services)
    (provider : option AIProvider) (concurrency delayMs : Z)
    (requests : list (Environment * AIAnalysisRequest)) (i : Z)
    (results : list AIServiceResponse) (delays : list Z) (w : World)
    : option (World * list Z * Completion (list AIServiceResponse)) :=
  match fuel with
  | O => None
  | S fuel' =>
      if decide (i < Z.of_nat (length requests))
      then
        let batch := CostTracker.slice i (i + concurrency) requests in
        match analyzeBatch this provider batch w with
        | None => None
        | Some (w1, Throw m) => Some (w1, delays, Throw m)
        | Some (w1, Normal batchResults) =>
            let results := results ++ batchResults in
            let delays :=
              if decide (i + concurrency < Z.of_nat (length requests)
                         /\ 0 < delayMs)
              then delays ++ [delayMs] else delays in
            batchLoop fuel' this provider concurrency delayMs requests
              (i + concurrency) results delays w1
        end
      else Some (w, delays, Normal results)
  end.

(** [analyzeMultipleChannels(requests, options)]: the new state, the
    delays waited for, and the results or the error. *)
Definition analyzeMultipleChannels `{Host} (fuel : nat) (this : Services)
    (requests : list (Environment * AIAnalysisRequest))
    (options : option BatchOptions) (w : World)
    : option (World * list Z * Completion (list AIServiceResponse)) :=
  let concurrency := numberOr (options ≫= concurrency) 3 in
  let delayMs := numberOr (options ≫= delayMs) 1000 in
  batchLoop fuel this (options ≫= batch_provider) concurrency delayMs
    requests 0 [] [] w.

(** The options [analyzeMultipleChannels] passes to each call. *)
Definition batchCallOptions (provider : option AIProvider) : option Options :=
  Some {| provider := provider; model := None; fallbackProvider := None |}.

(** [response] is what [analyzeChannel] resolves to for [call] under the
    options of a batch, whatever the state it starts from. *)
Definition answers `{Host} (this : Services) (provider : option AIProvider)
    (call : Environment * AIAnalysisRequest) (response : AIServiceResponse)
    : Prop :=
  forall w, exists w',
    analyzeChannel 2 this call.1 call.2 (batchCallOptions provider) w
    = Some (w', Normal response).

End AIAnalyzer.

(** ** apps/api/src/middleware/error-handler.ts *)

Module ErrorHandler.
Import JS.

(** [interface APIError]: an [Error] with its [name], and the optional
    fields the handler reads. *)
Record APIError := mkAPIError {
  name : string;
  message : string;
  statusCode : option Z;
  code : option string;
  details : option JsValue
}.

(** A default parameter value stands in for [undefined] only. *)
Definition orDefault (message : option string) (fallback : string) : string :=
  match message with
  | Some m => m
  | None => fallback
  end.

(** The error classes: [super(message)], then [this.name = ...]. *)
Definition ValidationError (message : string) (details : option JsValue) : APIError :=
  {| name := "ValidationError"; message := message;
     statusCode := None; code := None; details := details |}.

Definition UnauthorizedError (message : option string) : APIError :=
  {| name := "UnauthorizedError";
     message := orDefault message "Authentication required";
     statusCode := None; code := None; details := None |}.

Definition ForbiddenError (message : option string) : APIError :=
  {| name := "ForbiddenError"; message := orDefault message "Access denied";
     statusCode := None; code := None; details := None |}.

Definition NotFoundError (message : option string) : APIError :=
  {| name := "NotFoundError"; message := orDefault message "Resource not found";
     statusCode := None; code := None; details := None |}.

Definition RateLimitError (message : option string) : APIError :=
  {| name := "RateLimitError"; message := orDefault message "Rate limit exceeded";
     statusCode := None; code := None; details := None |}.

(** What [errorHandler] sends: the status and the [APIResponse] body. *)
Record ErrorResponse := mkErrorResponse {
  status : Z;
  success : bool;
  errorCode : string;
  errorMessage : string;
  errorDetails : option JsValue;
  timestamp : Z
}.

(** [a || b] on an optional number: zero is falsy. *)
Definition numberOr (a : option Z) (b : Z) : Z :=
  match a with
  | Some n => if decide (n = 0) then b else n
  | None => b
  end.

(** [a || b] on an optional string: the empty string is falsy. *)
Definition stringOr (a : option string) (b : string) : string :=
  match a with
  | Some s => if decide (s = EmptyString) then b else s
  | None => b
  end.

(** [errorHandler(error, req, res, next)].  [development] is
    [process.env.NODE_ENV === 'development'], and [now] the clock read for
    the timestamp of the body; the console log is not modelled. *)
Definition errorHandler (development : bool) (now : Z) (error : APIError)
    : ErrorResponse :=
  let statusCode := numberOr (statusCode error) 500 in
  let errorCode := stringOr (code error) "INTERNAL_ERROR" in
  let response code status :=
    {| status := status;
       success := false;
       errorCode := code;
       errorMessage := stringOr (Some (message error)) "An unexpected error occurred";
       errorDetails := if development then details error else None;
       timestamp := now |} in
  if decide (name error = "ValidationError") then response "VALIDATION_ERROR" 400
  else if decide (name error = "UnauthorizedError") then response "UNAUTHORIZED" 401
  else if decide (name error = "ForbiddenError") then response "FORBIDDEN" 403
  else if decide (name error = "NotFoundError") then response "NOT_FOUND" 404
  else if decide (name error = "RateLimitError") then response "RATE_LIMIT_EXCEEDED" 429
  else response errorCode statusCode.

End ErrorHandler.

(** ** The authentication middleware (requirePermission, requireQuota,
       requireSubscription) *)

Module Auth.
Import ErrorHandler.

(** The values of [AuthUser.subscriptionStatus], those of the database
    enum [SubscriptionStatus]. *)
Inductive SubscriptionStatus :=
| FREE | CREATOR | PRO | CANCELLED | PAST_DUE | UNPAID.

#[global] Instance SubscriptionStatus_eq_dec : EqDecision SubscriptionStatus.
Proof. solve_decision. Defined.

(** [enum UserPermission] *)
Inductive UserPermission :=
| CREATE_ANALYSIS | VIEW_ANALYSIS | EXPORT_DATA | SAVE_CHANNELS
| ACCESS_API | UNLIMITED_ANALYSES | PRIORITY_SUPPORT.

#[global] Instance UserPermission_eq_dec : EqDecision UserPermission.
Proof. solve_decision. Defined.

Definition permissionName (permission : UserPermission) : string :=
  match permission with
  | CREATE_ANALYSIS => "CREATE_ANALYSIS"
  | VIEW_ANALYSIS => "VIEW_ANALYSIS"
  | EXPORT_DATA => "EXPORT_DATA"
  | SAVE_CHANNELS => "SAVE_CHANNELS"
  | ACCESS_API => "ACCESS_API"
  | UNLIMITED_ANALYSES => "UNLIMITED_ANALYSES"
  | PRIORITY_SUPPORT => "PRIORITY_SUPPORT"
  end.

(** [AuthUser.quotaInfo]; [resetDate] is the date behind the ISO string. *)
Record QuotaInfo := mkQuotaInfo {
  monthly : Z;
  used : Z;
  remaining : Z;
  resetDate : Z
}.

(** [interface AuthUser] *)
Record AuthUser := mkAuthUser {
  id : string;
  email : string;
  userName : string;
  avatarUrl : option string;
  subscriptionStatus : SubscriptionStatus;
  permissions : list UserPermission;
  quotaInfo : QuotaInfo
}.

(** The columns of a [User] row that [authMiddleware] reads. *)
Record User := mkUser {
  user_id : string;
  user_email : string;
  user_name : string;
  user_avatarUrl : option string;
  user_subscriptionStatus : SubscriptionStatus;
  monthlyQuota : Z;
  usedQuota : Z;
  quotaResetDate : Z
}.

(** [getUserPermissions(subscriptionStatus)] *)
Definition getUserPermissions (subscriptionStatus : SubscriptionStatus)
    : list UserPermission :=
  let basePermissions := [CREATE_ANALYSIS; VIEW_ANALYSIS; SAVE_CHANNELS] in
  match subscriptionStatus with
  | CREATOR => basePermissions ++ [EXPORT_DATA; ACCESS_API]
  | PRO =>
      basePermissions
      ++ [EXPORT_DATA; ACCESS_API; UNLIMITED_ANALYSES; PRIORITY_SUPPORT]
  | _ => basePermissions
  end.

(** The value [authMiddleware] assigns to [req.user] for the row it found. *)
Definition authUser (user : User) : AuthUser :=
  {| id := user_id user;
     email := user_email user;
     userName := user_name user;
     avatarUrl := user_avatarUrl user;
     subscriptionStatus := user_subscriptionStatus user;
     permissions := getUserPermissions (user_subscriptionStatus user);
     quotaInfo :=
       {| monthly := monthlyQuota user;
          used := usedQuota user;
          remaining := Z.max 0 (monthlyQuota user - usedQuota user);
          resetDate := quotaResetDate user |} |}.

(** The middleware returned by [requirePermission(permission)], applied
    to [req.user]: the error it throws, or [None] when it calls [next()]. *)
Definition requirePermission (permission : UserPermission)
    (user : option AuthUser) : option APIError :=
  match user with
  | None => Some (UnauthorizedError None)
  | Some user =>
      if decide (permission ∈ permissions user) then None
      else Some (ForbiddenError
                   (Some ("Permission required: " +:+ permissionName permission)))
  end.

(** The middleware returned by [requireQuota(quotaNeeded)]; the default
    [quotaNeeded] is 1. *)
Definition requireQuota (quotaNeeded : Z) (user : option AuthUser)
    : option APIError :=
  match user with
  | None => Some (UnauthorizedError None)
  | Some user =>
      if decide (remaining (quotaInfo user) < quotaNeeded)
      then Some (ForbiddenError (Some "Insufficient quota remaining"))
      else None
  end.

(** The type of the argument of [requireSubscription]. *)
Inductive MinLevel := MinFREE | MinCREATOR | MinPRO.

Definition levelName (minLevel : MinLevel) : string :=
  match minLevel with
  | MinFREE => "FREE"
  | MinCREATOR => "CREATOR"
  | MinPRO => "PRO"
  end.

(** [levels[req.user.subscriptionStatus] || 0]: a status outside
    [levels] reads as [undefined], hence 0. *)
Definition userLevel (subscriptionStatus : SubscriptionStatus) : Z :=
  match subscriptionStatus with
  | CREATOR => 1
  | PRO => 2
  | _ => 0
  end.

(** [levels[minLevel]] *)
Definition requiredLevel (minLevel : MinLevel) : Z :=
  match minLevel with
  | MinFREE => 0
  | MinCREATOR => 1
  | MinPRO => 2
  end.

(** The middleware returned by [requireSubscription(minLevel)]. *)
Definition requireSubscription (minLevel : MinLevel) (user : option AuthUser)
    : option APIError :=
  match user with
  | None => Some (UnauthorizedError None)
  | Some user =>
      if decide (userLevel (subscriptionStatus user) < requiredLevel minLevel)
      then Some (ForbiddenError (Some (levelName minLevel +:+ " subscription required")))
      else None
  end.

End Auth.

(** ** The rate-limiting middleware (MemoryStore, createRateLimiter) *)

Module RateLimiter.

(** [interface RateLimitConfig]; [message] only words the error. *)
Record RateLimitConfig := mkConfig {
  windowMs : Z;
  max : Z
}.

(** An entry of [interface RateLimitStore]. *)
Record Entry := mkEntry {
  count : Z;
  resetTime : Z
}.

(** The result of [MemoryStore.increment]. *)
Record Hit := mkHit {
  totalHits : Z;
  timeToReset : Z
}.

(** [MemoryStore.increment(key, windowMs)] on the [store] field; [now] is
    the value of [Date.now()].  The store is a plain object used as a map;
    its keys all contain a colon (see [requestKey]), so none of them is a
    property inherited from [Object.prototype]. *)
Definition increment (now : Z) (key : string) (windowMs : Z)
    (store : gmap string Entry) : gmap string Entry * Hit :=
  let resetTime' := now + windowMs in
  let entry :=
    match store !! key with
    | Some e =>
        if decide (resetTime e <= now)
        then {| count := 1; resetTime := resetTime' |}
        else {| count := count e + 1; resetTime := resetTime e |}
    | None => {| count := 1; resetTime := resetTime' |}
    end in
  (<[key := entry]> store,
   {| totalHits := count entry;
      timeToReset := Z.max 0 (resetTime entry - now) |}).

(** [MemoryStore.cleanup()] *)
Definition cleanup (now : Z) (store : gmap string Entry) : gmap string Entry :=
  filter (fun kv => ¬ (resetTime (snd kv) <= now)) store.

(** The fields of an Express request the middleware reads. *)
Record Request := mkRequest {
  user_id : option string;
  ip : option string;
  route_path : option string;
  path : string
}.

(** [a || b] where [a] is a string or undefined: the empty string is falsy. *)
Definition orElse (a : option string) (b : string) : string :=
  match a with
  | Some s => if decide (s = EmptyString) then b else s
  | None => b
  end.

(** [req.user?.id || req.ip || 'anonymous'] *)
Definition identifier (req : Request) : string :=
  orElse (user_id req) (orElse (ip req) "anonymous").

(** [`${req.route?.path || req.path}:${identifier}`] *)
Definition requestKey (req : Request) : string :=
  orElse (route_path req) (path req) +:+ ":" +:+ identifier req.

(** What the middleware does to the response: the three headers, and
    whether it throws [RateLimitError] instead of calling [next()]. *)
Record Outcome := mkOutcome {
  hit : Hit;
  limitHeader : Z;
  remainingHeader : Z;
  resetHeader : Z;
  overLimit : bool
}.

(** The middleware returned by [createRateLimiter(config)], on the global
    store.  [now] is the clock read inside [increment], [now'] the one
    read for the reset header. *)
Definition rateLimiter (config : RateLimitConfig) (req : Request)
    (now now' : Z) (store : gmap string Entry)
    : gmap string Entry * Outcome :=
  let key := requestKey req in
  let '(store', result) := increment now key (windowMs config) store in
  (store',
   {| hit := result;
      limitHeader := max config;
      remainingHeader := Z.max 0 (max config - totalHits result);
      resetHeader := now' + timeToReset result;
      overLimit := bool_decide (max config < totalHits result) |}).

(** Successive requests through one limiter, each with its clock reads. *)
Fixpoint serve (config : RateLimitConfig) (req : Request)
    (clock : list (Z * Z)) (store : gmap string Entry)
    : gmap string Entry * list Outcome :=
  match clock with
  | [] => (store, [])
  | (now, now') :: clock' =>
      let '(store1, o) := rateLimiter config req now now' store in
      let '(store2, os) := serve config req clock' store1 in
      (store2, o :: os)
  end.

(** No entry for the key, or one whose window has expired at [now]. *)
Definition expiredAt (now : Z) (key : string) (store : gmap string Entry) : Prop :=
  match store !! key with
  | Some e => resetTime e <= now
  | None => True
  end.

(** A [RateLimitConfig] together with its optional [message]. *)
Record Limiter := mkLimiter {
  config : RateLimitConfig;
  message : option string
}.

(** [createRateLimiter(config)] with what it throws: the
    [RateLimitError], or [None] when it calls [next()]. *)
Definition createRateLimiter (limiter : Limiter) (req : Request)
    (now now' : Z) (store : gmap string Entry)
    : gmap string Entry * Outcome * option ErrorHandler.APIError :=
  let '(store', outcome) := rateLimiter (config limiter) req now now' store in
  (store', outcome,
   if overLimit outcome
   then Some (ErrorHandler.RateLimitError
                (Some (orElse (message limiter)
                         "Too many requests, please try again later")))
   else None).

(** The exported limiters; [apiRateLimiter] is the one the source names
    [rateLimiter]. *)
Definition apiRateLimiter : Limiter :=
  {| config := {| windowMs := 15 * 60 * 1000; max := 100 |};
     message := Some "Too many requests from this IP, please try again later" |}.

Definition authRateLimiter : Limiter :=
  {| config := {| windowMs := 15 * 60 * 1000; max := 5 |};
     message := Some "Too many authentication attempts, please try again later" |}.

Definition analysisRateLimiter : Limiter :=
  {| config := {| windowMs := 60 * 60 * 1000; max := 20 |};
     message := Some "Analysis rate limit exceeded, please upgrade or try again later" |}.

Definition premiumRateLimiter : Limiter :=
  {| config := {| windowMs := 60 * 60 * 1000; max := 100 |};
     message := Some "Analysis rate limit exceeded, please try again later" |}.

(** [endpointRateLimiters.searchChannels] and [.exportData] *)
Definition searchChannels : Limiter :=
  {| config := {| windowMs := 60 * 1000; max := 30 |};
     message := Some "Search rate limit exceeded" |}.

Definition exportData : Limiter :=
  {| config := {| windowMs := 60 * 60 * 1000; max := 10 |};
     message := Some "Export rate limit exceeded" |}.

(** An Express request with the [user] that [authMiddleware] may have set. *)
Record UserRequest := mkUserRequest {
  user : option Auth.AuthUser;
  remoteAddress : option string;
  routePath : option string;
  requestPath : string
}.

(** The fields of it that [createRateLimiter] reads. *)
Definition requestOf (req : UserRequest) : Request :=
  {| user_id := Auth.id <$> user req;
     ip := remoteAddress req;
     route_path := routePath req;
     path := requestPath req |}.

(** [subscriptionBasedRateLimiter(req, res, next)] *)
Definition subscriptionBasedRateLimiter (req : UserRequest)
    (now now' : Z) (store : gmap string Entry)
    : gmap string Entry * Outcome * option ErrorHandler.APIError :=
  match user req with
  | None => createRateLimiter analysisRateLimiter (requestOf req) now now' store
  | Some user =>
      match Auth.subscriptionStatus user with
      | Auth.PRO =>
          createRateLimiter
            {| config := {| windowMs := 60 * 60 * 1000; max := 200 |};
               message := Some "Rate limit exceeded, please try again later" |}
            (requestOf req) now now' store
      | Auth.CREATOR =>
          createRateLimiter
            {| config := {| windowMs := 60 * 60 * 1000; max := 50 |};
               message := Some "Rate limit exceeded, please try again later" |}
            (requestOf req) now now' store
      | _ => createRateLimiter analysisRateLimiter (requestOf req) now now' store
      end
  end.

End RateLimiter.

(** ** The route POST /api/analysis, up to its first database query *)

Module AnalysisRoutes.
Import JS ErrorHandler Auth RateLimiter.

(** The two fields the handler takes from [req.body], an object parsed
    from JSON: each is whatever value the body has there, [undefined]
    when it has none.  The type annotation [CreateAnalysisRequest] checks
    nothing at run time. *)
Record CreateAnalysisRequest := mkCreateAnalysisRequest {
  channelId : JsValue;
  analysisType : JsValue
}.

(** [!value] *)
Definition missing (value : JsValue) : bool := negb (truthy value).

Definition validAnalysisTypes : list string :=
  ["QUICK_SCAN"; "DEEP_DIVE"; "COMPETITOR_COMPARE"; "GROWTH_STRATEGY"].

(** [value === text] *)
Definition strictEquals (value : JsValue) (text : string) : bool :=
  match value with
  | JStr s => bool_decide (s = text)
  | _ => false
  end.

(** [strings.includes(value)]: some element is the same value. *)
Definition includes (strings : list string) (value : JsValue) : bool :=
  existsb (strictEquals value) strings.

(** The checks at the head of the handler: the [ValidationError] thrown,
    or [None] when the handler goes on to look the channel up. *)
Definition validateInput (user : AuthUser) (body : CreateAnalysisRequest)
    : option APIError :=
  if missing (channelId body) || missing (analysisType body)
  then Some (ValidationError "Channel ID and analysis type are required" None)
  else if negb (includes validAnalysisTypes (analysisType body))
  then Some (ValidationError "Invalid analysis type" None)
  else if strictEquals (analysisType body) "DEEP_DIVE"
          && bool_decide (subscriptionStatus user = FREE)
  then Some (ValidationError "Deep dive analysis requires paid subscription" None)
  else None.

(** The middleware of the route in the order Express runs it:
    [requirePermission('CREATE_ANALYSIS')], [requireQuota(1)],
    [endpointRateLimiters.createAnalysis], then the head of the handler.
    An error thrown by one of them ends the chain and goes to
    [errorHandler]; [req.user!.id] on a request without user is a
    [TypeError]. *)
Definition createAnalysis (req : UserRequest) (body : CreateAnalysisRequest)
    (now now' : Z) (store : gmap string Entry)
    : gmap string Entry * option APIError :=
  match requirePermission CREATE_ANALYSIS (user req) with
  | Some error => (store, Some error)
  | None =>
      match requireQuota 1 (user req) with
      | Some error => (store, Some error)
      | None =>
          let '(store', _, thrown) :=
            subscriptionBasedRateLimiter req now now' store in
          match thrown with
          | Some error => (store', Some error)
          | None =>
              match user req with
              | Some user => (store', validateInput user body)
              | None =>
                  (store',
                   Some {| name := "TypeError";
                           ErrorHandler.message :=
                             "Cannot read properties of undefined (reading 'id')";
                           statusCode := None; code := None; details := None |})
              end
          end
      end
  end.

End AnalysisRoutes.

(** ** The background job of the analysis route (processAnalysisInBackground) *)

Module BackgroundAnalysis.
Import JS Types AIAnalyzer.

(** [enum AnalysisStatus] of the database. *)
Inductive AnalysisStatus := PENDING | PROCESSING | COMPLETED | FAILED | CANCELLED.

(** The columns of a [Channel] row the job reads. *)
Record Channel := mkChannel {
  youtubeChannelId : string;
  channel_title : string;
  channel_description : option string;
  channel_subscriberCount : Z;
  channel_videoCount : Z;
  channel_viewCount : Z;
  channel_contentType : string;
  channel_topics : list string
}.

(** The argument of [AnalysisQueries.updateResults]. *)
Record AnalysisResults := mkAnalysisResults {
  strengthsAnalysis : JsValue;
  weaknessesAnalysis : JsValue;
  opportunitiesAnalysis : JsValue;
  competitorAnalysis : option string;
  contentStrategyTopics : option string;
  overallScore : JSNumber;
  contentQualityScore : JSNumber;
  engagementScore : JSNumber;
  growthPotentialScore : JSNumber;
  results_aiModel : string;
  results_promptVersion : string;
  processingTimeMs : Z;
  results_costCents : Z
}.

(** A write to the row of the analysis: [AnalysisQueries.updateStatus(id,
    status)], or [AnalysisQueries.updateResults(id, results)], which also
    sets the status COMPLETED. *)
Inductive Update :=
| UpdateStatus (status : AnalysisStatus)
| UpdateResults (results : AnalysisResults).

(** The status of the row after the writes of [log], oldest first. *)
Definition statusAfter (initial : AnalysisStatus) (log : list Update)
    : AnalysisStatus :=
  match last log with
  | Some (UpdateStatus status) => status
  | Some (UpdateResults _) => COMPLETED
  | None => initial
  end.

(** The request the job builds from the channel row.  The route has
    checked the analysis type before it starts the job. *)
Definition aiRequest (channel : Channel) (analysisType : AnalysisType)
    : AIAnalysisRequest :=
  {| channelData :=
       {| channel_id := youtubeChannelId channel;
          title := channel_title channel;
          description :=
            match channel_description channel with
            | Some text => text
            | None => EmptyString
            end;
          subscriberCount := channel_subscriberCount channel;
          videoCount := channel_videoCount channel;
          viewCount := channel_viewCount channel;
          contentType := channel_contentType channel;
          topics := channel_topics channel;
          recentVideos := None |};
     analysisType := analysisType |}.

(** [array.map(c => c.name)] *)
Fixpoint names (elements : list JsValue) : Completion (list JsValue) :=
  match elements with
  | [] => Normal []
  | c :: rest =>
      name ← getProp c "name";
      others ← names rest;
      Normal (name :: others)
  end.

Section Job.
Context `{Host}.

(** [array.join(', ')], of the host. *)
Variable join : list JsValue -> string.

(** The database: the message of the error a write throws, if it does. *)
Variable refuses : Update -> option string.

(** [competitors?.similarChannels.map(c => c.name).join(', ')]; the
    messages of the [TypeError]s are V8's. *)
Definition competitorNames (competitors : JsValue) : Completion (option string) :=
  match competitors with
  | JUndefined | JNull => Normal None
  | _ =>
      similarChannels ← getProp competitors "similarChannels";
      match similarChannels with
      | JArr elements =>
          channelNames ← names elements;
          Normal (Some (join channelNames))
      | JUndefined => Throw "Cannot read properties of undefined (reading 'map')"
      | JNull => Throw "Cannot read properties of null (reading 'map')"
      | _ => Throw "result.data.competitors?.similarChannels.map is not a function"
      end
  end.

(** [contentStrategy?.recommendedTopics.join(', ')] *)
Definition recommendedTopics (contentStrategy : JsValue) : Completion (option string) :=
  match contentStrategy with
  | JUndefined | JNull => Normal None
  | _ =>
      topics ← getProp contentStrategy "recommendedTopics";
      match topics with
      | JArr elements => Normal (Some (join elements))
      | JUndefined => Throw "Cannot read properties of undefined (reading 'join')"
      | JNull => Throw "Cannot read properties of null (reading 'join')"
      | _ => Throw "result.data.contentStrategy?.recommendedTopics.join is not a function"
      end
  end.

(** The object passed to [updateResults]. *)
Definition resultsOf (result : AIAnalysisResponse) : Completion AnalysisResults :=
  competitorAnalysis ← competitorNames (competitors result);
  contentStrategy ← recommendedTopics (contentStrategy result);
  Normal {| strengthsAnalysis := strengths_summary (strengths result);
            weaknessesAnalysis := weaknesses_summary (weaknesses result);
            opportunitiesAnalysis := opportunities_summary (opportunities result);
            competitorAnalysis := competitorAnalysis;
            contentStrategyTopics := contentStrategy;
            overallScore := overall (scores result);
            contentQualityScore := contentQuality (scores result);
            engagementScore := engagement (scores result);
            growthPotentialScore := growthPotential (scores result);
            results_aiModel := aiModel (analysis_metadata result);
            results_promptVersion := promptVersion (analysis_metadata result);
            processingTimeMs := analysis_processingTime (analysis_metadata result);
            results_costCents := analysis_costCents (analysis_metadata result) |}.

(** One write: the log with the write appended, or the error thrown. *)
Definition write (update : Update) (log : list Update)
    : list Update * Completion unit :=
  match refuses update with
  | Some text => (log, Throw text)
  | None => (log ++ [update], Normal tt)
  end.

(** [processAnalysisInBackground(analysisId, channel, analysisType)] on
    the analyzer of the route, constructed without configuration: the new
    state of the analyzer, the writes made to the row, and whether the
    promise resolves or rejects.  The [catch] block is [failed]. *)
Definition processAnalysisInBackground (fuel : nat) (this : Services)
    (env : Environment) (channel : Channel) (analysisType : AnalysisType)
    (w : World) (log : list Update)
    : option (World * list Update * Completion unit) :=
  let failed (w : World) (log : list Update) :=
    let '(log', outcome) := write (UpdateStatus FAILED) log in
    Some (w, log', outcome) in
  match write (UpdateStatus PROCESSING) log with
  | (log1, Throw _) => failed w log1
  | (log1, Normal _) =>
      match analyzeChannel fuel this env (aiRequest channel analysisType) None w with
      | None => None
      | Some (w1, Throw _) => failed w1 log1
      | Some (w1, Normal result) =>
          match (if success result then data result else None) with
          | Some analysis =>
              match resultsOf analysis with
              | Throw _ => failed w1 log1
              | Normal results =>
                  match write (UpdateResults results) log1 with
                  | (log2, Throw _) => failed w1 log2
                  | (log2, Normal _) => Some (w1, log2, Normal tt)
                  end
              end
          | None =>
              match write (UpdateStatus FAILED) log1 with
              | (log2, Throw _) => failed w1 log2
              | (log2, Normal _) => Some (w1, log2, Normal tt)
              end
          end
      end
  end.

End Job.

End BackgroundAnalysis.

(** * Concrete inputs *)

Module Samples.
Import CostTracker.

Definition sampleRecord (i : nat) : UsageRecord :=
  {| provider := "openai"; model := "gpt-4-turbo"; analysisType := "QUICK_SCAN";
     tokensUsed := Z.of_nat i; costCents := 1; processingTime := 10;
     success := true; error := None; timestamp := None |}.

(** A failed record of the same provider. *)
Definition failedRecord : UsageRecord :=
  {| provider := "openai"; model := "gpt-4-turbo"; analysisType := "QUICK_SCAN";
     tokensUsed := 0; costCents := 0; processingTime := 0;
     success := false; error := Some "OpenAI API Error: quota exceeded";
     timestamp := None |}.

(** A record whose analysis type is the name [__proto__]. *)
Definition protoRecord : UsageRecord :=
  {| provider := "openai"; model := "gpt-4-turbo"; analysisType := "__proto__";
     tokensUsed := 900; costCents := 5; processingTime := 800;
     success := true; error := None; timestamp := Some 10 |}.

(** Two OpenAI records, one of them failed, around a Claude record. *)
Definition mixedHistory : list UsageRecord :=
  [ {| provider := "openai"; model := "gpt-4-turbo"; analysisType := "QUICK_SCAN";
       tokensUsed := 900; costCents := 3; processingTime := 800;
       success := true; error := None; timestamp := Some 10 |};
    {| provider := "claude"; model := "claude-3-sonnet"; analysisType := "DEEP_DIVE";
       tokensUsed := 3000; costCents := 4; processingTime := 1500;
       success := true; error := None; timestamp := Some 20 |};
    {| provider := "openai"; model := "gpt-4-turbo"; analysisType := "DEEP_DIVE";
       tokensUsed := 0; costCents := 0; processingTime := 0;
       success := false; error := Some "OpenAI service not initialized. Check API key.";
       timestamp := Some 30 |} ].

Definition sampleCalls (n : nat) : list (Z * UsageRecord) :=
  (fun i => (Z.of_nat i, sampleRecord i)) <$> seq 0 n.

(** A parsed provider answer with an out-of-range score, a score that is
    not a number, and a negative score. *)
Definition sampleParsed : JS.JsValue :=
  JS.JObj
    [("strengths",
      JS.JObj [("summary", JS.JStr "clear niche");
               ("details", JS.JArr [JS.JStr "a"; JS.JStr "b"; JS.JStr "c"]);
               ("score", JS.JNum (JS.Fin 150))]);
     ("weaknesses", JS.JObj [("details", JS.JStr "not an array")]);
     ("opportunities", JS.JObj [("recommendations", JS.JArr [JS.JObj []])]);
     ("scores",
      JS.JObj [("overall", JS.JStr "abc");
               ("contentQuality", JS.JNum (JS.Fin (-7 # 2)));
               ("engagement", JS.JStr "42");
               ("growthPotential", JS.JNum JS.PosInf)])].

Definition sampleContent : string := "{...}".

Fixpoint digitsValue (acc : Z) (s : string) : option Z :=
  match s with
  | EmptyString => Some acc
  | String c s' =>
      let n := Z.of_N (Ascii.N_of_ascii c) in
      if (48 <=? n) && (n <=? 57) then digitsValue (10 * acc + (n - 48)) s'
      else None
  end.

(** A host for the examples: it parses one text, reads unsigned decimal
    integers, and prints integers without grouping. *)
#[local] Instance sampleHost : JS.Host :=
  {| JS.JSON_parse := fun text =>
       if decide (text = sampleContent) then JS.Normal sampleParsed
       else if decide (text = "null") then JS.Normal JS.JNull
       else JS.Throw "Unexpected token";
     JS.StringToNumber := fun s =>
       match digitsValue 0 s with
       | Some z => JS.Fin (inject_Z z)
       | None => JS.NaN
       end;
     JS.ObjectToString := fun _ => "[object Object]";
     JS.NumberToString := pretty;
     JS.toLocaleString := pretty |}.

Definition sampleChannel : Types.ChannelData :=
  {| Types.channel_id := "UC123"; Types.title := "Tiny Kitchens";
     Types.description := "Cooking in small spaces";
     Types.subscriberCount := 12000; Types.videoCount := 85;
     Types.viewCount := 930000; Types.contentType := "cooking";
     Types.topics := ["food"; "diy"];
     Types.recentVideos :=
       Some [{| Types.video_title := "One-pan pasta"; Types.views := 4100;
                Types.likes := 320; Types.comments := 41;
                Types.publishedAt := "2024-06-01" |}] |}.

Definition sampleAnalysisRequest (t : Types.AnalysisType) : Types.AIAnalysisRequest :=
  {| Types.channelData := sampleChannel; Types.analysisType := t |}.

(** A deep dive of a channel with a title of 200 characters, no
    description and one recent video: 1500 estimated input tokens. *)
Definition longTitleRequest : Types.AIAnalysisRequest :=
  {| Types.channelData :=
       {| Types.channel_id := "UC456";
          Types.title := String.concat EmptyString (replicate 200 "k");
          Types.description := EmptyString;
          Types.subscriberCount := 10; Types.videoCount := 1;
          Types.viewCount := 100; Types.contentType := "cooking";
          Types.topics := [];
          Types.recentVideos :=
            Some [{| Types.video_title := "One-pan pasta"; Types.views := 4100;
                     Types.likes := 320; Types.comments := 41;
                     Types.publishedAt := "2024-06-01" |}] |};
     Types.analysisType := Types.DEEP_DIVE |}.

(** An invocation whose exchange ends in a non-2xx answer carrying
    [errorMessage], whatever the prompt. *)
Definition failingCall {Usage} (errorMessage requestId : string) (elapsed : Z)
    : Types.Invocation Usage :=
  {| Types.exchange := fun _ _ => Types.NotOk (Some errorMessage);
     Types.exchangeWithoutModel := fun _ => Types.Rejected (Some errorMessage);
     Types.generatedRequestId := requestId;
     Types.elapsed := elapsed |}.

(** A provider exchange that returns [content] with the given usage, and
    answers a request without model as the APIs do. *)
Definition answeringCall {Usage} (content : string) (usage : Usage)
    : Types.Invocation Usage :=
  {| Types.exchange := fun _ _ => Types.Ok content usage;
     Types.exchangeWithoutModel :=
       fun _ => Types.Rejected (Some "you must provide a model parameter");
     Types.generatedRequestId := "req_2";
     Types.elapsed := 900 |}.

(** The response of the OpenAI client to such an invocation. *)
Definition openaiErrorResponse (errorMessage requestId : string) (elapsed : Z)
    : Types.AIServiceResponse :=
  {| Types.success := false;
     Types.data := None;
     Types.error :=
       Some {| Types.code := "OPENAI_ERROR";
               Types.message := "OpenAI API Error: " +:+ errorMessage;
               Types.error_provider := Some Types.openai |};
     Types.metadata :=
       {| Types.requestId := requestId; Types.processingTime := elapsed;
          Types.tokensUsed := 0; Types.costCents := 0 |} |}.

(** Options that name the OpenAI client, with or without a fallback. *)
Definition openaiOptions (fallback : option Types.AIProvider) : AIAnalyzer.Options :=
  {| AIAnalyzer.provider := Some Types.openai;
     AIAnalyzer.model := None;
     AIAnalyzer.fallbackProvider := fallback |}.

(** The configuration [MODEL_CONFIGS['claude-3-sonnet']]. *)
Definition sonnetConfig : Types.AIModelConfig :=
  {| Types.config_provider := Types.claude;
     Types.config_model := "claude-3-sonnet-20240229";
     Types.maxTokens := 4096; Types.temperature := 7 # 10;
     Types.costPerInputToken := 3 # 1000; Types.costPerOutputToken := 15 # 1000 |}.

(** The configuration [MODEL_CONFIGS['claude-3-opus']]. *)
Definition opusConfig : Types.AIModelConfig :=
  {| Types.config_provider := Types.claude;
     Types.config_model := "claude-3-opus-20240229";
     Types.maxTokens := 4096; Types.temperature := 7 # 10;
     Types.costPerInputToken := 15 # 1000; Types.costPerOutputToken := 75 # 1000 |}.

(** A mapping whose top-level key [title] is also a property of the
    elements of its array [xs], and a template with a loop over [xs]. *)
Definition shadowingVariables : list (string * PromptTemplates.Value) :=
  [("title", PromptTemplates.VStr "T");
   ("xs", PromptTemplates.VArr [[("title", "A")]; [("title", "B")]])].

Definition loopTemplate : string := "{{#each xs}}{{title}};{{/each}}".

Definition emptyWorld : AIAnalyzer.World :=
  {| AIAnalyzer.usageHistory := []; AIAnalyzer.invocations := [] |}.

(** An environment in which OpenAI answers with an error and Claude
    with [sampleContent]. *)
Definition sampleEnvironment : AIAnalyzer.Environment :=
  {| AIAnalyzer.openaiCall := failingCall "quota exceeded" "openai_1" 120;
     AIAnalyzer.claudeCall :=
       answeringCall sampleContent
         {| ClaudeService.input_tokens := 1000; ClaudeService.output_tokens := 2000 |};
     AIAnalyzer.now := 5 |}.

Definition noServices : AIAnalyzer.Services :=
  {| AIAnalyzer.openaiService := false; AIAnalyzer.claudeService := false |}.

Definition bothServices : AIAnalyzer.Services :=
  {| AIAnalyzer.openaiService := true; AIAnalyzer.claudeService := true |}.

(** The limiter of the specification's example: window 1000 ms, limit 2. *)
Definition sampleConfig : RateLimiter.RateLimitConfig :=
  {| RateLimiter.windowMs := 1000; RateLimiter.max := 2 |}.

Definition sampleRequest : RateLimiter.Request :=
  {| RateLimiter.user_id := Some "user-1"; RateLimiter.ip := Some "10.0.0.1";
     RateLimiter.route_path := Some "/api/analysis"; RateLimiter.path := "/api/analysis" |}.

(** A user row with the given subscription and quota, and a request to
    the route [/] of the analysis router made by that user. *)
Definition sampleUser (status : Auth.SubscriptionStatus) (monthly used : Z)
    : Auth.User :=
  {| Auth.user_id := "user-1"; Auth.user_email := "ada@example.org";
     Auth.user_name := "Ada"; Auth.user_avatarUrl := None;
     Auth.user_subscriptionStatus := status;
     Auth.monthlyQuota := monthly; Auth.usedQuota := used;
     Auth.quotaResetDate := 0 |}.

Definition sampleUserRequest (user : option Auth.User) : RateLimiter.UserRequest :=
  {| RateLimiter.user := Auth.authUser <$> user;
     RateLimiter.remoteAddress := Some "10.0.0.1";
     RateLimiter.routePath := Some "/";
     RateLimiter.requestPath := "/" |}.

Definition sampleBody (analysisType : string) : AnalysisRoutes.CreateAnalysisRequest :=
  {| AnalysisRoutes.channelId := JS.JStr "UC123";
     AnalysisRoutes.analysisType := JS.JStr analysisType |}.

(** A channel row for the background job. *)
Definition sampleChannelRow : BackgroundAnalysis.Channel :=
  {| BackgroundAnalysis.youtubeChannelId := "UC123";
     BackgroundAnalysis.channel_title := "Tiny Kitchens";
     BackgroundAnalysis.channel_description := None;
     BackgroundAnalysis.channel_subscriberCount := 12000;
     BackgroundAnalysis.channel_videoCount := 85;
     BackgroundAnalysis.channel_viewCount := 930000;
     BackgroundAnalysis.channel_contentType := "COOKING";
     BackgroundAnalysis.channel_topics := ["food"; "diy"] |}.

(** The answer [sampleParsed] with a [competitors] section that lacks
    its [similarChannels], and a host that parses [sampleContent] to it. *)
Definition sampleParsedWithCompetitors : JS.JsValue :=
  match sampleParsed with
  | JS.JObj properties =>
      JS.JObj (("competitors", JS.JObj [("gaps", JS.JArr [])]) :: properties)
  | v => v
  end.

#[local] Instance competitorsHost : JS.Host :=
  {| JS.JSON_parse := fun text =>
       if decide (text = sampleContent) then JS.Normal sampleParsedWithCompetitors
       else JS.Throw "Unexpected token";
     JS.StringToNumber := @JS.StringToNumber sampleHost;
     JS.ObjectToString := @JS.ObjectToString sampleHost;
     JS.NumberToString := @JS.NumberToString sampleHost;
     JS.toLocaleString := @JS.toLocaleString sampleHost |}.

(** An environment in which Claude answers with [sampleContent]. *)
Definition claudeAnswers : AIAnalyzer.Environment :=
  {| AIAnalyzer.openaiCall := failingCall "quota exceeded" "openai_1" 120;
     AIAnalyzer.claudeCall :=
       answeringCall sampleContent
         {| ClaudeService.input_tokens := 1000; ClaudeService.output_tokens := 2000 |};
     AIAnalyzer.now := 5 |}.

(** An analyzer with the Claude service only. *)
Definition claudeOnly : AIAnalyzer.Services :=
  {| AIAnalyzer.openaiService := false; AIAnalyzer.claudeService := true |}.

End Samples.

(** * Properties *)

(** ** Cost Tracker *)

Module CostTrackerSpec.
Import CostTracker Samples.

Lemma length_slice_last {A} (n : nat) (l : list A) :
  length (slice_last n l) = (length l `min` n)%nat.
Proof. unfold slice_last. rewrite length_drop. lia. Qed.

Lemma slice_last_all {A} (n : nat) (l : list A) :
  (length l <= n)%nat -> slice_last n l = l.
Proof.
  intros H. unfold slice_last.
  replace (length l - n)%nat with 0%nat by lia. reflexivity.
Qed.

Lemma slice_last_app {A} (n : nat) (l k : list A) :
  slice_last n (slice_last n l ++ k) = slice_last n (l ++ k).
Proof.
  unfold slice_last.
  rewrite <- drop_app_le by lia.
  rewrite drop_drop. f_equal.
  rewrite length_drop, !length_app. lia.
Qed.

Lemma recordUsage_slice now r h :
  recordUsage now r h = slice_last maxHistorySize (h ++ [fullRecord now r]).
Proof.
  unfold recordUsage. cbv zeta. case_decide; [reflexivity|].
  symmetry. apply slice_last_all. lia.
Qed.

Lemma recordAll_slice calls h :
  recordAll calls (slice_last maxHistorySize h)
  = slice_last maxHistorySize (h ++ pushedRecords calls).
Proof.
  revert h. induction calls as [|[now r] calls IH]; intros h; simpl.
  - rewrite app_nil_r. reflexivity.
  - rewrite recordUsage_slice, slice_last_app, IH.
    rewrite <- app_assoc. reflexivity.
Qed.

Lemma recordAll_from_empty calls :
  recordAll calls [] = slice_last maxHistorySize (pushedRecords calls).
Proof. apply (recordAll_slice calls []). Qed.

Lemma length_pushedRecords calls : length (pushedRecords calls) = length calls.
Proof. apply length_fmap. Qed.

(** C8.  From the empty history, any run of [recordUsage] calls leaves at
    most 10,000 records, namely the most recent ones in call order; after
    10,001 calls exactly 10,000 records are left, the pushed records
    without the first one.  A call on any history of at most 10,000
    records leaves at most 10,000. *)
Theorem recordUsage_cap_fifo (calls : list (Z * UsageRecord)) :
  Z.of_nat (length (recordAll calls [])) <= 10000 /\
  (forall now record history,
     Z.of_nat (length history) <= 10000 ->
     Z.of_nat (length (recordUsage now record history)) <= 10000) /\
  recordAll calls [] = slice_last maxHistorySize (pushedRecords calls) /\
  (Z.of_nat (length calls) = 10001 ->
   Z.of_nat (length (recordAll calls [])) = 10000 /\
   recordAll calls [] = drop 1 (pushedRecords calls)).
Proof.
  rewrite recordAll_from_empty, length_slice_last, length_pushedRecords.
  unfold slice_last. rewrite length_pushedRecords.
  split; [unfold maxHistorySize; lia|]. split.
  { intros now record history Hlen.
    rewrite recordUsage_slice, length_slice_last. unfold maxHistorySize. lia. }
  unfold maxHistorySize.
  split; [reflexivity|].
  intros Hlen. split; [lia|].
  f_equal. lia.
Qed.

Lemma recordUsage_cap_fifo_witness :
  Z.of_nat (length (recordAll (sampleCalls (Z.to_nat 10001)) [])) = 10000 /\
  recordAll (sampleCalls (Z.to_nat 10001)) []
  = drop 1 (pushedRecords (sampleCalls (Z.to_nat 10001))).
Proof.
  apply (recordUsage_cap_fifo (sampleCalls (Z.to_nat 10001))).
  vm_compute. reflexivity.
Defined.

Lemma recordAll_pushed calls :
  recordAll calls [] = pushedRecords (slice_last maxHistorySize calls).
Proof.
  rewrite recordAll_from_empty. unfold slice_last, pushedRecords.
  rewrite fmap_drop, length_fmap. reflexivity.
Qed.

Lemma timestamps_pushedRecords calls : timestamps (pushedRecords calls) = calls.*1.
Proof.
  unfold timestamps, pushedRecords.
  induction calls as [|c calls IH]; [reflexivity|].
  rewrite !fmap_cons. simpl. f_equal. exact IH.
Qed.

Lemma pushedRecords_stamped calls :
  Forall (fun r => is_Some (timestamp r)) (pushedRecords calls).
Proof.
  unfold pushedRecords. apply Forall_fmap, Forall_true.
  intros c. simpl. eauto.
Qed.

Lemma StronglySorted_drop {A} (R : relation A) (k : nat) (l : list A) :
  StronglySorted R l -> StronglySorted R (drop k l).
Proof.
  intros H. rewrite <- (take_drop k l) in H.
  eapply StronglySorted_app_1_r, H.
Qed.

(** On a history pushed under a non-decreasing clock, the window filter
    of [getUsageStats] keeps a contiguous tail. *)
Lemma relevantRecords_tail cutoffDate calls :
  StronglySorted Z.le (calls.*1) ->
  exists k, relevantRecords cutoffDate (pushedRecords calls)
            = drop k (pushedRecords calls).
Proof.
  unfold relevantRecords.
  induction calls as [|[now r] calls IH]; intros Hs.
  - exists 0%nat. reflexivity.
  - simpl in Hs. apply StronglySorted_inv in Hs as [Hs Hall].
    simpl. unfold inWindow at 1. simpl. case_bool_decide as Hc.
    + exists 0%nat. simpl. f_equal.
      clear IH Hs. induction calls as [|[now' r'] calls IH]; [reflexivity|].
      apply Forall_cons in Hall as [Hle Hall]. simpl in *.
      unfold inWindow at 1. simpl.
      rewrite bool_decide_eq_true_2 by lia. f_equal. apply IH, Hall.
    + destruct (IH Hs) as [k Hk]. exists (S k). simpl. exact Hk.
Qed.

Lemma relevantRecords_permutation cutoffDate (h h' : list UsageRecord) :
  h ≡ₚ h' -> relevantRecords cutoffDate h ≡ₚ relevantRecords cutoffDate h'.
Proof.
  unfold relevantRecords.
  induction 1 as [|r h h' Hp IH|r r' h|h h' h'' Hp1 IH1 Hp2 IH2].
  - reflexivity.
  - cbn. destruct (inWindow cutoffDate r); [constructor|]; exact IH.
  - cbn. destruct (inWindow cutoffDate r), (inWindow cutoffDate r');
      (reflexivity || apply perm_swap).
  - etransitivity; eassumption.
Qed.

Lemma successes_permutation (h h' : list UsageRecord) :
  h ≡ₚ h' -> List.filter success h ≡ₚ List.filter success h'.
Proof.
  induction 1 as [|r h h' Hp IH|r r' h|h h' h'' Hp1 IH1 Hp2 IH2].
  - reflexivity.
  - cbn. destruct (success r); [constructor|]; exact IH.
  - cbn. destruct (success r), (success r'); (reflexivity || apply perm_swap).
  - etransitivity; eassumption.
Qed.

Lemma sumOf_shift (f : UsageRecord -> Z) (a : Z) (l : list UsageRecord) :
  foldl (fun sum r => sum + f r) a l = a + sumOf f l.
Proof.
  unfold sumOf. revert a. induction l as [|r l IH]; intros a; simpl; [lia|].
  rewrite (IH (a + f r)), (IH (0 + f r)). lia.
Qed.

Lemma sumOf_permutation (f : UsageRecord -> Z) (h h' : list UsageRecord) :
  h ≡ₚ h' -> sumOf f h = sumOf f h'.
Proof.
  induction 1 as [|r h h' Hp IH|r r' h|h h' h'' Hp1 IH1 Hp2 IH2].
  - reflexivity.
  - unfold sumOf in *. cbn. rewrite !sumOf_shift. unfold sumOf. lia.
  - unfold sumOf. cbn. rewrite !sumOf_shift. lia.
  - congruence.
Qed.

(** C10 does not hold as stated: [new Date()] reads the wall clock, and
    when the clock is set back between two calls the later record carries
    the earlier timestamp.  The window of [getUsageStats] is none the
    worse for it: it still counts the one record stamped after the
    cutoff. *)
Lemma clock_set_back_timestamps_decrease :
  let calls := [(2000, sampleRecord 0); (1000, sampleRecord 1)] in
  timestamps (recordAll calls []) = [2000; 1000]
  /\ ~ StronglySorted Z.le (timestamps (recordAll calls []))
  /\ totalRequests (getUsageStats 1500 (recordAll calls [])) = 1.
Proof.
  cbv zeta. split; [vm_compute; reflexivity|]. split; [|vm_compute; reflexivity].
  intros Hsorted. vm_compute in Hsorted.
  apply StronglySorted_inv in Hsorted as [_ Hall].
  apply Forall_cons in Hall as [Hle _]. vm_compute in Hle. apply Hle. reflexivity.
Qed.

(** C10, amended.  The record [recordUsage] stores is its argument with
    the timestamp field overwritten by the clock value read at insertion,
    so a timestamp supplied by the caller has no effect, and the stored
    record is the last of the history.  Every retained record carries a
    timestamp, and the retained timestamps are, in insertion order, the
    clock values read by the retained calls: they are non-decreasing
    exactly when those clock values are.  When they are, the window filter
    shared by [getUsageStats] and [checkBudgetLimits] selects a contiguous
    tail of the history.  The aggregations do not rely on that order: the
    filter tests each record's own timestamp, and the counts, sums and
    average of [getUsageStats] and the result of [checkBudgetLimits] are
    the same for every reordering of the history. *)
Theorem recordUsage_timestamps (calls : list (Z * UsageRecord)) :
  (forall now p m a tok c pt s e ts h,
     fullRecord now (mkUsageRecord p m a tok c pt s e ts)
     = mkUsageRecord p m a tok c pt s e (Some now) /\
     last (recordUsage now (mkUsageRecord p m a tok c pt s e ts) h)
     = Some (mkUsageRecord p m a tok c pt s e (Some now))) /\
  Forall (fun r => is_Some (timestamp r)) (recordAll calls []) /\
  timestamps (recordAll calls []) = (slice_last maxHistorySize calls).*1 /\
  (StronglySorted Z.le (timestamps (recordAll calls []))
   <-> StronglySorted Z.le (slice_last maxHistorySize calls).*1) /\
  (StronglySorted Z.le (slice_last maxHistorySize calls).*1 ->
   forall cutoffDate, exists k,
     relevantRecords cutoffDate (recordAll calls []) = drop k (recordAll calls [])) /\
  (forall cutoffDate history history',
     history ≡ₚ history' ->
     let stats := getUsageStats cutoffDate history in
     let stats' := getUsageStats cutoffDate history' in
     totalRequests stats = totalRequests stats'
     /\ successfulRequests stats = successfulRequests stats'
     /\ failedRequests stats = failedRequests stats'
     /\ totalCostCents stats = totalCostCents stats'
     /\ totalTokensUsed stats = totalTokensUsed stats'
     /\ averageProcessingTime stats = averageProcessingTime stats') /\
  (forall todayCutoff monthCutoff dailyLimitCents monthlyLimitCents history history',
     history ≡ₚ history' ->
     checkBudgetLimits todayCutoff monthCutoff dailyLimitCents monthlyLimitCents
       history
     = checkBudgetLimits todayCutoff monthCutoff dailyLimitCents monthlyLimitCents
         history').
Proof.
  assert (Hstats : forall cutoffDate history history',
     history ≡ₚ history' ->
     let stats := getUsageStats cutoffDate history in
     let stats' := getUsageStats cutoffDate history' in
     totalRequests stats = totalRequests stats'
     /\ successfulRequests stats = successfulRequests stats'
     /\ failedRequests stats = failedRequests stats'
     /\ totalCostCents stats = totalCostCents stats'
     /\ totalTokensUsed stats = totalTokensUsed stats'
     /\ averageProcessingTime stats = averageProcessingTime stats').
  { intros cutoffDate history history' Hp. cbv zeta.
    apply (relevantRecords_permutation cutoffDate) in Hp.
    unfold getUsageStats. cbv zeta.
    pose proof (Permutation_length Hp) as Hlen.
    pose proof (Permutation_length (successes_permutation _ _ Hp)) as Hsuccess.
    pose proof (sumOf_permutation costCents _ _ Hp) as Hcost.
    pose proof (sumOf_permutation tokensUsed _ _ Hp) as Htokens.
    pose proof (sumOf_permutation processingTime _ _ Hp) as Htime.
    rewrite Hlen, Hsuccess, Hcost, Htokens, Htime.
    case_decide; cbn; repeat split. }
  split; [|rewrite recordAll_pushed; split; [|split; [|split; [|split; [|split]]]]].
  - intros. split; [reflexivity|].
    rewrite recordUsage_slice. unfold slice_last.
    rewrite last_lookup, length_drop, lookup_drop, length_app. simpl.
    replace (_ + _)%nat with (length h + 0)%nat by (unfold maxHistorySize; lia).
    rewrite lookup_app_r by lia.
    replace (_ - _)%nat with 0%nat by lia. reflexivity.
  - apply pushedRecords_stamped.
  - apply timestamps_pushedRecords.
  - rewrite timestamps_pushedRecords. reflexivity.
  - intros Hs cutoffDate. apply relevantRecords_tail, Hs.
  - exact Hstats.
  - intros todayCutoff monthCutoff dailyLimitCents monthlyLimitCents
      history history' Hp.
    unfold checkBudgetLimits. cbv zeta.
    destruct (Hstats todayCutoff _ _ Hp) as (_ & _ & _ & -> & _).
    destruct (Hstats monthCutoff _ _ Hp) as (_ & _ & _ & -> & _).
    reflexivity.
Qed.

(** Three calls under a rising clock leave a history whose window is a
    tail; the two records of the counterexample give the same total cost
    in either order. *)
Lemma recordUsage_timestamps_witness :
  (exists k, relevantRecords 1 (recordAll (sampleCalls 3) [])
             = drop k (recordAll (sampleCalls 3) [])) /\
  totalCostCents
    (getUsageStats 0 (recordAll [(2000, sampleRecord 0); (1000, sampleRecord 1)] []))
  = totalCostCents
      (getUsageStats 0 (recordAll [(1000, sampleRecord 1); (2000, sampleRecord 0)] [])).
Proof.
  split.
  - destruct (recordUsage_timestamps (sampleCalls 3)) as (_ & _ & _ & _ & Htail & _).
    apply Htail. vm_compute. repeat constructor; discriminate.
  - destruct (recordUsage_timestamps []) as (_ & _ & _ & _ & _ & Hstats & _).
    apply (Hstats 0
             (recordAll [(2000, sampleRecord 0); (1000, sampleRecord 1)] [])
             (recordAll [(1000, sampleRecord 1); (2000, sampleRecord 0)] [])).
    apply perm_swap.
Defined.

End CostTrackerSpec.

(** ** Rate limiter *)

Module RateLimiterSpec.
Import RateLimiter.

Lemma increment_fresh now key w store :
  expiredAt now key store ->
  increment now key w store
  = (<[key := mkEntry 1 (now + w)]> store, mkHit 1 (Z.max 0 (now + w - now))).
Proof.
  unfold expiredAt, increment. intros H.
  destruct (store !! key) as [e|]; [|reflexivity].
  rewrite decide_True by exact H. reflexivity.
Qed.

Lemma increment_live now key w store c R :
  store !! key = Some (mkEntry c R) -> now < R ->
  increment now key w store
  = (<[key := mkEntry (c + 1) R]> store, mkHit (c + 1) (Z.max 0 (R - now))).
Proof.
  unfold increment. intros -> H. simpl.
  rewrite decide_False by lia. reflexivity.
Qed.

(** A call for another key leaves the entry alone. *)
Lemma increment_other now key key' w (store : gmap string Entry) :
  key <> key' -> (increment now key w store).1 !! key' = store !! key'.
Proof. intros H. unfold increment. simpl. apply lookup_insert_ne, H. Qed.

(** The sweep leaves a live entry alone. *)
Lemma cleanup_live now key (store : gmap string Entry) e :
  store !! key = Some e -> now < resetTime e -> cleanup now store !! key = Some e.
Proof.
  intros H Hlt. unfold cleanup. apply map_lookup_filter_Some_2; [exact H|].
  simpl. lia.
Qed.

Lemma serve_live config req clock store c R :
  store !! requestKey req = Some (mkEntry c R) ->
  Forall (fun t => t.1 < R) clock ->
  (totalHits ∘ hit) <$> (serve config req clock store).2
  = seqZ (c + 1) (Z.of_nat (length clock)) /\
  (serve config req clock store).1 !! requestKey req
  = Some (mkEntry (c + Z.of_nat (length clock)) R).
Proof.
  revert store c. induction clock as [|[now now'] clock IH]; intros store c Hk Hall.
  - simpl. rewrite Z.add_0_r. split; [reflexivity|exact Hk].
  - apply Forall_cons in Hall as [Hnow Hall]. simpl in Hnow.
    cbn [serve]. unfold rateLimiter.
    rewrite (increment_live _ _ _ _ _ _ Hk Hnow).
    specialize (IH (<[requestKey req := mkEntry (c + 1) R]> store) (c + 1)
                  (lookup_insert_eq _ _ _) Hall).
    destruct (serve config req clock _) as [store2 os]. simpl in *.
    destruct IH as [IH1 IH2]. split.
    + rewrite seqZ_cons by lia. f_equal.
      etransitivity; [exact IH1|]. f_equal; lia.
    + rewrite IH2. do 2 f_equal. lia.
Qed.

Lemma serve_outcomes config req clock store :
  Forall (fun o =>
            remainingHeader o = Z.max 0 (max config - totalHits (hit o)) /\
            limitHeader o = max config /\
            (overLimit o = true <-> max config < totalHits (hit o)))
         (serve config req clock store).2.
Proof.
  revert store. induction clock as [|[now now'] clock IH]; intros store; cbn [serve].
  - constructor.
  - unfold rateLimiter.
    destruct (increment now _ _ store) as [store1 result].
    specialize (IH store1). destruct (serve config req clock store1) as [store2 os].
    simpl in *. constructor; [|exact IH]. simpl.
    rewrite bool_decide_eq_true. tauto.
Qed.

(** C7.  Take a limiter with window [windowMs] and limit [max], and a
    request whose key has no entry, or an expired one, at the time [t0] of
    a first call.  The first call and any further calls made before
    [t0 + windowMs] return the hit counts 1, 2, 3, ...; each call is
    rejected exactly when its count exceeds [max]; the remaining count put
    in the header is [max - count] clamped at zero, so never negative; and
    a call at or after the reset time [t0 + windowMs] starts a fresh entry
    with count 1 and reset time [now + windowMs]. *)
Theorem fixed_window_counts config req t0 t0' clock store :
  expiredAt t0 (requestKey req) store ->
  Forall (fun t => t.1 < t0 + windowMs config) clock ->
  let run := serve config req ((t0, t0') :: clock) store in
  (totalHits ∘ hit) <$> run.2 = seqZ 1 (Z.of_nat (S (length clock))) /\
  Forall (fun o =>
            (overLimit o = true <-> max config < totalHits (hit o)) /\
            remainingHeader o = Z.max 0 (max config - totalHits (hit o)) /\
            0 <= remainingHeader o) run.2 /\
  forall now now', t0 + windowMs config <= now ->
    let late := rateLimiter config req now now' run.1 in
    totalHits (hit late.2) = 1 /\
    late.1 !! requestKey req = Some (mkEntry 1 (now + windowMs config)).
Proof.
  intros Hexp Hall run. split; [|split].
  - subst run. cbn [serve]. unfold rateLimiter.
    rewrite (increment_fresh _ _ _ _ Hexp).
    pose proof (serve_live config req clock
      (<[requestKey req := mkEntry 1 (t0 + windowMs config)]> store) 1 _
      (lookup_insert_eq _ _ _) Hall) as [H1 _].
    destruct (serve config req clock _) as [store2 os]. simpl in *.
    rewrite seqZ_cons by lia. f_equal.
    etransitivity; [exact H1|]. f_equal; lia.
  - eapply Forall_impl; [apply serve_outcomes|].
    intros o (Hrem & _ & Hover). split; [exact Hover|]. split; [exact Hrem|].
    rewrite Hrem. lia.
  - intros now now' Hlate late.
    assert (Hk : run.1 !! requestKey req
                 = Some (mkEntry (1 + Z.of_nat (length clock)) (t0 + windowMs config))).
    { subst run. cbn [serve]. unfold rateLimiter.
      rewrite (increment_fresh _ _ _ _ Hexp).
      pose proof (serve_live config req clock
        (<[requestKey req := mkEntry 1 (t0 + windowMs config)]> store) 1 _
        (lookup_insert_eq _ _ _) Hall) as [_ H2].
      destruct (serve config req clock _) as [store2 os]. exact H2. }
    subst late. unfold rateLimiter.
    rewrite increment_fresh by (unfold expiredAt; rewrite Hk; exact Hlate).
    simpl. split; [reflexivity|]. apply lookup_insert_eq.
Qed.

Lemma fixed_window_counts_witness :
  let run := serve Samples.sampleConfig Samples.sampleRequest
               [(0, 0); (10, 10); (999, 999)] ∅ in
  (totalHits ∘ hit) <$> run.2 = [1; 2; 3] /\
  overLimit <$> run.2 = [false; false; true] /\
  remainingHeader <$> run.2 = [1; 0; 0] /\
  totalHits (hit (rateLimiter Samples.sampleConfig Samples.sampleRequest
                    1000 1000 run.1).2) = 1.
Proof.
  pose proof (fixed_window_counts Samples.sampleConfig Samples.sampleRequest
                0 0 [(10, 10); (999, 999)] ∅) as H.
  destruct H as (Hhits & _ & Hlate).
  - vm_compute. exact I.
  - repeat constructor.
  - split; [exact Hhits|].
    split; [vm_compute; reflexivity|].
    split; [vm_compute; reflexivity|].
    apply (Hlate 1000 1000). vm_compute. discriminate.
Defined.

End RateLimiterSpec.

(** ** Analyzer *)

Module AIAnalyzerSpec.
Import JS Types AIAnalyzer Samples.

Section WithHost.
Context `{Host}.

Lemma openai_client_failure request errorMessage requestId elapsed :
  OpenAIService.analyzeChannel (failingCall errorMessage requestId elapsed)
    request "gpt-4-turbo"
  = openaiErrorResponse errorMessage requestId elapsed.
Proof.
  unfold OpenAIService.analyzeChannel.
  destruct request as [c []]; reflexivity.
Qed.

(** The recursive call of the [catch] block carries no fallback, so the
    recursion stops after one step: two units of fuel always suffice. *)
Lemma analyzeChannel_terminates fuel this env request options w :
  exists w' outcome,
    analyzeChannel (S (S fuel)) this env request options w = Some (w', outcome).
Proof.
  cbn [analyzeChannel].
  destruct (beforeTry this request options) as [[p1 m1]|e1]; [|eauto].
  destruct (dispatch this env request p1 m1 w) as [w1 [result|e2]]; [eauto|].
  destruct (options ≫= fallbackProvider) as [fallback|]; [|eauto].
  destruct (decide (fallback <> p1)); [|eauto].
  destruct (getDefaultModel fallback) as [fallbackModel|e3]; [|eauto].
  destruct (beforeTry this request _) as [[p2 m2]|e4]; [|eauto].
  destruct (dispatch this env request p2 m2 w1) as [w2 [result|e5]]; eauto.
Qed.

(** More fuel does not change the outcome. *)
Lemma analyzeChannel_fuel fuel this env request options w :
  analyzeChannel (S (S fuel)) this env request options w
  = analyzeChannel 2 this env request options w.
Proof.
  cbn [analyzeChannel].
  destruct (beforeTry this request options) as [[p1 m1]|e1]; [|reflexivity].
  destruct (dispatch this env request p1 m1 w) as [w1 [result|e2]]; [reflexivity|].
  destruct (options ≫= fallbackProvider) as [fallback|]; [|reflexivity].
  destruct (decide (fallback <> p1)); [|reflexivity].
  destruct (getDefaultModel fallback) as [fallbackModel|e3]; [|reflexivity].
  destruct (beforeTry this request _) as [[p2 m2]|e4]; [|reflexivity].
  destruct (dispatch this env request p2 m2 w1) as [w2 [result|e5]]; reflexivity.
Qed.

(** What the [try] block does with the response of a provider client,
    whatever fallback the caller named: a successful response is recorded,
    an unsuccessful one is not, and either is returned as it is. *)
Lemma analyzeChannel_client_response fuel this env request options p m
    w w1 result :
  beforeTry this request options = Normal (p, m) ->
  dispatch this env request p m w = (w1, Normal result) ->
  analyzeChannel (S fuel) this env request options w
  = Some (if success result
          then recordUsage (now env) (successRecord p m request result) w1
          else w1,
          Normal result).
Proof.
  intros Hbefore Hdispatch.
  cbn [analyzeChannel]. rewrite Hbefore, Hdispatch. reflexivity.
Qed.

(** The fallback the [catch] block does run: when the service of the
    named provider was not constructed, the call is the call with the
    fallback as provider, its default model, and no further fallback. *)
Lemma fallback_when_not_constructed fuel env request w :
  analyzeChannel (S (S fuel)) {| openaiService := false; claudeService := true |}
    env request (Some (openaiOptions (Some claude))) w
  = analyzeChannel (S fuel) {| openaiService := false; claudeService := true |}
      env request
      (Some {| provider := Some claude; model := Some "claude-3-sonnet";
               fallbackProvider := None |}) w.
Proof.
  cbn [analyzeChannel]. unfold openaiOptions.
  cbn [mbind option_bind provider model fallbackProvider].
  destruct request as [c []]; reflexivity.
Qed.

(** C1.  With the OpenAI client constructed and named by the caller, no
    fallback given, and an exchange that ends in a non-2xx answer, the
    client is invoked once and returns its failure response;
    [analyzeChannel] passes that response on and the usage history is
    left as it was: the failed invocation is not recorded. *)
Theorem failed_invocation_not_recorded fuel claudeOn claudeCall t request w
    errorMessage requestId elapsed :
  analyzeChannel (S fuel)
    {| openaiService := true; claudeService := claudeOn |}
    {| openaiCall := failingCall errorMessage requestId elapsed;
       claudeCall := claudeCall; now := t |}
    request (Some (openaiOptions None)) w
  = Some ({| usageHistory := usageHistory w;
             invocations := invocations w ++ [(openai, "gpt-4-turbo")] |},
          Normal (openaiErrorResponse errorMessage requestId elapsed))
  /\ success (openaiErrorResponse errorMessage requestId elapsed) = false.
Proof.
  split; [|reflexivity].
  cbn [analyzeChannel]. unfold openaiOptions.
  cbn [mbind option_bind provider model fallbackProvider].
  destruct request as [c []]; reflexivity.
Qed.

(** A model that the table does not have and no object inherits is
    refused by the client with a failure response. *)
Lemma openai_unsupported call request model :
  OpenAIService.MODEL_CONFIGS model = Absent ->
  OpenAIService.analyzeChannel call request model
  = unsupportedModel "OPENAI_ERROR" openai
      (generatedRequestId call) (elapsed call) model.
Proof.
  intros Hconfig. unfold OpenAIService.analyzeChannel. cbv zeta.
  rewrite Hconfig. destruct request as [c []]; reflexivity.
Qed.

Lemma claude_unsupported call request model :
  ClaudeService.MODEL_CONFIGS model = Absent ->
  ClaudeService.analyzeChannel call request model
  = unsupportedModel "CLAUDE_ERROR" claude
      (generatedRequestId call) (elapsed call) model.
Proof.
  intros Hconfig. unfold ClaudeService.analyzeChannel. cbv zeta.
  rewrite Hconfig. destruct request as [c []]; reflexivity.
Qed.

(** C2.  [analyzeChannel] raises past its boundary: the statements
    before its [try] block are not covered by it.  With neither service
    constructed and no provider named, the call rejects with the error
    of provider selection, whatever the request, and records nothing.  It
    also rejects when the caller names a provider without default model,
    and when the caller names a model that the provider's table does not
    have and no object inherits: cost estimation throws, although the
    provider client, inside the [try] block, answers the same model with
    a tagged failure.  Once the three statements have succeeded the
    caller does receive a response, unless the fallback named is a
    provider without default model. *)
Theorem analyzeChannel_boundary fuel this env request w :
  (forall options,
     openaiService this = false -> claudeService this = false ->
     options ≫= provider = None ->
     analyzeChannel (S fuel) this env request options w
     = Some (w, Throw "No AI services available. Check API keys.")) /\
  (forall fallback,
     analyzeChannel (S fuel) this env request
       (Some {| provider := Some google; model := None;
                fallbackProvider := fallback |}) w
     = Some (w, Throw "Unknown provider: google")) /\
  (forall selected fallback,
     selected <> EmptyString ->
     OpenAIService.MODEL_CONFIGS selected = Absent ->
     analyzeChannel (S fuel) this env request
       (Some {| provider := Some openai; model := Some selected;
                fallbackProvider := fallback |}) w
     = Some (w, Throw ("Unknown model: " +:+ selected +:+ " for provider: openai"))
     /\ OpenAIService.analyzeChannel (openaiCall env) request selected
        = unsupportedModel "OPENAI_ERROR" openai
            (generatedRequestId (openaiCall env)) (elapsed (openaiCall env))
            selected) /\
  (forall selected fallback,
     selected <> EmptyString ->
     ClaudeService.MODEL_CONFIGS selected = Absent ->
     analyzeChannel (S fuel) this env request
       (Some {| provider := Some claude; model := Some selected;
                fallbackProvider := fallback |}) w
     = Some (w, Throw ("Unknown model: " +:+ selected +:+ " for provider: claude"))
     /\ ClaudeService.analyzeChannel (claudeCall env) request selected
        = unsupportedModel "CLAUDE_ERROR" claude
            (generatedRequestId (claudeCall env)) (elapsed (claudeCall env))
            selected) /\
  (forall options p m,
     beforeTry this request options = Normal (p, m) ->
     options ≫= fallbackProvider <> Some google ->
     exists w' response,
       analyzeChannel (S (S fuel)) this env request options w
       = Some (w', Normal response)).
Proof.
  split; [|split; [|split; [|split]]].
  - intros options Hopenai Hclaude Hprovider.
    cbn [analyzeChannel]. unfold beforeTry, selectOptimalProvider.
    rewrite Hprovider, Hopenai, Hclaude, !andb_false_r. reflexivity.
  - intros fallback. reflexivity.
  - intros selected fallback Hselected Hconfig.
    split; [|apply openai_unsupported, Hconfig].
    cbn [analyzeChannel]. unfold beforeTry, estimateCost, orDefault.
    cbn [mbind option_bind provider model completion_bind bind].
    repeat (rewrite decide_False by exact Hselected;
            cbn [mbind completion_bind bind]).
    unfold OpenAIService.getModelConfig. rewrite Hconfig. reflexivity.
  - intros selected fallback Hselected Hconfig.
    split; [|apply claude_unsupported, Hconfig].
    cbn [analyzeChannel]. unfold beforeTry, estimateCost, orDefault.
    cbn [mbind option_bind provider model completion_bind bind].
    repeat (rewrite decide_False by exact Hselected;
            cbn [mbind completion_bind bind]).
    unfold ClaudeService.getModelConfig. rewrite Hconfig. reflexivity.
  - intros options p m Hbefore Hfallback. cbn [analyzeChannel]. rewrite Hbefore.
    destruct (dispatch this env request p m w) as [w1 [result|e1]]; [eauto|].
    destruct (options ≫= fallbackProvider) as [fallback|]; [|eauto].
    destruct (decide (fallback <> p)); [|eauto].
    assert (Hrec : exists fallbackModel,
               getDefaultModel fallback = Normal fallbackModel /\
               beforeTry this request
                 (Some {| provider := Some fallback; model := Some fallbackModel;
                          fallbackProvider := None |})
               = Normal (fallback, fallbackModel)).
    { destruct fallback; [| |congruence]; eexists; split; reflexivity. }
    destruct Hrec as (fallbackModel & -> & ->).
    destruct (dispatch this env request fallback fallbackModel w1)
      as [w2 [result|e2]]; eauto.
Qed.

(** C3.  With both services constructed, the OpenAI client named as
    provider and the Claude client named as fallback, an exchange with
    OpenAI that ends in a non-2xx answer yields the OpenAI failure
    response; the Claude client is not invoked. *)
Theorem failed_invocation_no_fallback fuel claudeCall t request w
    errorMessage requestId elapsed :
  analyzeChannel (S fuel)
    {| openaiService := true; claudeService := true |}
    {| openaiCall := failingCall errorMessage requestId elapsed;
       claudeCall := claudeCall; now := t |}
    request (Some (openaiOptions (Some claude))) w
  = Some ({| usageHistory := usageHistory w;
             invocations := invocations w ++ [(openai, "gpt-4-turbo")] |},
          Normal (openaiErrorResponse errorMessage requestId elapsed))
  /\ error_provider <$> error (openaiErrorResponse errorMessage requestId elapsed)
     = Some (Some openai).
Proof.
  split; [|reflexivity].
  cbn [analyzeChannel]. unfold openaiOptions.
  cbn [mbind option_bind provider model fallbackProvider].
  destruct request as [c []]; reflexivity.
Qed.

End WithHost.

Section Witness.
#[local] Existing Instance sampleHost.

(** With no service constructed and no options the call rejects, and
    so it does for the model [gpt-5] on OpenAI; with both services and a
    fallback it resolves. *)
Lemma analyzeChannel_boundary_witness :
  analyzeChannel 1 noServices sampleEnvironment
    (sampleAnalysisRequest QUICK_SCAN) None emptyWorld
  = Some (emptyWorld, Throw "No AI services available. Check API keys.") /\
  analyzeChannel 1 bothServices sampleEnvironment
    (sampleAnalysisRequest QUICK_SCAN)
    (Some {| provider := Some openai; model := Some "gpt-5";
             fallbackProvider := Some claude |}) emptyWorld
  = Some (emptyWorld, Throw "Unknown model: gpt-5 for provider: openai") /\
  exists w' response,
    analyzeChannel 2 bothServices sampleEnvironment
      (sampleAnalysisRequest DEEP_DIVE) (Some (openaiOptions (Some claude)))
      emptyWorld
    = Some (w', Normal response).
Proof.
  pose proof (@analyzeChannel_boundary sampleHost 0 noServices sampleEnvironment
                (sampleAnalysisRequest QUICK_SCAN) emptyWorld)
    as (Hnone & _).
  pose proof (@analyzeChannel_boundary sampleHost 0 bothServices sampleEnvironment
                (sampleAnalysisRequest QUICK_SCAN) emptyWorld)
    as (_ & _ & Hmodel & _).
  pose proof (@analyzeChannel_boundary sampleHost 0 bothServices sampleEnvironment
                (sampleAnalysisRequest DEEP_DIVE) emptyWorld)
    as (_ & _ & _ & _ & Htagged).
  split; [|split].
  - apply (Hnone None); reflexivity.
  - apply (Hmodel "gpt-5" (Some claude)); [discriminate|reflexivity].
  - apply (Htagged (Some (openaiOptions (Some claude))) openai "gpt-4-turbo");
      [reflexivity|].
    vm_compute. discriminate.
Defined.

End Witness.

End AIAnalyzerSpec.

(** ** Provider clients *)

Module ProviderSpec.
Import JS Types Samples.

Lemma Qle_bool_inject_Z (a b : Z) :
  Qle_bool (inject_Z a) (inject_Z b) = (a <=? b).
Proof. unfold Qle_bool. simpl. rewrite !Z.mul_1_r. reflexivity. Qed.

(** The clamp both clients apply after rounding. *)
Lemma clamp_valid (z : Z) :
  validScore (Math_max (Fin 0) (Math_min (Fin 100) (Fin (inject_Z z)))).
Proof.
  unfold Math_min.
  change (Qle_bool 100 (inject_Z z)) with (Qle_bool (inject_Z 100) (inject_Z z)).
  rewrite Qle_bool_inject_Z.
  destruct (100 <=? z) eqn:Hhi.
  - exists 100. split; [reflexivity|lia].
  - unfold Math_max.
    change (Qle_bool (inject_Z z) 0) with (Qle_bool (inject_Z z) (inject_Z 0)).
    rewrite Qle_bool_inject_Z.
    destruct (z <=? 0) eqn:Hlo.
    + exists 0. split; [reflexivity|lia].
    + exists z. split; [reflexivity|lia].
Qed.

Lemma clamp_high (z : Z) :
  100 <= z -> Math_max (Fin 0) (Math_min (Fin 100) (Fin (inject_Z z))) = Fin 100.
Proof.
  intros Hz. unfold Math_min.
  change (Qle_bool 100 (inject_Z z)) with (Qle_bool (inject_Z 100) (inject_Z z)).
  rewrite Qle_bool_inject_Z.
  destruct (Z.leb_spec 100 z); [reflexivity|lia].
Qed.

Lemma clamp_low (z : Z) :
  z <= 0 -> Math_max (Fin 0) (Math_min (Fin 100) (Fin (inject_Z z))) = Fin 0.
Proof.
  intros Hz. unfold Math_min.
  change (Qle_bool 100 (inject_Z z)) with (Qle_bool (inject_Z 100) (inject_Z z)).
  rewrite Qle_bool_inject_Z.
  destruct (Z.leb_spec 100 z); [lia|].
  unfold Math_max.
  change (Qle_bool (inject_Z z) 0) with (Qle_bool (inject_Z z) (inject_Z 0)).
  rewrite Qle_bool_inject_Z.
  destruct (Z.leb_spec z 0); [reflexivity|lia].
Qed.

Lemma Math_round_high (q : Q) : (100 <= q)%Q -> 100 <= Math_round q.
Proof.
  intros Hq. unfold Math_round.
  change 100 with (Qfloor (inject_Z 100)) at 1.
  { apply Qfloor_resp_le.
    apply Qle_trans with q; [exact Hq|].
    rewrite <- (Qplus_0_r q) at 1. apply Qplus_le_r. discriminate. }
Qed.

Lemma Math_round_low (q : Q) : (q < 0)%Q -> Math_round q <= 0.
Proof.
  intros Hq. unfold Math_round.
  assert (Hlt : (q + (1 # 2) < inject_Z 1)%Q).
  { apply Qlt_trans with (0 + (1 # 2))%Q; [|reflexivity].
    apply Qplus_lt_l. exact Hq. }
  pose proof (Qfloor_le (q + (1 # 2))) as Hfl.
  assert (Hz : (inject_Z (Qfloor (q + (1 # 2))) < inject_Z 1)%Q)
    by (eapply Qle_lt_trans; eassumption).
  rewrite <- Zlt_Qlt in Hz. lia.
Qed.

Section WithHost.
Context `{Host}.

Ltac validate_range :=
  let n := fresh "n" in
  intros ?; cbv beta delta [OpenAIService.validateScore ClaudeService.validateScore] zeta;
  match goal with |- context [Number ?v] => destruct (Number v) as [| | |n] end;
  cbn [isNaN Math_round_num];
  [ exists 0; split; [reflexivity|lia]
  | exists 100; split; [reflexivity|lia]
  | exists 0; split; [reflexivity|lia]
  | apply clamp_valid ].

Lemma openai_validateScore_valid v : validScore (OpenAIService.validateScore v).
Proof. revert v. validate_range. Qed.

Lemma claude_validateScore_valid v : validScore (ClaudeService.validateScore v).
Proof. revert v. validate_range. Qed.

Ltac step_parse :=
  match goal with
  | |- context [getProp ?a ?b] =>
      let v := fresh "v" in let m := fresh "m" in
      destruct (getProp a b) as [v|m] eqn:?;
      cbn [mbind completion_bind bind tryCatch]; [|discriminate]
  | |- context [JSON_parse ?a] =>
      let v := fresh "v" in let m := fresh "m" in
      destruct (JSON_parse a) as [v|m] eqn:?;
      cbn [mbind completion_bind bind tryCatch]; [|discriminate]
  | |- context [if ?b then Throw _ else _] =>
      destruct b; cbn [mbind completion_bind bind tryCatch]; [discriminate|]
  end.

Lemma openai_parse_valid content r :
  OpenAIService.parseAnalysisResponse content = Normal r ->
  validScores r
  /\ exists parsed,
       JSON_parse content = Normal parsed
       /\ scoresFrom OpenAIService.validateScore parsed r.
Proof.
  unfold OpenAIService.parseAnalysisResponse.
  cbn [mbind completion_bind bind tryCatch].
  repeat step_parse.
  intros [= <-]. split.
  - cbn. repeat split; apply openai_validateScore_valid.
  - eexists. split; [reflexivity|].
    unfold scoresFrom. cbn [strengths scores score overall contentQuality
                            engagement growthPotential].
    eauto 20.
Qed.

Lemma claude_parse_valid content r :
  ClaudeService.parseAnalysisResponse content = Normal r ->
  validScores r
  /\ exists matched parsed,
       ClaudeService.jsonMatch content = Some matched
       /\ JSON_parse matched = Normal parsed
       /\ scoresFrom ClaudeService.validateScore parsed r.
Proof.
  unfold ClaudeService.parseAnalysisResponse.
  destruct (ClaudeService.jsonMatch content) as [matched|];
    cbn [mbind completion_bind bind tryCatch]; [|discriminate].
  repeat step_parse.
  intros [= <-]. split.
  - cbn. repeat split; apply claude_validateScore_valid.
  - eexists _, _. split; [reflexivity|]. split; [eassumption|].
    unfold scoresFrom. cbn [strengths scores score overall contentQuality
                            engagement growthPotential].
    eauto 20.
Qed.

Ltac confidence_cases :=
  unfold OpenAIService.calculateConfidence, ClaudeService.calculateConfidence;
  repeat match goal with
         | |- context [decide ?P] => destruct (decide P)
         | |- context [greaterThanZero ?n] => destruct (greaterThanZero n)
         | |- context [truthy ?v] => destruct (truthy v)
         end; cbv zeta.

Lemma openai_confidence_range r :
  Double.between (Double.ofZ 0) (Double.ofZ 1) (OpenAIService.calculateConfidence r).
Proof. confidence_cases; split; vm_compute; reflexivity. Qed.

Lemma claude_confidence_range r :
  Double.between (Double.ofZ 0) (Double.ofZ 1) (ClaudeService.calculateConfidence r).
Proof. confidence_cases; split; vm_compute; reflexivity. Qed.

(** The scores of a result are those of the answer it was parsed from:
    the metadata added afterwards leaves them alone. *)
Lemma scoresFrom_metadata validate parsed r meta :
  scoresFrom validate parsed r ->
  scoresFrom validate parsed
    {| strengths := strengths r; weaknesses := weaknesses r;
       opportunities := opportunities r; competitors := competitors r;
       contentStrategy := contentStrategy r; scores := scores r;
       analysis_metadata := meta |}.
Proof. intros H0. exact H0. Qed.

Lemma openai_client_valid call request model r :
  data (OpenAIService.analyzeChannel call request model) = Some r ->
  validScores r
  /\ Double.between (Double.ofZ 0) (Double.ofZ 1) (confidence (analysis_metadata r))
  /\ exists prompt config content usage parsed,
       exchange call prompt config = Ok content usage
       /\ JSON_parse content = Normal parsed
       /\ scoresFrom OpenAIService.validateScore parsed r.
Proof.
  unfold OpenAIService.analyzeChannel. cbv zeta.
  destruct (PromptTemplates.getPromptTemplate _) as [promptTemplate|m];
    cbn [mbind completion_bind bind]; [|discriminate].
  destruct (OpenAIService.MODEL_CONFIGS model) as [config| |];
    cbn [mbind completion_bind bind];
    [|destruct (exchangeWithoutModel call _); discriminate|discriminate].
  destruct (exchange call _ config) as [m|e|content usage] eqn:Hexchange;
    cbn [OpenAIService.makeAPICall mbind completion_bind bind];
    [discriminate|discriminate|].
  cbn [fst snd].
  destruct (OpenAIService.parseAnalysisResponse _) as [analysisResult|m] eqn:Hparse;
    cbn [mbind completion_bind bind]; [|discriminate].
  cbn [data]. intros [= <-].
  apply openai_parse_valid in Hparse as [Hscores (parsed & Hparsed & Hfrom)].
  split; [exact Hscores|]. cbn [analysis_metadata confidence].
  split; [apply openai_confidence_range|].
  eexists _, config, content, usage, parsed.
  split; [exact Hexchange|]. split; [exact Hparsed|].
  apply scoresFrom_metadata, Hfrom.
Qed.

Lemma claude_client_valid call request model r :
  data (ClaudeService.analyzeChannel call request model) = Some r ->
  validScores r
  /\ Double.between (Double.ofZ 0) (Double.ofZ 1) (confidence (analysis_metadata r))
  /\ exists prompt config content usage matched parsed,
       exchange call prompt config = Ok content usage
       /\ ClaudeService.jsonMatch content = Some matched
       /\ JSON_parse matched = Normal parsed
       /\ scoresFrom ClaudeService.validateScore parsed r.
Proof.
  unfold ClaudeService.analyzeChannel. cbv zeta.
  destruct (PromptTemplates.getPromptTemplate _) as [promptTemplate|m];
    cbn [mbind completion_bind bind]; [|discriminate].
  destruct (ClaudeService.MODEL_CONFIGS model) as [config| |];
    cbn [mbind completion_bind bind];
    [|destruct (exchangeWithoutModel call _); discriminate|discriminate].
  destruct (exchange call _ config) as [m|e|content usage] eqn:Hexchange;
    cbn [ClaudeService.makeAPICall mbind completion_bind bind];
    [discriminate|discriminate|].
  cbn [fst snd].
  destruct (ClaudeService.parseAnalysisResponse _) as [analysisResult|m] eqn:Hparse;
    cbn [mbind completion_bind bind]; [|discriminate].
  cbn [data]. intros [= <-].
  apply claude_parse_valid in Hparse
    as [Hscores (matched & parsed & Hmatched & Hparsed & Hfrom)].
  split; [exact Hscores|]. cbn [analysis_metadata confidence].
  split; [apply claude_confidence_range|].
  eexists _, config, content, usage, matched, parsed.
  split; [exact Hexchange|]. split; [exact Hmatched|]. split; [exact Hparsed|].
  apply scoresFrom_metadata, Hfrom.
Qed.

Lemma clamp_within (z : Z) :
  0 <= z <= 100 ->
  Math_max (Fin 0) (Math_min (Fin 100) (Fin (inject_Z z))) = Fin (inject_Z z).
Proof.
  intros Hz. unfold Math_min.
  change (Qle_bool 100 (inject_Z z)) with (Qle_bool (inject_Z 100) (inject_Z z)).
  rewrite Qle_bool_inject_Z.
  destruct (Z.leb_spec 100 z).
  - assert (z = 100) as -> by lia. reflexivity.
  - unfold Math_max.
    change (Qle_bool (inject_Z z) 0) with (Qle_bool (inject_Z z) (inject_Z 0)).
    rewrite Qle_bool_inject_Z.
    destruct (Z.leb_spec z 0); [|reflexivity].
    assert (z = 0) as -> by lia. reflexivity.
Qed.

(** C9.  Whatever text a provider returns, every result parsed from it
    has its five scores among the integers from 0 to 100, each of them
    being what [validateScore] makes of the score field of that name in
    the parsed answer; every result a provider client hands back has
    moreover a confidence between 0 and 1, and its scores come in the
    same way from the content the exchange ended in.  [validateScore]
    turns a number that rounds to an integer from 0 to 100 into that
    integer, a number of 100 or more into 100, a negative number into 0,
    and a value whose conversion to a number is NaN into 0. *)
Theorem client_scores_in_range :
  (forall content r,
     OpenAIService.parseAnalysisResponse content = Normal r ->
     validScores r
     /\ exists parsed,
          JSON_parse content = Normal parsed
          /\ scoresFrom OpenAIService.validateScore parsed r) /\
  (forall content r,
     ClaudeService.parseAnalysisResponse content = Normal r ->
     validScores r
     /\ exists matched parsed,
          ClaudeService.jsonMatch content = Some matched
          /\ JSON_parse matched = Normal parsed
          /\ scoresFrom ClaudeService.validateScore parsed r) /\
  (forall call request model r,
     data (OpenAIService.analyzeChannel call request model) = Some r ->
     validScores r
     /\ Double.between (Double.ofZ 0) (Double.ofZ 1)
          (confidence (analysis_metadata r))
     /\ exists prompt config content usage parsed,
          exchange call prompt config = Ok content usage
          /\ JSON_parse content = Normal parsed
          /\ scoresFrom OpenAIService.validateScore parsed r) /\
  (forall call request model r,
     data (ClaudeService.analyzeChannel call request model) = Some r ->
     validScores r
     /\ Double.between (Double.ofZ 0) (Double.ofZ 1)
          (confidence (analysis_metadata r))
     /\ exists prompt config content usage matched parsed,
          exchange call prompt config = Ok content usage
          /\ ClaudeService.jsonMatch content = Some matched
          /\ JSON_parse matched = Normal parsed
          /\ scoresFrom ClaudeService.validateScore parsed r) /\
  (forall v, validScore (OpenAIService.validateScore v)
             /\ validScore (ClaudeService.validateScore v)) /\
  (forall q, 0 <= Math_round q <= 100 ->
     OpenAIService.validateScore (JNum (Fin q)) = Fin (inject_Z (Math_round q)) /\
     ClaudeService.validateScore (JNum (Fin q)) = Fin (inject_Z (Math_round q))) /\
  (forall q, (100 <= q)%Q ->
     OpenAIService.validateScore (JNum (Fin q)) = Fin 100 /\
     ClaudeService.validateScore (JNum (Fin q)) = Fin 100) /\
  (forall q, (q < 0)%Q ->
     OpenAIService.validateScore (JNum (Fin q)) = Fin 0 /\
     ClaudeService.validateScore (JNum (Fin q)) = Fin 0) /\
  (forall v, Number v = NaN ->
     OpenAIService.validateScore v = Fin 0 /\
     ClaudeService.validateScore v = Fin 0).
Proof.
  split; [exact openai_parse_valid|].
  split; [exact claude_parse_valid|].
  split; [exact openai_client_valid|].
  split; [exact claude_client_valid|].
  split; [intros v; split;
          [apply openai_validateScore_valid|apply claude_validateScore_valid]|].
  split; [|split; [|split]].
  - intros q Hq.
    unfold OpenAIService.validateScore, ClaudeService.validateScore.
    cbn [Number isNaN Math_round_num].
    rewrite clamp_within by exact Hq. split; reflexivity.
  - intros q Hq.
    unfold OpenAIService.validateScore, ClaudeService.validateScore.
    cbn [Number isNaN Math_round_num].
    rewrite clamp_high by (apply Math_round_high, Hq). split; reflexivity.
  - intros q Hq.
    unfold OpenAIService.validateScore, ClaudeService.validateScore.
    cbn [Number isNaN Math_round_num].
    rewrite clamp_low by (apply Math_round_low, Hq). split; reflexivity.
  - intros v Hv.
    unfold OpenAIService.validateScore, ClaudeService.validateScore.
    rewrite Hv. split; reflexivity.
Qed.

End WithHost.

(** The two cost expressions denote the same rational number. *)
Lemma claude_cost_exact inputTokens outputTokens config :
  (ClaudeService.calculateCost (A := exact) inputTokens outputTokens config
   == OpenAIService.calculateCost (A := exact) inputTokens outputTokens config)%Q.
Proof.
  unfold ClaudeService.calculateCost, OpenAIService.calculateCost.
  cbn [exact integer decimal plus times over]. cbv zeta.
  change (inject_Z 1000000) with 1000000%Q. change (inject_Z 1000) with 1000%Q.
  field.
Qed.

Section Costs.
Context `{Host}.

(** C5, amended.  The OpenAI client computes the cost
    [(inputTokens/1000)*costPerInputToken + (outputTokens/1000)*costPerOutputToken]
    in binary floating point and reports [Math.round] of one hundred
    times that cost as the cents of a successful response.  The Claude
    client computes each term as [(tokens/1000000)*rate*1000] and reports
    the cents in the same way.  Read in exact arithmetic the two
    expressions are one and the same function, the formula above: both
    clients apply the scale factor 1/1000, and what differs between them
    is the rounding of the intermediate results. *)
Theorem provider_cost_formulas inputTokens outputTokens config :
  (OpenAIService.calculateCost (A := exact) inputTokens outputTokens config
   == (inject_Z inputTokens / 1000) * costPerInputToken config
      + (inject_Z outputTokens / 1000) * costPerOutputToken config)%Q /\
  (ClaudeService.calculateCost (A := exact) inputTokens outputTokens config
   == OpenAIService.calculateCost (A := exact) inputTokens outputTokens config)%Q /\
  (forall call request model content usage,
     OpenAIService.MODEL_CONFIGS model = Own config ->
     (forall prompt, exchange call prompt config = Ok content usage) ->
     success (OpenAIService.analyzeChannel call request model) = true ->
     costCents (metadata (OpenAIService.analyzeChannel call request model))
     = Double.cents
         (Double.mul
            (Double.add
               (Double.mul
                  (Double.div (Double.ofZ (OpenAIService.prompt_tokens usage))
                              (Double.ofZ 1000))
                  (Double.literal (costPerInputToken config)))
               (Double.mul
                  (Double.div (Double.ofZ (OpenAIService.completion_tokens usage))
                              (Double.ofZ 1000))
                  (Double.literal (costPerOutputToken config))))
            (Double.ofZ 100))) /\
  (forall call request model content usage,
     ClaudeService.MODEL_CONFIGS model = Own config ->
     (forall prompt, exchange call prompt config = Ok content usage) ->
     success (ClaudeService.analyzeChannel call request model) = true ->
     costCents (metadata (ClaudeService.analyzeChannel call request model))
     = Double.cents
         (Double.mul
            (Double.add
               (Double.mul
                  (Double.mul
                     (Double.div (Double.ofZ (ClaudeService.input_tokens usage))
                                 (Double.ofZ 1000000))
                     (Double.literal (costPerInputToken config)))
                  (Double.ofZ 1000))
               (Double.mul
                  (Double.mul
                     (Double.div (Double.ofZ (ClaudeService.output_tokens usage))
                                 (Double.ofZ 1000000))
                     (Double.literal (costPerOutputToken config)))
                  (Double.ofZ 1000)))
            (Double.ofZ 100))).
Proof.
  split; [reflexivity|].
  split; [apply claude_cost_exact|].
  split.
  - intros call request model content usage Hcfg Hex.
    unfold OpenAIService.analyzeChannel. cbv zeta.
    destruct (PromptTemplates.getPromptTemplate _) as [promptTemplate|m];
      cbn [mbind completion_bind bind]; [|discriminate].
    rewrite Hcfg. cbn [mbind completion_bind bind].
    rewrite Hex. cbn [OpenAIService.makeAPICall mbind completion_bind bind].
    destruct (OpenAIService.parseAnalysisResponse _) as [analysisResult|m];
      cbn [mbind completion_bind bind]; [|discriminate].
    reflexivity.
  - intros call request model content usage Hcfg Hex.
    unfold ClaudeService.analyzeChannel. cbv zeta.
    destruct (PromptTemplates.getPromptTemplate _) as [promptTemplate|m];
      cbn [mbind completion_bind bind]; [|discriminate].
    rewrite Hcfg. cbn [mbind completion_bind bind].
    rewrite Hex. cbn [ClaudeService.makeAPICall mbind completion_bind bind].
    destruct (ClaudeService.parseAnalysisResponse _) as [analysisResult|m];
      cbn [mbind completion_bind bind]; [|discriminate].
    reflexivity.
Qed.

End Costs.

Section Witness.
#[local] Existing Instance sampleHost.

(** C5 does not hold as stated: for one thousand input and two thousand
    output tokens at the rates of [claude-3-opus], the formula of the
    claim, computed as the OpenAI client computes it, comes to 16 cents,
    and the Claude client reports 17.  In exact arithmetic the cost is
    16.5 cents with either expression. *)
Lemma claude_cents_differ_from_formula :
  costCents (metadata (ClaudeService.analyzeChannel
                         (answeringCall sampleContent (ClaudeService.mkUsage 1000 2000))
                         (sampleAnalysisRequest QUICK_SCAN) "claude-3-opus"))
  = 17 /\
  Double.cents
    (Double.mul (OpenAIService.calculateCost (A := binary64) 1000 2000 opusConfig)
                (Double.ofZ 100))
  = 16 /\
  (OpenAIService.calculateCost (A := exact) 1000 2000 opusConfig * 100 == 33 # 2)%Q /\
  (ClaudeService.calculateCost (A := exact) 1000 2000 opusConfig * 100 == 33 # 2)%Q.
Proof. repeat split; vm_compute; reflexivity. Qed.

(** One thousand input and two thousand output tokens at the rates of
    [claude-3-sonnet] come to 3 cents, as reported by the Claude client. *)
Lemma provider_cost_formulas_witness :
  costCents (metadata (ClaudeService.analyzeChannel
                         (answeringCall sampleContent (ClaudeService.mkUsage 1000 2000))
                         (sampleAnalysisRequest QUICK_SCAN) "claude-3-sonnet"))
  = 3.
Proof.
  pose proof (@provider_cost_formulas sampleHost 1000 2000 sonnetConfig)
    as (_ & _ & _ & Hclaude).
  rewrite (Hclaude (answeringCall sampleContent (ClaudeService.mkUsage 1000 2000))
             (sampleAnalysisRequest QUICK_SCAN) "claude-3-sonnet" sampleContent
             (ClaudeService.mkUsage 1000 2000)).
  - vm_compute. reflexivity.
  - vm_compute. reflexivity.
  - intros prompt. reflexivity.
  - vm_compute. reflexivity.
Defined.

(** The specification's two examples, and a whole answer through the
    Claude client: the scores 150, "abc", -3.5, "42" and Infinity of the
    answer come out as 100, 0, 0, 42 and 100. *)
Lemma client_scores_in_range_witness :
  (OpenAIService.validateScore (JNum (Fin 150)) = Fin 100 /\
   OpenAIService.validateScore (JStr "abc") = Fin 0) /\
  exists r,
    data (ClaudeService.analyzeChannel
            (answeringCall sampleContent (ClaudeService.mkUsage 1000 2000))
            (sampleAnalysisRequest QUICK_SCAN) "claude-3-sonnet") = Some r /\
    (validScores r
     /\ Double.between (Double.ofZ 0) (Double.ofZ 1)
          (confidence (analysis_metadata r))
     /\ exists prompt config content usage matched parsed,
          exchange (answeringCall sampleContent (ClaudeService.mkUsage 1000 2000))
            prompt config = Ok content usage
          /\ ClaudeService.jsonMatch content = Some matched
          /\ JSON_parse matched = Normal parsed
          /\ scoresFrom ClaudeService.validateScore parsed r) /\
    score (strengths r) = Fin 100 /\
    scores r = {| overall := Fin 0; contentQuality := Fin 0;
                  engagement := Fin 42; growthPotential := Fin 100 |}.
Proof.
  pose proof (@client_scores_in_range sampleHost)
    as (_ & _ & _ & Hclaude & _ & _ & Hhigh & _ & Hnan).
  split; [split|].
  - apply (Hhigh 150%Q). vm_compute. discriminate.
  - apply (Hnan (JStr "abc")). vm_compute. reflexivity.
  - eexists. split; [vm_compute; reflexivity|]. split; [|split].
    + apply (Hclaude (answeringCall sampleContent (ClaudeService.mkUsage 1000 2000))
                     (sampleAnalysisRequest QUICK_SCAN) "claude-3-sonnet").
      vm_compute. reflexivity.
    + vm_compute. reflexivity.
    + vm_compute. reflexivity.
Defined.

End Witness.

End ProviderSpec.

(** ** Prompt templates *)

Module PromptTemplatesSpec.
Import JS PromptTemplates.

(** *** Texts *)

Lemma text_app_cons c (a b : string) : String c a +:+ b = String c (a +:+ b).
Proof. reflexivity. Qed.

Lemma text_app_nil_r (a : string) : a +:+ EmptyString = a.
Proof. induction a as [|c a IH]; [reflexivity|]. rewrite text_app_cons, IH. reflexivity. Qed.

Lemma text_app_assoc (a b c : string) : (a +:+ b) +:+ c = a +:+ (b +:+ c).
Proof.
  induction a as [|x a IH]; [reflexivity|]. rewrite !text_app_cons, IH. reflexivity.
Qed.

Lemma text_length_app (a b : string) :
  String.length (a +:+ b) = (String.length a + String.length b)%nat.
Proof.
  induction a as [|x a IH]; [reflexivity|]. rewrite text_app_cons. simpl. rewrite IH.
  reflexivity.
Qed.

Lemma stripPrefix_app p r : stripPrefix p (p +:+ r) = Some r.
Proof.
  induction p as [|c p IH]; [reflexivity|].
  rewrite text_app_cons. simpl. rewrite Ascii.eqb_refl. exact IH.
Qed.

Lemma stripPrefix_Some p s r : stripPrefix p s = Some r -> s = p +:+ r.
Proof.
  revert s. induction p as [|c p IH]; intros s; simpl.
  - intros [= ->]. reflexivity.
  - destruct s as [|d s]; [discriminate|].
    destruct (Ascii.eqb_spec c d) as [->|]; [|discriminate].
    intros Hs. rewrite text_app_cons, <- (IH _ Hs). reflexivity.
Qed.

(** A prefix no longer than [x] of [x +:+ y] is a prefix of [x]. *)
Lemma stripPrefix_within p x y :
  (String.length p <= String.length x)%nat ->
  stripPrefix p (x +:+ y) <> None -> stripPrefix p x <> None.
Proof.
  revert x. induction p as [|c p IH]; intros x Hlen; simpl; [discriminate|].
  destruct x as [|d x]; [simpl in Hlen; lia|].
  rewrite text_app_cons. destruct (Ascii.eqb c d); [|tauto].
  apply IH. simpl in Hlen. lia.
Qed.

Lemma splitAtFirst_unfold pat s :
  splitAtFirst pat s
  = match stripPrefix pat s with
    | Some after => Some (EmptyString, after)
    | None =>
        match s with
        | EmptyString => None
        | String c s' =>
            match splitAtFirst pat s' with
            | Some (before, after) => Some (String c before, after)
            | None => None
            end
        end
    end.
Proof. destruct s; reflexivity. Qed.

Lemma splitAtFirst_Some pat s a b :
  splitAtFirst pat s = Some (a, b) -> s = a +:+ pat +:+ b.
Proof.
  revert a. induction s as [|c s IH]; intros a; rewrite splitAtFirst_unfold.
  - destruct (stripPrefix pat EmptyString) as [after|] eqn:Hp; [|discriminate].
    intros [= <- <-]. apply stripPrefix_Some in Hp. exact Hp.
  - destruct (stripPrefix pat (String c s)) as [after|] eqn:Hp.
    + intros [= <- <-]. apply stripPrefix_Some in Hp. exact Hp.
    + destruct (splitAtFirst pat s) as [[a' b']|]; [|discriminate].
      intros [= <- <-]. rewrite text_app_cons, <- (IH a' eq_refl). reflexivity.
Qed.

Lemma occurs_cons pat c s :
  occurs pat (String c s) = false ->
  stripPrefix pat (String c s) = None /\ occurs pat s = false.
Proof.
  unfold occurs. rewrite splitAtFirst_unfold.
  destruct (stripPrefix pat (String c s)); [discriminate|].
  destruct (splitAtFirst pat s) as [[a b]|]; [discriminate|]. tauto.
Qed.

(** When [pat] does not occur in [a] followed by all but the last
    character of [pat], its first occurrence in [a +:+ pat +:+ b] is the
    one after [a]. *)
Lemma splitAtFirst_first pat' l a b :
  occurs (pat' +:+ String l EmptyString) (a +:+ pat') = false ->
  splitAtFirst (pat' +:+ String l EmptyString)
               (a +:+ (pat' +:+ String l EmptyString) +:+ b)
  = Some (a, b).
Proof.
  set (pat := pat' +:+ String l EmptyString).
  induction a as [|c a IH]; intros Hocc; rewrite splitAtFirst_unfold.
  - change (EmptyString +:+ pat +:+ b) with (pat +:+ b).
    rewrite stripPrefix_app. reflexivity.
  - rewrite text_app_cons in Hocc. apply occurs_cons in Hocc as [Hhd Htl].
    destruct (stripPrefix pat (String c a +:+ pat +:+ b)) as [after|] eqn:Hp.
    + exfalso. revert Hhd. rewrite <- text_app_cons.
      apply stripPrefix_within with (y := String l EmptyString +:+ b).
      * subst pat. rewrite !text_length_app. simpl. lia.
      * rewrite text_app_assoc. subst pat. rewrite text_app_assoc in Hp.
        rewrite Hp. discriminate.
    + rewrite text_app_cons, (IH Htl). reflexivity.
Qed.

(** *** Global replacement *)

Section GlobalReplace.
Variable matchAt : string -> string -> option (string * nat).

(** Passing the rest of a match. *)
Lemma globalReplace_skip before a rest :
  globalReplace matchAt before (String.length a) (a +:+ rest)
  = globalReplace matchAt (before +:+ a) 0 rest.
Proof.
  revert before. induction a as [|c a IH]; intros before.
  - rewrite text_app_nil_r. reflexivity.
  - rewrite text_app_cons. simpl. rewrite IH, text_app_assoc. reflexivity.
Qed.

(** One match at the start of the text. *)
Lemma globalReplace_match before c matched rest replacement :
  matchAt before (String c matched +:+ rest)
  = Some (replacement, String.length (String c matched)) ->
  globalReplace matchAt before 0 (String c matched +:+ rest)
  = replacement
    +:+ globalReplace matchAt (before +:+ String c matched) 0 rest.
Proof.
  intros Hm. rewrite text_app_cons in *. simpl. rewrite Hm. simpl.
  rewrite globalReplace_skip, text_app_assoc. reflexivity.
Qed.

Lemma globalReplace_prefix opener before text pre rest :
  guardedBy matchAt opener ->
  splitAtFirst opener text = Some (pre, rest) ->
  globalReplace matchAt before 0 text
  = pre +:+ globalReplace matchAt (before +:+ pre) 0 (opener +:+ rest).
Proof.
  intros Hg. revert before pre.
  induction text as [|c text IH]; intros before pre; rewrite splitAtFirst_unfold.
  - destruct (stripPrefix opener EmptyString) as [after|] eqn:Hp; [|discriminate].
    intros [= <- <-]. apply stripPrefix_Some in Hp.
    rewrite text_app_nil_r, <- Hp. reflexivity.
  - destruct (stripPrefix opener (String c text)) as [after|] eqn:Hp.
    + intros [= <- <-]. apply stripPrefix_Some in Hp.
      rewrite text_app_nil_r, <- Hp. reflexivity.
    + destruct (splitAtFirst opener text) as [[a b]|] eqn:Hs; [|discriminate].
      intros [= <- <-]. simpl. rewrite (Hg _ _ Hp).
      rewrite (IH _ _ eq_refl), text_app_cons, text_app_assoc. reflexivity.
Qed.

Lemma globalReplace_id opener before text :
  guardedBy matchAt opener ->
  occurs opener text = false ->
  globalReplace matchAt before 0 text = text.
Proof.
  intros Hg. revert before.
  induction text as [|c text IH]; intros before Hocc; [reflexivity|].
  apply occurs_cons in Hocc as [Hhd Htl].
  simpl. rewrite (Hg _ _ Hhd), (IH _ Htl). reflexivity.
Qed.

(** An expression whose replacement does not look at the text before. *)
Lemma globalReplace_before before before' skip text :
  (forall b b' s, matchAt b s = matchAt b' s) ->
  globalReplace matchAt before skip text
  = globalReplace matchAt before' skip text.
Proof.
  intros Hb. revert before before' skip.
  induction text as [|c text IH]; intros before before' skip; [reflexivity|].
  simpl. destruct skip as [|k].
  - rewrite (Hb before before').
    destruct (matchAt before' (String c text)) as [[r len]|];
      f_equal; apply IH.
  - apply IH.
Qed.

End GlobalReplace.

(** *** The three expressions *)

Lemma matchToken_guarded key replacement :
  guardedBy (matchToken key replacement) ("{{" +:+ key +:+ "}}").
Proof. intros before s Hp. unfold matchToken. rewrite Hp. reflexivity. Qed.

Lemma matchBlock_guarded opener closer f :
  guardedBy (matchBlock opener closer f) opener.
Proof. intros before s Hp. unfold matchBlock. rewrite Hp. reflexivity. Qed.

Lemma matchBlock_before opener closer f b b' s :
  matchBlock opener closer f b s = matchBlock opener closer f b' s.
Proof. reflexivity. Qed.

Lemma getSubstitution_plain matched before after replacement :
  plain replacement = true ->
  getSubstitution matched before after replacement = replacement.
Proof.
  unfold plain. rewrite negb_true_iff.
  induction replacement as [|c r IH]; intros Hocc; [reflexivity|].
  apply occurs_cons in Hocc as [Hhd Htl].
  cbn [stripPrefix] in Hhd. cbn [getSubstitution].
  rewrite Ascii.eqb_sym. destruct (Ascii.eqb "$" c); [discriminate|].
  rewrite (IH Htl). reflexivity.
Qed.

Lemma matchToken_plain key replacement b b' s :
  plain replacement = true ->
  matchToken key replacement b s = matchToken key replacement b' s.
Proof.
  intros Hp. unfold matchToken.
  destruct (stripPrefix _ s); [|reflexivity].
  rewrite !getSubstitution_plain by exact Hp. reflexivity.
Qed.

Lemma token_split key :
  "{{" +:+ key +:+ "}}" = ("{{" +:+ key +:+ "}") +:+ "}".
Proof. rewrite !text_app_assoc. reflexivity. Qed.

(** The first token of a key is replaced, whatever surrounds it. *)
Lemma replaceToken_first key replacement pre post :
  plain replacement = true ->
  occurs ("{{" +:+ key +:+ "}}") (pre +:+ "{{" +:+ key +:+ "}") = false ->
  replaceToken key replacement (pre +:+ ("{{" +:+ key +:+ "}}") +:+ post)
  = pre +:+ replacement +:+ replaceToken key replacement post.
Proof.
  intros Hplain Hocc. unfold replaceToken.
  rewrite (globalReplace_prefix _ _ _ _ pre post (matchToken_guarded key replacement)).
  2:{ rewrite token_split in *. apply splitAtFirst_first, Hocc. }
  f_equal.
  change ("{{" +:+ key +:+ "}}") with (String "{" (String "{" (key +:+ "}}"))).
  rewrite globalReplace_match with (replacement := replacement).
  - f_equal. apply globalReplace_before. intros. apply matchToken_plain, Hplain.
  - unfold matchToken.
    change (String "{" (String "{" (key +:+ "}}"))) with ("{{" +:+ key +:+ "}}").
    rewrite stripPrefix_app, getSubstitution_plain by exact Hplain. reflexivity.
Qed.

Lemma spanWord_word w d r :
  allWordChars w = true -> isWordChar d = false ->
  spanWord (w +:+ String d r) = (w, String d r).
Proof.
  intros Hw Hd. induction w as [|c w IH].
  - change (EmptyString +:+ String d r) with (String d r).
    simpl. rewrite Hd. reflexivity.
  - simpl in Hw. apply andb_true_iff in Hw as [Hc Hw].
    rewrite text_app_cons. simpl. rewrite Hc, (IH Hw). reflexivity.
Qed.

(** One block: when the first opener of the text is followed by a word,
    [}}], and a body up to the first closer, the block is replaced by what
    the replacer makes of the word and the body. *)
Lemma block_first opener' o closer' c f name body pre post :
  isWord name = true ->
  occurs (opener' +:+ String o EmptyString) (pre +:+ opener') = false ->
  occurs (closer' +:+ String c EmptyString) (body +:+ closer') = false ->
  let opener := opener' +:+ String o EmptyString in
  let closer := closer' +:+ String c EmptyString in
  let m := matchBlock opener closer f in
  globalReplace m EmptyString 0
    (pre +:+ opener +:+ name +:+ "}}" +:+ body +:+ closer +:+ post)
  = pre +:+ f name body +:+ globalReplace m EmptyString 0 post.
Proof.
  intros Hname Hpre Hbody opener closer m.
  apply andb_true_iff in Hname as [Hne Hword].
  rewrite negb_true_iff, bool_decide_eq_false in Hne.
  subst m.
  rewrite (globalReplace_prefix _ opener _ _ pre
             (name +:+ "}}" +:+ body +:+ closer +:+ post)
             (matchBlock_guarded opener closer f)).
  2:{ apply (splitAtFirst_first opener' o), Hpre. }
  f_equal.
  assert (Hm : matchBlock opener closer f (EmptyString +:+ pre)
                 (opener +:+ name +:+ "}}" +:+ body +:+ closer +:+ post)
               = Some (f name body,
                       String.length (opener +:+ name +:+ "}}" +:+ body +:+ closer))).
  { unfold matchBlock. rewrite stripPrefix_app.
    change ("}}" +:+ body +:+ closer +:+ post)
      with (String "}" (String "}" (body +:+ closer +:+ post))).
    rewrite spanWord_word by (exact Hword || reflexivity).
    rewrite decide_False by exact Hne.
    change (String "}" (String "}" (body +:+ closer +:+ post)))
      with ("}}" +:+ body +:+ closer +:+ post).
    rewrite stripPrefix_app.
    pose proof (splitAtFirst_first closer' c body post Hbody) as Hsplit.
    change (closer' +:+ String c EmptyString) with closer in Hsplit.
    rewrite Hsplit, !text_length_app. do 2 f_equal. simpl. lia. }
  assert (Hshape : exists x matched,
             opener +:+ name +:+ "}}" +:+ body +:+ closer = String x matched).
  { subst opener. destruct opener' as [|x opener'']; eexists _, _; reflexivity. }
  destruct Hshape as (x & matched & Hshape).
  replace (opener +:+ name +:+ "}}" +:+ body +:+ closer +:+ post)
    with (String x matched +:+ post) in *
    by (rewrite <- Hshape, !text_app_assoc; reflexivity).
  rewrite Hshape in Hm.
  rewrite (globalReplace_match _ _ _ _ _ _ Hm). f_equal.
  apply globalReplace_before. intros. apply matchBlock_before.
Qed.

(** *** Rendering *)

Lemma substituteVariables_id variables text :
  (forall k v, In (k, v) variables -> occurs ("{{" +:+ k +:+ "}}") text = false) ->
  substituteVariables variables text = text.
Proof.
  unfold substituteVariables.
  induction variables as [|[k v] variables IH]; intros Hfree; [reflexivity|].
  simpl. unfold replaceToken at 2.
  rewrite (globalReplace_id _ _ _ _ (matchToken_guarded k (toString v)))
    by (apply (Hfree k v); left; reflexivity).
  apply IH. intros k' v' Hin. apply (Hfree k' v'). right. exact Hin.
Qed.

Lemma expandLoops_block variables name body pre post :
  isWord name = true ->
  occurs "{{#each " (pre +:+ "{{#each") = false ->
  occurs "{{/each}}" (body +:+ "{{/each}") = false ->
  expandLoops variables
    (pre +:+ "{{#each " +:+ name +:+ "}}" +:+ body +:+ "{{/each}}" +:+ post)
  = pre +:+ eachReplacer variables name body +:+ expandLoops variables post.
Proof.
  intros Hname Hpre Hbody.
  apply (block_first "{{#each" " " "{{/each}" "}" (eachReplacer variables)
           name body pre post Hname Hpre Hbody).
Qed.

Lemma expandConditionals_block variables name content pre post :
  isWord name = true ->
  occurs "{{#if " (pre +:+ "{{#if") = false ->
  occurs "{{/if}}" (content +:+ "{{/if}") = false ->
  expandConditionals variables
    (pre +:+ "{{#if " +:+ name +:+ "}}" +:+ content +:+ "{{/if}}" +:+ post)
  = pre +:+ (if isTruthy (get name variables) then content else EmptyString)
    +:+ expandConditionals variables post.
Proof.
  intros Hname Hpre Hcontent.
  apply (block_first "{{#if" " " "{{/if}" "}" (ifReplacer variables)
           name content pre post Hname Hpre Hcontent).
Qed.

(** C4 does not hold as stated: the first pass runs over the whole
    text, loop bodies included.  With a top-level [title] and an array
    whose elements have a [title] of their own, the token in the loop body
    is replaced by the top-level value before the loop is expanded. *)
Lemma loop_body_token_not_scoped :
  substituteVariables Samples.shadowingVariables Samples.loopTemplate
  = "{{#each xs}}T;{{/each}}" /\
  replaceVariables Samples.loopTemplate Samples.shadowingVariables = "T;T;" /\
  replaceVariables Samples.loopTemplate (tail Samples.shadowingVariables) = "A;B;".
Proof. repeat split; vm_compute; reflexivity. Qed.

Lemma substituteVariables_app front rest text :
  substituteVariables (front ++ rest) text
  = substituteVariables rest (substituteVariables front text).
Proof. unfold substituteVariables. apply foldl_app. Qed.

(** The order of the passes shows: a value that spells a conditional
    block is inserted by the first pass and expanded by the second; a
    property of a loop element that spells one is inserted by the third
    pass, after the conditionals, and stays as it is. *)
Lemma pass_order_observable :
  replaceVariables "{{x}}" [("x", VStr "{{#if y}}A{{/if}}"); ("y", VStr "1")] = "A" /\
  replaceVariables "{{#each xs}}{{p}}{{/each}}"
    [("xs", VArr [[("p", "{{#if y}}A{{/if}}")]]); ("y", VStr "1")]
  = "{{#if y}}A{{/if}}".
Proof. split; vm_compute; reflexivity. Qed.

(** C4, amended.  For a mapping whose keys are words that are not
    numbers, rendering is a function of the template and the mapping,
    made of three passes in this order: substitution of the mapping's
    keys, conditional blocks, loops; the order shows where a value spells
    a block.  Each pass runs over the whole text it is given.  The
    substitution pass takes the keys in the order of
    the mapping and replaces a token of a key wherever it stands, also
    inside a loop body, and leaves a text alone in which no key's token
    occurs; so the names of a loop's element properties are scoped to the
    loop only when they are not keys of the mapping.  A conditional block
    is replaced by its content when its variable is truthy, an inherited
    property included, and by nothing otherwise.  A loop whose variable is
    missing or is not an array expands to the empty text; a loop over an
    array expands to the concatenation of its body rendered for each
    element in order.  A text in which no key's token and no block occurs
    is returned as it is. *)
Theorem rendering_three_passes (variables : list (string * Value)) :
  Forall (fun entry => literalKey entry.1 = true) variables ->
  (forall template,
     replaceVariables template variables
     = expandLoops variables
         (expandConditionals variables (substituteVariables variables template))) /\
  (replaceVariables "{{x}}" [("x", VStr "{{#if y}}A{{/if}}"); ("y", VStr "1")] = "A" /\
   replaceVariables "{{#each xs}}{{p}}{{/each}}"
     [("xs", VArr [[("p", "{{#if y}}A{{/if}}")]]); ("y", VStr "1")]
   = "{{#if y}}A{{/if}}") /\
  (forall front key value rest pre post,
     variables = front ++ (key, VStr value) :: rest ->
     (forall k v, In (k, v) front ->
                  occurs ("{{" +:+ k +:+ "}}")
                         (pre +:+ ("{{" +:+ key +:+ "}}") +:+ post) = false) ->
     plain value = true ->
     occurs ("{{" +:+ key +:+ "}}") (pre +:+ "{{" +:+ key +:+ "}") = false ->
     substituteVariables variables (pre +:+ ("{{" +:+ key +:+ "}}") +:+ post)
     = substituteVariables rest
         (pre +:+ value +:+ replaceToken key value post)) /\
  (forall name content pre post,
     isWord name = true ->
     occurs "{{#if " (pre +:+ "{{#if") = false ->
     occurs "{{/if}}" (content +:+ "{{/if}") = false ->
     expandConditionals variables
       (pre +:+ "{{#if " +:+ name +:+ "}}" +:+ content +:+ "{{/if}}" +:+ post)
     = pre +:+ (if isTruthy (get name variables) then content else EmptyString)
       +:+ expandConditionals variables post) /\
  (forall name body pre post,
     isWord name = true ->
     occurs "{{#each " (pre +:+ "{{#each") = false ->
     occurs "{{/each}}" (body +:+ "{{/each}") = false ->
     (forall items, lookup name variables <> Some (VArr items)) ->
     expandLoops variables
       (pre +:+ "{{#each " +:+ name +:+ "}}" +:+ body +:+ "{{/each}}" +:+ post)
     = pre +:+ expandLoops variables post) /\
  (forall name body pre post items,
     isWord name = true ->
     occurs "{{#each " (pre +:+ "{{#each") = false ->
     occurs "{{/each}}" (body +:+ "{{/each}") = false ->
     lookup name variables = Some (VArr items) ->
     Forall (Forall (fun property => literalKey property.1 = true)) items ->
     expandLoops variables
       (pre +:+ "{{#each " +:+ name +:+ "}}" +:+ body +:+ "{{/each}}" +:+ post)
     = pre +:+ String.concat EmptyString (map (renderItem body) items)
       +:+ expandLoops variables post) /\
  (forall text,
     (forall k v, In (k, v) variables ->
                  occurs ("{{" +:+ k +:+ "}}") text = false) ->
     substituteVariables variables text = text) /\
  (forall text,
     (forall k v, In (k, v) variables ->
                  occurs ("{{" +:+ k +:+ "}}") text = false) ->
     occurs "{{#if " text = false ->
     occurs "{{#each " text = false ->
     replaceVariables text variables = text).
Proof.
  intros _.
  split; [reflexivity|]. split; [exact pass_order_observable|].
  split; [|split; [|split; [|split; [|split]]]].
  - intros front key value rest pre post -> Hfront Hplain Hocc.
    rewrite substituteVariables_app, (substituteVariables_id _ _ Hfront).
    unfold substituteVariables at 1. cbn [foldl fst snd toString].
    rewrite (replaceToken_first key value pre post Hplain Hocc). reflexivity.
  - intros name content pre post Hname Hpre Hcontent.
    apply expandConditionals_block; assumption.
  - intros name body pre post Hname Hpre Hbody Hmissing.
    rewrite expandLoops_block by assumption. do 2 f_equal.
    unfold eachReplacer, get.
    destruct (lookup name variables) as [[s|items]|]; try reflexivity.
    + destruct (Hmissing items eq_refl).
    + destruct (inherited name); reflexivity.
  - intros name body pre post items Hname Hpre Hbody Hitems _.
    rewrite expandLoops_block by assumption.
    unfold eachReplacer, get. rewrite Hitems. reflexivity.
  - intros text Hkeys. apply (substituteVariables_id _ _ Hkeys).
  - intros text Hkeys Hif Heach. unfold replaceVariables. cbv zeta.
    rewrite (substituteVariables_id _ _ Hkeys).
    unfold expandConditionals, expandLoops.
    rewrite (globalReplace_id _ _ _ _ (matchBlock_guarded _ _ _) Hif).
    apply (globalReplace_id _ _ _ _ (matchBlock_guarded _ _ _) Heach).
Qed.

(** With the mapping of the counterexample: the token [{{title}}] in the
    body of the loop is replaced by the first pass; a conditional on the
    array [xs] keeps its content and one on the inherited [constructor]
    does too, while one on a missing variable is dropped; a loop over a
    missing variable vanishes and a loop over [xs] renders its body for
    each element; and a token of no key stays. *)
Lemma rendering_three_passes_witness :
  substituteVariables Samples.shadowingVariables "{{#each xs}}{{title}};{{/each}}"
  = substituteVariables (tail Samples.shadowingVariables)
      ("{{#each xs}}" +:+ "T" +:+ replaceToken "title" "T" ";{{/each}}") /\
  (expandConditionals Samples.shadowingVariables "a{{#if xs}}b{{/if}}c"
   = "a" +:+ "b" +:+ expandConditionals Samples.shadowingVariables "c" /\
   expandConditionals Samples.shadowingVariables "a{{#if constructor}}b{{/if}}c"
   = "a" +:+ "b" +:+ expandConditionals Samples.shadowingVariables "c" /\
   expandConditionals Samples.shadowingVariables "a{{#if ys}}b{{/if}}c"
   = "a" +:+ EmptyString +:+ expandConditionals Samples.shadowingVariables "c") /\
  expandLoops Samples.shadowingVariables
    "Recent:{{#each recentVideos}}- {{title}}{{/each}}."
  = "Recent:" +:+ expandLoops Samples.shadowingVariables "." /\
  expandLoops Samples.shadowingVariables "{{#each xs}}{{title}};{{/each}}"
  = EmptyString +:+ "A;B;" +:+ expandLoops Samples.shadowingVariables EmptyString /\
  replaceVariables "Published: {{publishedAt}}" Samples.shadowingVariables
  = "Published: {{publishedAt}}".
Proof.
  assert (Hkeys : Forall (fun entry => literalKey entry.1 = true)
                         Samples.shadowingVariables)
    by (repeat constructor).
  pose proof (rendering_three_passes Samples.shadowingVariables Hkeys)
    as (_ & _ & Hsub & Hif & Hmissing & Hloop & _ & Hdead).
  split; [|split; [split; [|split]|split; [|split]]].
  - apply (Hsub [] "title" "T" (tail Samples.shadowingVariables)
             "{{#each xs}}" ";{{/each}}").
    + reflexivity.
    + intros k v [].
    + vm_compute. reflexivity.
    + vm_compute. reflexivity.
  - apply (Hif "xs" "b" "a" "c"); vm_compute; reflexivity.
  - apply (Hif "constructor" "b" "a" "c"); vm_compute; reflexivity.
  - apply (Hif "ys" "b" "a" "c"); vm_compute; reflexivity.
  - apply (Hmissing "recentVideos" "- {{title}}" "Recent:" ".");
      try (vm_compute; reflexivity).
    intros items. vm_compute. discriminate.
  - apply (Hloop "xs" "{{title}};" EmptyString EmptyString
             [[("title", "A")]; [("title", "B")]]);
      try (vm_compute; reflexivity).
    repeat constructor.
  - apply (Hdead "Published: {{publishedAt}}"); try (vm_compute; reflexivity).
    intros k v [[= <- <-]|[[= <- <-]|[]]]; vm_compute; reflexivity.
Defined.

(** *** Declared variables *)

Lemma tokenNames_cons n c text :
  In n (tokenNames text) -> In n (tokenNames (String c text)).
Proof.
  intros Hin. cbn [tokenNames].
  destruct (stripPrefix "{{" (String c text)) as [s1|]; [|exact Hin].
  destruct (spanWord s1) as [w s2].
  destruct (stripPrefix "}}" s2); [|exact Hin].
  destruct (decide (w = EmptyString)); [exact Hin|]. right. exact Hin.
Qed.

(** [tokenNames] finds every token of a word. *)
Lemma tokenNames_complete n text :
  isWord n = true -> occurs (tokenOf n) text = true -> In n (tokenNames text).
Proof.
  intros Hname Hocc.
  apply andb_true_iff in Hname as [Hne Hword].
  rewrite negb_true_iff, bool_decide_eq_false in Hne.
  unfold occurs in Hocc.
  destruct (splitAtFirst (tokenOf n) text) as [[a b]|] eqn:Hsplit; [|discriminate].
  apply splitAtFirst_Some in Hsplit. subst text. clear Hocc.
  induction a as [|c a IH].
  - unfold tokenOf. rewrite !text_app_assoc.
    change (EmptyString +:+ "{{" +:+ n +:+ "}}" +:+ b)
      with (String "{" (String "{" (n +:+ "}}" +:+ b))).
    cbn [tokenNames stripPrefix]. rewrite !Ascii.eqb_refl.
    change ("}}" +:+ b) with (String "}" (String "}" b)).
    rewrite spanWord_word by (exact Hword || reflexivity).
    cbn [stripPrefix]. rewrite !Ascii.eqb_refl.
    rewrite decide_False by exact Hne. left. reflexivity.
  - rewrite text_app_cons. apply tokenNames_cons, IH.
Qed.

(** C6 does not hold as stated: the template for [DEEP_DIVE] refers to
    [title] in its loop body and does not declare it. *)
Lemma loop_tokens_not_declared :
  exists t, getPromptTemplate "DEEP_DIVE" = Normal t /\
            occurs (tokenOf "title") (template t) = true /\
            ~ In "title" (variables t).
Proof.
  eexists. split; [reflexivity|]. split; [vm_compute; reflexivity|].
  vm_compute. intros H. repeat destruct H as [H|H]; try discriminate H. exact H.
Qed.

Ltac cover_tokens :=
  let n := fresh "n" in
  let Hname := fresh "Hname" in
  let Hocc := fresh "Hocc" in
  intros n Hname Hocc;
  apply (tokenNames_complete n _ Hname) in Hocc;
  vm_compute in Hocc;
  repeat (destruct Hocc as [Hocc|Hocc]; [subst n; vm_compute; tauto|]);
  destruct Hocc.

(** C6, amended.  For each of the four analysis types,
    [getPromptTemplate] returns a template whose declared variables
    include every name referred to by a token outside the bodies of its
    loops; a token inside a loop body names a property of the loop's
    elements ([title], [views], [likes], [comments], [publishedAt]), and
    those need not be declared. *)
Theorem declared_variables_cover (a : Types.AnalysisType) :
  match getPromptTemplate (Types.analysisTypeName a) with
  | Normal t =>
      (forall n, isWord n = true ->
                 occurs (tokenOf n) (withoutLoopBodies (template t)) = true ->
                 In n (variables t)) /\
      (forall n, isWord n = true ->
                 occurs (tokenOf n) (template t) = true ->
                 In n (variables t) \/ In n videoProperties)
  | Throw _ => False
  end.
Proof.
  destruct a; cbn [Types.analysisTypeName getPromptTemplate];
    rewrite ?decide_True by reflexivity;
    (split; cover_tokens).
Qed.

Lemma declared_variables_cover_witness :
  In "publishedAt" (variables DEEP_DIVE) /\
  (In "views" (variables GROWTH_STRATEGY) \/ In "views" videoProperties).
Proof.
  split.
  - apply (declared_variables_cover Types.DEEP_DIVE); vm_compute; reflexivity.
  - apply (declared_variables_cover Types.GROWTH_STRATEGY); vm_compute; reflexivity.
Defined.

End PromptTemplatesSpec.

(** * Further properties *)

(** ** Cost Tracker: aggregates *)

Module CostTrackerExtra.
Import JS CostTracker Samples.

Lemma foldl_add (f : UsageRecord -> Z) (a : Z) (l : list UsageRecord) :
  foldl (fun sum r => sum + f r) a l = a + sumOf f l.
Proof.
  unfold sumOf. revert a. induction l as [|r l IH]; intros a; simpl; [lia|].
  rewrite (IH (a + f r)), (IH (0 + f r)). lia.
Qed.

Lemma sumOf_cons f r l : sumOf f (r :: l) = f r + sumOf f l.
Proof. unfold sumOf at 1. simpl. rewrite foldl_add. lia. Qed.

Lemma sumOf_app f l k : sumOf f (l ++ k) = sumOf f l + sumOf f k.
Proof.
  induction l as [|r l IH]; [reflexivity|].
  rewrite <- app_comm_cons, !sumOf_cons, IH. lia.
Qed.

Lemma relevantRecords_app cutoffDate l k :
  relevantRecords cutoffDate (l ++ k)
  = relevantRecords cutoffDate l ++ relevantRecords cutoffDate k.
Proof. apply List.filter_app. Qed.

Lemma breakdownTotal_insert_fresh (m : gmap string Slot) k slot :
  m !! k = None ->
  breakdownTotal (<[k := slot]> m)
  = match slot with Cents c => c | Text => 0 end + breakdownTotal m.
Proof.
  intros Hk. unfold breakdownTotal.
  rewrite map_fold_insert_L; [destruct slot; reflexivity| |exact Hk].
  intros j1 j2 [c1|] [c2|] total _ _ _; lia.
Qed.

Lemma breakdownTotal_insert (m : gmap string Slot) k old slot :
  m !! k = Some old ->
  breakdownTotal (<[k := slot]> m)
  = breakdownTotal m
    - match old with Cents c => c | Text => 0 end
    + match slot with Cents c => c | Text => 0 end.
Proof.
  intros Hk.
  rewrite <- (insert_delete_eq m).
  rewrite breakdownTotal_insert_fresh by apply lookup_delete_eq.
  rewrite <- (insert_delete_id m k old Hk) at 2.
  rewrite breakdownTotal_insert_fresh by apply lookup_delete_eq.
  lia.
Qed.

Lemma inherited___proto__ : inherited "__proto__" = true.
Proof. reflexivity. Qed.

Lemma addCost_wellKeyed key cents acc :
  wellKeyed acc -> wellKeyed (addCost key cents acc).
Proof.
  intros Hacc. unfold addCost.
  destruct (acc !! key) as [[sum|]|] eqn:Hkey.
  - destruct (Hacc key _ Hkey) as (Hproto & Htext & Hcents).
    intros k slot. destruct (decide (k = key)) as [->|Hne].
    + rewrite lookup_insert_eq. intros [= <-].
      split; [exact Hproto|]. split; [|eauto].
      intros Hin. specialize (Htext Hin). discriminate.
    + rewrite lookup_insert_ne by congruence. apply Hacc.
  - destruct (Hacc key _ Hkey) as (Hproto & Htext & Hcents).
    intros k slot. destruct (decide (k = key)) as [->|Hne].
    + rewrite lookup_insert_eq. intros [= <-].
      split; [exact Hproto|]. split; [reflexivity|exact Hcents].
    + rewrite lookup_insert_ne by congruence. apply Hacc.
  - destruct (decide (key = "__proto__")) as [->|Hproto]; [exact Hacc|].
    destruct (inherited key) eqn:Hin.
    + intros k slot. destruct (decide (k = key)) as [->|Hne].
      * rewrite lookup_insert_eq. intros [= <-].
        split; [exact Hproto|]. split; [reflexivity|congruence].
      * rewrite lookup_insert_ne by congruence. apply Hacc.
    + intros k slot. destruct (decide (k = key)) as [->|Hne].
      * rewrite lookup_insert_eq. intros [= <-].
        split; [exact Hproto|]. split; [congruence|eauto].
      * rewrite lookup_insert_ne by congruence. apply Hacc.
Qed.

Lemma addCost_total key cents acc :
  wellKeyed acc ->
  breakdownTotal (addCost key cents acc)
  = breakdownTotal acc + (if inherited key then 0 else cents).
Proof.
  intros Hacc. unfold addCost.
  destruct (acc !! key) as [[sum|]|] eqn:Hkey.
  - destruct (Hacc key _ Hkey) as (_ & Htext & _).
    rewrite (breakdownTotal_insert _ _ _ _ Hkey).
    destruct (inherited key); [specialize (Htext eq_refl); discriminate|lia].
  - destruct (Hacc key _ Hkey) as (_ & _ & Hcents).
    rewrite (breakdownTotal_insert _ _ _ _ Hkey).
    destruct (inherited key); [lia|].
    destruct (Hcents eq_refl) as [c Hc]. discriminate.
  - destruct (decide (key = "__proto__")) as [->|Hproto].
    + rewrite inherited___proto__. lia.
    + destruct (inherited key);
        rewrite breakdownTotal_insert_fresh by exact Hkey; lia.
Qed.

Lemma costBy_invariant key l acc :
  wellKeyed acc ->
  wellKeyed (foldl (fun acc r => addCost (key r) (costCents r) acc) acc l)
  /\ breakdownTotal (foldl (fun acc r => addCost (key r) (costCents r) acc) acc l)
     = breakdownTotal acc + sumOf costCents (ownKeyed key l).
Proof.
  revert acc. induction l as [|r l IH]; intros acc Hacc.
  - cbn. split; [exact Hacc|]. unfold sumOf. cbn. lia.
  - cbn [foldl].
    destruct (IH _ (addCost_wellKeyed (key r) (costCents r) acc Hacc))
      as [Hwell Htotal].
    split; [exact Hwell|]. rewrite Htotal, addCost_total by exact Hacc.
    unfold ownKeyed. cbn [List.filter].
    destruct (inherited (key r)); cbn [negb]; rewrite ?sumOf_cons; lia.
Qed.

Lemma wellKeyed_empty : wellKeyed ∅.
Proof. intros k slot Hk. rewrite lookup_empty in Hk. discriminate. Qed.

Lemma breakdownTotal_costBy key l :
  breakdownTotal (costBy key l) = sumOf costCents (ownKeyed key l).
Proof.
  unfold costBy.
  destruct (costBy_invariant key l ∅ wellKeyed_empty) as [_ ->].
  unfold breakdownTotal at 1. rewrite map_fold_empty. lia.
Qed.

Lemma costBy___proto__ key l : costBy key l !! "__proto__" = None.
Proof.
  unfold costBy.
  destruct (costBy_invariant key l ∅ wellKeyed_empty) as [Hwell _].
  destruct (foldl _ ∅ l !! "__proto__") as [slot|] eqn:Hk; [|reflexivity].
  destruct (Hwell _ _ Hk) as [Hne _]. contradiction.
Qed.

Lemma ownKeyed_all key l :
  Forall (fun r => inherited (key r) = false) l -> ownKeyed key l = l.
Proof.
  unfold ownKeyed. induction 1 as [|r l Hr Hl IH]; [reflexivity|].
  cbn [List.filter]. rewrite Hr, IH. reflexivity.
Qed.

Lemma totalRequests_relevant cutoffDate h :
  totalRequests (getUsageStats cutoffDate h)
  = Z.of_nat (length (relevantRecords cutoffDate h)).
Proof.
  unfold getUsageStats. cbv zeta. case_decide as He; [|reflexivity].
  rewrite He. reflexivity.
Qed.

Lemma totalCostCents_relevant cutoffDate h :
  totalCostCents (getUsageStats cutoffDate h)
  = sumOf costCents (relevantRecords cutoffDate h).
Proof.
  unfold getUsageStats. cbv zeta. case_decide as He; [|reflexivity].
  apply length_zero_iff_nil in He. rewrite He. reflexivity.
Qed.

Lemma totalTokensUsed_relevant cutoffDate h :
  totalTokensUsed (getUsageStats cutoffDate h)
  = sumOf tokensUsed (relevantRecords cutoffDate h).
Proof.
  unfold getUsageStats. cbv zeta. case_decide as He; [|reflexivity].
  apply length_zero_iff_nil in He. rewrite He. reflexivity.
Qed.

(** X1.  In every result of [getUsageStats], the numbers of the costs
    by provider add up to the cost of the records in the window whose
    provider is not a name that every object inherits, and likewise for
    the costs by analysis type; when no record in the window has such a
    name, each breakdown adds up to the total cost.  Neither breakdown
    ever has an entry [__proto__].  The successful and failed counts are
    non-negative and add up to the total count, which is the number of
    records in the window. *)
Theorem usage_stats_consistent (cutoffDate : Z) (usageHistory : list UsageRecord) :
  let stats := getUsageStats cutoffDate usageHistory in
  let relevant := relevantRecords cutoffDate usageHistory in
  breakdownTotal (costByProvider stats)
  = sumOf costCents (ownKeyed provider relevant) /\
  breakdownTotal (costByAnalysisType stats)
  = sumOf costCents (ownKeyed analysisType relevant) /\
  (Forall (fun r => inherited (provider r) = false) relevant ->
   breakdownTotal (costByProvider stats) = totalCostCents stats) /\
  (Forall (fun r => inherited (analysisType r) = false) relevant ->
   breakdownTotal (costByAnalysisType stats) = totalCostCents stats) /\
  costByProvider stats !! "__proto__" = None /\
  costByAnalysisType stats !! "__proto__" = None /\
  totalRequests stats = successfulRequests stats + failedRequests stats /\
  0 <= successfulRequests stats /\ 0 <= failedRequests stats /\
  totalRequests stats = Z.of_nat (length relevant).
Proof.
  intros stats relevant.
  assert (Hprovider : breakdownTotal (costByProvider stats)
                      = sumOf costCents (ownKeyed provider relevant)
                      /\ costByProvider stats !! "__proto__" = None).
  { subst stats relevant. unfold getUsageStats. cbv zeta. case_decide as He.
    - apply length_zero_iff_nil in He. rewrite He. split; reflexivity.
    - cbn [costByProvider].
      split; [apply breakdownTotal_costBy|apply costBy___proto__]. }
  assert (Htype : breakdownTotal (costByAnalysisType stats)
                  = sumOf costCents (ownKeyed analysisType relevant)
                  /\ costByAnalysisType stats !! "__proto__" = None).
  { subst stats relevant. unfold getUsageStats. cbv zeta. case_decide as He.
    - apply length_zero_iff_nil in He. rewrite He. split; reflexivity.
    - cbn [costByAnalysisType].
      split; [apply breakdownTotal_costBy|apply costBy___proto__]. }
  destruct Hprovider as [Hprovider Hproto1], Htype as [Htype Hproto2].
  split; [exact Hprovider|]. split; [exact Htype|].
  split; [|split].
  - intros Hown. rewrite Hprovider, (ownKeyed_all _ _ Hown).
    symmetry. apply totalCostCents_relevant.
  - intros Hown. rewrite Htype, (ownKeyed_all _ _ Hown).
    symmetry. apply totalCostCents_relevant.
  - split; [exact Hproto1|]. split; [exact Hproto2|].
    subst stats relevant. unfold getUsageStats. cbv zeta.
    case_decide as He.
    + rewrite He. cbn. repeat split; lia.
    + cbn [totalRequests successfulRequests failedRequests].
      pose proof (List.filter_length_le success
                    (relevantRecords cutoffDate usageHistory)).
      repeat split; lia.
Qed.

(** On [mixedHistory], whose providers are [openai] and [claude], the
    costs by provider add up to the total of 7 cents; a record whose
    analysis type is [__proto__] costs 5 cents and leaves the costs by
    analysis type empty. *)
Lemma usage_stats_consistent_witness :
  breakdownTotal (costByProvider (getUsageStats 10 mixedHistory)) = 7 /\
  totalCostCents (getUsageStats 0 [protoRecord]) = 5 /\
  breakdownTotal (costByAnalysisType (getUsageStats 0 [protoRecord])) = 0.
Proof.
  destruct (usage_stats_consistent 10 mixedHistory) as (_ & _ & Hown & _).
  destruct (usage_stats_consistent 0 [protoRecord]) as (_ & Htype & _).
  split; [|split].
  - rewrite Hown; [vm_compute; reflexivity|].
    vm_compute. repeat constructor.
  - vm_compute. reflexivity.
  - rewrite Htype. vm_compute. reflexivity.
Defined.

Lemma inWindow_wider cutoff1 cutoff2 r :
  cutoff1 <= cutoff2 -> inWindow cutoff2 r = true -> inWindow cutoff1 r = true.
Proof.
  unfold inWindow. intros Hle. destruct (timestamp r); [|discriminate].
  rewrite !bool_decide_eq_true. lia.
Qed.

Lemma relevantRecords_wider cutoff1 cutoff2 h :
  cutoff1 <= cutoff2 ->
  Forall (fun r => 0 <= costCents r) h ->
  (length (relevantRecords cutoff2 h) <= length (relevantRecords cutoff1 h))%nat /\
  sumOf costCents (relevantRecords cutoff2 h)
  <= sumOf costCents (relevantRecords cutoff1 h).
Proof.
  intros Hle Hcost. unfold relevantRecords.
  induction Hcost as [|r h Hr Hh [IHlen IHsum]]; [simpl; split; lia|].
  simpl. destruct (inWindow cutoff2 r) eqn:H2.
  - rewrite (inWindow_wider _ _ _ Hle H2). simpl. rewrite !sumOf_cons.
    split; lia.
  - destruct (inWindow cutoff1 r); simpl; rewrite ?sumOf_cons; split; lia.
Qed.

(** X2.  A window that starts earlier covers at least as much: it holds
    at least as many records and, when no recorded cost is negative, at
    least as much cost.  So [checkBudgetLimits], whose day window starts no
    earlier than its month window, never reports more used today than
    used this month, and a day's use is within any cap the month's use is
    within. *)
Theorem wider_window_covers (monthCutoff todayCutoff dailyLimit monthlyLimit : Z)
    (usageHistory : list UsageRecord) :
  monthCutoff <= todayCutoff ->
  Forall (fun r => 0 <= costCents r) usageHistory ->
  totalRequests (getUsageStats todayCutoff usageHistory)
  <= totalRequests (getUsageStats monthCutoff usageHistory) /\
  totalCostCents (getUsageStats todayCutoff usageHistory)
  <= totalCostCents (getUsageStats monthCutoff usageHistory) /\
  let '(withinDailyLimit, withinMonthlyLimit, dailyUsed, monthlyUsed) :=
    checkBudgetLimits todayCutoff monthCutoff dailyLimit monthlyLimit usageHistory in
  dailyUsed <= monthlyUsed /\
  (withinMonthlyLimit = true -> dailyUsed <= monthlyLimit) /\
  (withinDailyLimit = true <-> dailyUsed <= dailyLimit).
Proof.
  intros Hle Hcost.
  destruct (relevantRecords_wider _ _ usageHistory Hle Hcost) as [Hlen Hsum].
  rewrite !totalRequests_relevant. unfold checkBudgetLimits. cbv zeta.
  rewrite !totalCostCents_relevant, !bool_decide_eq_true.
  repeat split; lia.
Qed.

Lemma wider_window_covers_witness :
  totalCostCents (getUsageStats 2 (pushedRecords (sampleCalls 3)))
  <= totalCostCents (getUsageStats 1 (pushedRecords (sampleCalls 3))).
Proof.
  assert (Hle : 1 <= 2) by lia.
  assert (Hcost : Forall (fun r => 0 <= costCents r) (pushedRecords (sampleCalls 3)))
    by (vm_compute; repeat constructor; discriminate).
  destruct (wider_window_covers 1 2 100 1000 (pushedRecords (sampleCalls 3))
              Hle Hcost) as (_ & Hsum & _).
  exact Hsum.
Defined.

(** X3.  Recording into a history below the cap adds exactly one record
    to every window that contains the moment of recording, with the
    record's cost and tokens, and leaves every window that starts later
    as it was; a timestamp supplied by the caller plays no part. *)
Theorem recorded_usage_is_counted (now cutoffDate : Z) (record : UsageRecord)
    (usageHistory : list UsageRecord) :
  (length usageHistory < maxHistorySize)%nat ->
  (cutoffDate <= now ->
   totalRequests (getUsageStats cutoffDate (recordUsage now record usageHistory))
   = totalRequests (getUsageStats cutoffDate usageHistory) + 1 /\
   totalCostCents (getUsageStats cutoffDate (recordUsage now record usageHistory))
   = totalCostCents (getUsageStats cutoffDate usageHistory) + costCents record /\
   totalTokensUsed (getUsageStats cutoffDate (recordUsage now record usageHistory))
   = totalTokensUsed (getUsageStats cutoffDate usageHistory) + tokensUsed record) /\
  (now < cutoffDate ->
   getUsageStats cutoffDate (recordUsage now record usageHistory)
   = getUsageStats cutoffDate usageHistory).
Proof.
  intros Hlen.
  assert (Hpush : recordUsage now record usageHistory
                  = usageHistory ++ [fullRecord now record]).
  { unfold recordUsage. cbv zeta. rewrite decide_False; [reflexivity|].
    rewrite length_app. simpl. lia. }
  rewrite Hpush. split.
  - intros Hin.
    rewrite !totalRequests_relevant, !totalCostCents_relevant,
      !totalTokensUsed_relevant, relevantRecords_app.
    assert (Hlast : relevantRecords cutoffDate [fullRecord now record]
                    = [fullRecord now record]).
    { unfold relevantRecords. simpl. unfold inWindow. simpl.
      rewrite bool_decide_eq_true_2 by lia. reflexivity. }
    rewrite Hlast, length_app, !sumOf_app. unfold sumOf. simpl.
    repeat split; lia.
  - intros Hout. unfold getUsageStats. rewrite relevantRecords_app.
    assert (Hlast : relevantRecords cutoffDate [fullRecord now record] = []).
    { unfold relevantRecords. simpl. unfold inWindow. simpl.
      rewrite bool_decide_eq_false_2 by lia. reflexivity. }
    rewrite Hlast, app_nil_r. reflexivity.
Qed.

Lemma recorded_usage_is_counted_witness :
  totalRequests (getUsageStats 1 (recordUsage 7 (sampleRecord 9)
                                    (pushedRecords (sampleCalls 3))))
  = totalRequests (getUsageStats 1 (pushedRecords (sampleCalls 3))) + 1 /\
  getUsageStats 8 (recordUsage 7 (sampleRecord 9) (pushedRecords (sampleCalls 3)))
  = getUsageStats 8 (pushedRecords (sampleCalls 3)).
Proof.
  pose proof (recorded_usage_is_counted 7 1 (sampleRecord 9)
                (pushedRecords (sampleCalls 3))) as [Hin _].
  { vm_compute. lia. }
  pose proof (recorded_usage_is_counted 7 8 (sampleRecord 9)
                (pushedRecords (sampleCalls 3))) as [_ Hout].
  { vm_compute. lia. }
  split; [apply Hin; lia|apply Hout; lia].
Defined.


Lemma last_recordUsage now record usageHistory :
  last (recordUsage now record usageHistory) = Some (fullRecord now record).
Proof.
  unfold recordUsage, slice_last. cbv zeta.
  case_decide; [|apply last_snoc].
  rewrite last_lookup, length_drop, lookup_drop, length_app. simpl.
  replace (_ + _)%nat with (length usageHistory + 0)%nat
    by (unfold maxHistorySize in *; lia).
  rewrite lookup_app_r by lia.
  replace (_ - _)%nat with 0%nat by lia. reflexivity.
Qed.

Lemma sliceFrom_negative {A} (n : Z) (l : list A) :
  0 < n -> sliceFrom (- n) l = drop (length l - Z.to_nat n)%nat l.
Proof.
  intros Hn. unfold sliceFrom, slice, relativeIndex. cbv zeta.
  rewrite (decide_True (P := - n < 0)) by lia.
  rewrite (decide_False (P := Z.of_nat (length l) < 0)) by lia.
  rewrite take_ge by (rewrite length_drop; lia).
  f_equal. lia.
Qed.

Lemma sliceFrom_nonnegative {A} (n : Z) (l : list A) :
  0 <= n -> sliceFrom n l = drop (Z.to_nat n) l.
Proof.
  intros Hn. unfold sliceFrom, slice, relativeIndex. cbv zeta.
  rewrite !decide_False by lia.
  rewrite take_ge by (rewrite length_drop; lia).
  destruct (decide (n <= Z.of_nat (length l))).
  - f_equal. lia.
  - rewrite !drop_ge by lia. reflexivity.
Qed.

(** X4.  [getRecentUsage(limit)] with a positive limit returns the
    [limit] most recent records, newest first, so right after
    [recordUsage] its first element is the record just stored.  A limit
    of zero returns the whole history, newest first, and a negative limit
    [-k] returns all but the [k] oldest records. *)
Theorem recent_usage_newest_first (limit : Z) (usageHistory : list UsageRecord) :
  (0 < limit ->
   getRecentUsage limit usageHistory
   = take (Z.to_nat limit) (reverse usageHistory) /\
   forall now record,
     head (getRecentUsage limit (recordUsage now record usageHistory))
     = Some (fullRecord now record)) /\
  getRecentUsage 0 usageHistory = reverse usageHistory /\
  (limit < 0 ->
   getRecentUsage limit usageHistory
   = reverse (drop (Z.to_nat (- limit)) usageHistory)).
Proof.
  assert (Hpos : forall h : list UsageRecord, 0 < limit ->
            getRecentUsage limit h = take (Z.to_nat limit) (reverse h)).
  { intros h Hlimit. unfold getRecentUsage.
    rewrite sliceFrom_negative by exact Hlimit.
    rewrite reverse_drop.
    destruct (decide (length h <= Z.to_nat limit)%nat).
    - rewrite !take_ge by (rewrite length_reverse; lia). reflexivity.
    - f_equal. lia. }
  split; [|split].
  - intros Hlimit. split; [apply Hpos, Hlimit|].
    intros now record. rewrite Hpos by exact Hlimit.
    destruct (Z.to_nat limit) as [|n] eqn:Hn; [lia|].
    pose proof (last_recordUsage now record usageHistory) as Hlast.
    rewrite <- head_reverse in Hlast.
    destruct (reverse (recordUsage now record usageHistory)); [discriminate|].
    exact Hlast.
  - unfold getRecentUsage. rewrite (sliceFrom_nonnegative (- 0)) by lia.
    reflexivity.
  - intros Hlimit. unfold getRecentUsage.
    rewrite sliceFrom_nonnegative by lia. reflexivity.
Qed.

Lemma recent_usage_newest_first_witness :
  getRecentUsage 2 mixedHistory = take 2 (reverse mixedHistory) /\
  getRecentUsage (-1) mixedHistory = reverse (drop 1 mixedHistory).
Proof.
  split.
  - apply (recent_usage_newest_first 2 mixedHistory). lia.
  - apply (recent_usage_newest_first (-1) mixedHistory). lia.
Defined.


Lemma tally_names record providerStats :
  (tally record providerStats).*1
  = if decide (provider record ∈ providerStats.*1) then providerStats.*1
    else providerStats.*1 ++ [provider record].
Proof.
  induction providerStats as [|[name stats] rest IH]; [reflexivity|].
  cbn [tally]. destruct (decide (name = provider record)) as [->|Hne].
  - cbn. rewrite decide_True by apply list_elem_of_here. reflexivity.
  - cbn [fmap list_fmap fst]. change (list_fmap _ _ fst ?l) with (l.*1).
    rewrite IH. destruct (decide (provider record ∈ rest.*1)) as [Hin|Hout].
    + rewrite decide_True by (apply list_elem_of_further, Hin). reflexivity.
    + rewrite decide_False; [reflexivity|].
      intros Hin. apply elem_of_cons in Hin as [?|?]; congruence.
Qed.

Lemma tally_requests record providerStats :
  total ((fun entry => providerRequests entry.2) <$> tally record providerStats)
  = total ((fun entry => providerRequests entry.2) <$> providerStats) + 1.
Proof.
  induction providerStats as [|[name stats] rest IH]; [reflexivity|].
  cbn [tally]. destruct (decide (name = provider record)).
  - cbn. unfold total. lia.
  - cbn [fmap list_fmap total foldr] in *. unfold total in *. cbn. lia.
Qed.

Lemma tally_counted record providerStats :
  Forall counted providerStats -> Forall counted (tally record providerStats).
Proof.
  induction 1 as [|[name stats] rest [Hone Hrange] Hrest IH].
  - repeat constructor; cbn; destruct (success record); lia.
  - cbn [tally]. destruct (decide (name = provider record)).
    + constructor; [|exact Hrest].
      unfold counted. cbn in *. split; destruct (success record); lia.
    + constructor; [split; assumption|exact IH].
Qed.

Lemma providerStats_invariant (usageHistory : list UsageRecord) :
  let providerStats := foldl countRecord [] usageHistory in
  NoDup providerStats.*1
  /\ (forall name, name ∈ providerStats.*1
                   <-> inherited name = false /\ name ∈ provider <$> usageHistory)
  /\ total ((fun entry => providerRequests entry.2) <$> providerStats)
     = Z.of_nat (length (ownKeyed provider usageHistory))
  /\ Forall counted providerStats.
Proof.
  cbv zeta. induction usageHistory as [|record l IH] using rev_ind.
  - cbn. split; [constructor|]. split; [|split; [reflexivity|constructor]].
    intros name. rewrite elem_of_nil. tauto.
  - rewrite foldl_app. cbn [foldl].
    destruct IH as (Hnodup & Hnames & Htotal & Hcounted).
    unfold ownKeyed. rewrite List.filter_app, length_app, fmap_app.
    cbn [List.filter fmap list_fmap].
    set (acc := foldl countRecord [] l) in *. unfold countRecord.
    destruct (inherited (provider record)) eqn:Hinherited; cbn [negb length].
    + split; [exact Hnodup|]. split; [|split; [|exact Hcounted]].
      * intros name. rewrite Hnames, elem_of_app, list_elem_of_singleton.
        split; [tauto|]. intros [Hown [Hin| ->]]; [tauto|congruence].
      * fold (ownKeyed provider l). lia.
    + rewrite tally_names, tally_requests, Htotal.
      split; [|split; [|split]].
      * case_decide as Hin; [exact Hnodup|].
        apply NoDup_app. split; [exact Hnodup|].
        split; [|apply NoDup_singleton].
        intros name Hname Heq. apply list_elem_of_singleton in Heq as ->.
        exact (Hin Hname).
      * intros name. rewrite elem_of_app, list_elem_of_singleton.
        case_decide as Hin.
        -- rewrite Hnames. split; [tauto|].
           intros [Hown [Hl| ->]]; [tauto|]. apply Hnames, Hin.
        -- rewrite elem_of_app, list_elem_of_singleton, Hnames.
           split; [intros [?| ->]; tauto|tauto].
      * fold (ownKeyed provider l). lia.
      * apply tally_counted, Hcounted.
Qed.

(** X5.  [getProviderComparison()] lists exactly once every provider of
    the history whose name is not one that every object inherits, and no
    other; the [totalRequests] of its entries add up to the number of
    records with such a provider; and every entry counts at least one
    request, so that none of the averages divides by zero.  The success
    rate is rounded after two roundings in floating point: 23 successes
    out of 40 requests give 57, not 58. *)
Theorem provider_comparison_partitions (usageHistory : list UsageRecord) :
  let comparison := getProviderComparison usageHistory in
  NoDup (comparedProvider <$> comparison)
  /\ (forall name,
        name ∈ comparedProvider <$> comparison
        <-> inherited name = false
            /\ exists record, record ∈ usageHistory /\ provider record = name)
  /\ total (comparedRequests <$> comparison)
     = Z.of_nat (length (ownKeyed provider usageHistory))
  /\ Forall (fun entry => 1 <= comparedRequests entry) comparison
  /\ successRate
       <$> getProviderComparison
             (replicate 23 (sampleRecord 0) ++ replicate 17 failedRecord)
     = [Fin 57].
Proof.
  cbv zeta. unfold getProviderComparison at 1 2 3 4. cbv zeta.
  destruct (providerStats_invariant usageHistory)
    as (Hnodup & Hnames & Htotal & Hcounted).
  rewrite <- !list_fmap_compose.
  split; [exact Hnodup|]. split; [|split; [exact Htotal|split]].
  - intros name. etransitivity; [apply Hnames|].
    rewrite list_elem_of_fmap. split.
    + intros [Hown (record & -> & Hin)]. split; [exact Hown|].
      exists record. split; [exact Hin|reflexivity].
    + intros [Hown (record & Hin & <-)]. split; [exact Hown|].
      exists record. split; [reflexivity|exact Hin].
  - apply Forall_fmap. eapply Forall_impl; [exact Hcounted|].
    intros [name stats] [Hone Hrange]. exact Hone.
  - vm_compute. reflexivity.
Qed.

Lemma sumOf_between (f : UsageRecord -> Z) (lo hi : Z) (l : list UsageRecord) :
  Forall (fun r => lo <= f r <= hi) l ->
  lo * Z.of_nat (length l) <= sumOf f l <= hi * Z.of_nat (length l).
Proof.
  induction 1 as [|r l Hr Hl IH]; [cbn; lia|].
  rewrite sumOf_cons. cbn [length]. lia.
Qed.

Lemma Math_round_between (lo hi : Z) (q : Q) :
  (inject_Z lo <= q)%Q -> (q <= inject_Z hi)%Q -> lo <= Math_round q <= hi.
Proof.
  intros Hlo Hhi. unfold Math_round.
  assert (Hwhole : forall z, Qfloor (inject_Z z + (1 # 2)) = z).
  { intros z. unfold Qfloor, Qplus, inject_Z.
    cbn [Qnum Qden Pos.mul Z.mul]. symmetry.
    apply (Z.div_unique (z * 2 + 1 * 1) 2 z 1); lia. }
  split.
  - rewrite <- (Hwhole lo) at 1. apply Qfloor_resp_le.
    apply Qplus_le_compat; [exact Hlo|apply Qle_refl].
  - rewrite <- (Hwhole hi) at 1. apply Qfloor_resp_le.
    apply Qplus_le_compat; [exact Hhi|apply Qle_refl].
Qed.

(** X28.  The [averageProcessingTime] of [getUsageStats] lies between
    the smallest and the largest processing time of the records in the
    window: whenever all of them lie between two integers and the window
    is not empty, so does the rounded average. *)
Theorem average_within_extremes (cutoffDate lo hi : Z)
    (usageHistory : list UsageRecord) :
  relevantRecords cutoffDate usageHistory <> [] ->
  Forall (fun r => lo <= processingTime r <= hi)
         (relevantRecords cutoffDate usageHistory) ->
  lo <= averageProcessingTime (getUsageStats cutoffDate usageHistory) <= hi.
Proof.
  intros Hsome Hall. unfold getUsageStats. cbv zeta.
  destruct (relevantRecords cutoffDate usageHistory) as [|r l] eqn:Hrelevant;
    [congruence|].
  rewrite decide_False by discriminate. cbn [averageProcessingTime].
  pose proof (sumOf_between processingTime lo hi (r :: l) Hall) as [Hlow Hhigh].
  set (n := Z.of_nat (length (r :: l))) in *.
  assert (Hn : 0 < n) by (subst n; cbn [length]; lia).
  assert (Hpos : (0 < inject_Z n)%Q)
    by (change 0%Q with (inject_Z 0); rewrite <- Zlt_Qlt; exact Hn).
  apply Math_round_between.
  - apply Qle_shift_div_l; [exact Hpos|].
    rewrite <- inject_Z_mult, <- Zle_Qle. exact Hlow.
  - apply Qle_shift_div_r; [exact Hpos|].
    rewrite <- inject_Z_mult, <- Zle_Qle. exact Hhigh.
Qed.

Lemma average_within_extremes_witness :
  0 <= averageProcessingTime (getUsageStats 10 mixedHistory) <= 1500.
Proof.
  assert (Hrelevant : relevantRecords 10 mixedHistory = mixedHistory)
    by (vm_compute; reflexivity).
  apply (average_within_extremes 10 0 1500 mixedHistory).
  - rewrite Hrelevant. discriminate.
  - rewrite Hrelevant. repeat constructor; cbn; lia.
Defined.

End CostTrackerExtra.

(** ** Rate limiter: the sweep, shared counters, subscription tiers *)

Module RateLimiterExtra.
Import ErrorHandler Auth RateLimiter Samples.

Lemma cleanup_lookup now (store : gmap string Entry) key :
  cleanup now store !! key
  = match store !! key with
    | Some e => if decide (resetTime e <= now) then None else Some e
    | None => None
    end.
Proof.
  unfold cleanup. rewrite map_lookup_filter.
  destruct (store !! key) as [e|]; [|reflexivity]. cbn.
  destruct (decide (resetTime e <= now)).
  - rewrite option_guard_False by (cbn; tauto). reflexivity.
  - rewrite option_guard_True by (cbn; tauto). reflexivity.
Qed.

(** X6.  [cleanup] deletes exactly the entries whose window is over and
    keeps the others as they are.  As long as the clock does not run
    backwards, a sweep cannot be observed through [increment]: the hit
    returned for any key is the same with and without the sweep, and the
    two stores hold the same live entries afterwards. *)
Theorem cleanup_unobservable (now now' : Z) (key : string) (windowMs : Z)
    (store : gmap string Entry) :
  now <= now' ->
  (forall k e,
     cleanup now store !! k = Some e <-> store !! k = Some e /\ now < resetTime e)
  /\ (increment now' key windowMs (cleanup now store)).2
     = (increment now' key windowMs store).2
  /\ cleanup now' (increment now' key windowMs (cleanup now store)).1
     = cleanup now' (increment now' key windowMs store).1.
Proof.
  intros Hclock.
  assert (Hentry :
    match cleanup now store !! key with
    | Some e => if decide (resetTime e <= now')
                then mkEntry 1 (now' + windowMs)
                else mkEntry (count e + 1) (resetTime e)
    | None => mkEntry 1 (now' + windowMs)
    end
    = match store !! key with
      | Some e => if decide (resetTime e <= now')
                  then mkEntry 1 (now' + windowMs)
                  else mkEntry (count e + 1) (resetTime e)
      | None => mkEntry 1 (now' + windowMs)
      end).
  { rewrite cleanup_lookup. destruct (store !! key) as [e|]; [|reflexivity].
    destruct (decide (resetTime e <= now)); [|reflexivity].
    rewrite decide_True by lia. reflexivity. }
  split; [|split].
  - intros k e. rewrite cleanup_lookup.
    destruct (store !! k) as [e'|]; [|split; [discriminate|intros [? _]; discriminate]].
    destruct (decide (resetTime e' <= now)).
    + split; [discriminate|]. intros [[= ->] ?]. lia.
    + split; [intros [= ->]; split; [reflexivity|lia]|intros [? _]; assumption].
  - unfold increment. cbn. rewrite Hentry. reflexivity.
  - unfold increment. cbn. rewrite Hentry. apply map_eq. intros k.
    rewrite !cleanup_lookup.
    destruct (decide (k = key)) as [->|Hne].
    + rewrite !lookup_insert_eq. reflexivity.
    + rewrite !lookup_insert_ne by congruence. rewrite cleanup_lookup.
      destruct (store !! k) as [e|]; [|reflexivity].
      destruct (decide (resetTime e <= now)); [|reflexivity].
      rewrite decide_True by lia. reflexivity.
Qed.

Lemma cleanup_unobservable_witness :
  let store := (serve sampleConfig sampleRequest [(0, 0); (10, 10)] ∅).1 in
  (increment 1500 (requestKey sampleRequest) 1000 (cleanup 1200 store)).2
  = (increment 1500 (requestKey sampleRequest) 1000 store).2.
Proof.
  intros store.
  assert (Hclock : 1200 <= 1500) by lia.
  destruct (cleanup_unobservable 1200 1500 (requestKey sampleRequest) 1000 store
              Hclock) as (_ & Hhit & _).
  exact Hhit.
Defined.

(** X7.  All limiters count in the one global store, under a key made of
    the route and the caller only.  A request under another key leaves
    the outcome of a request unchanged; a request under the same key
    made before the window set by an earlier limiter is over continues
    that limiter's count and keeps its reset time, whatever window and
    limit the second limiter was created with. *)
Theorem limiters_share_counters (first second : Limiter) (req req' : Request)
    (now1 now1' now2 now2' : Z) (store : gmap string Entry) :
  let earlier := createRateLimiter first req now1 now1' store in
  let later := createRateLimiter second req' now2 now2' earlier.1.1 in
  (requestKey req <> requestKey req' ->
   later.1.2 = (createRateLimiter second req' now2 now2' store).1.2)
  /\ (requestKey req = requestKey req' ->
      now1 <= now2 < now1 + timeToReset (hit earlier.1.2) ->
      totalHits (hit later.1.2) = totalHits (hit earlier.1.2) + 1
      /\ now2 + timeToReset (hit later.1.2)
         = now1 + timeToReset (hit earlier.1.2)).
Proof.
  cbv zeta. unfold createRateLimiter, rateLimiter, increment. cbn. split.
  - intros Hne. rewrite lookup_insert_ne by exact Hne. reflexivity.
  - intros <- Hnow. rewrite lookup_insert_eq.
    set (entry := match store !! requestKey req with
                  | Some e => _
                  | None => _
                  end) in *.
    destruct (decide (resetTime entry <= now2)) as [Hover|Hlive]; cbn; lia.
Qed.

Lemma limiters_share_counters_witness :
  let earlier := createRateLimiter analysisRateLimiter sampleRequest 0 0 ∅ in
  let later := createRateLimiter searchChannels sampleRequest 70000 70000 earlier.1.1 in
  totalHits (hit later.1.2) = 2
  /\ 70000 + timeToReset (hit later.1.2) = 3600000.
Proof.
  pose proof (limiters_share_counters analysisRateLimiter searchChannels
                sampleRequest sampleRequest 0 0 70000 70000 ∅) as [_ Hsame].
  apply Hsame; [reflexivity|vm_compute; split; [discriminate|reflexivity]].
Defined.



Lemma stringOr_nonempty (a : option string) (b : string) :
  b <> EmptyString -> stringOr a b <> EmptyString.
Proof.
  intros Hb. unfold stringOr. destruct a as [s|]; [|exact Hb].
  destruct (decide (s = EmptyString)); assumption.
Qed.

Lemma orElse_nonempty (a : option string) (b : string) :
  b <> EmptyString -> orElse a b <> EmptyString.
Proof.
  intros Hb. unfold orElse. destruct a as [s|]; [|exact Hb].
  destruct (decide (s = EmptyString)); assumption.
Qed.

(** How [errorHandler] answers a [RateLimitError] with a message. *)
Lemma rateLimitError_answer development t (text : string) :
  text <> EmptyString ->
  let response := errorHandler development t (RateLimitError (Some text)) in
  status response = 429
  /\ errorCode response = "RATE_LIMIT_EXCEEDED"
  /\ success response = false
  /\ errorMessage response = text.
Proof.
  intros Htext. cbv zeta.
  unfold errorHandler, RateLimitError, stringOr, orDefault. cbn.
  rewrite !(decide_False (P := "RateLimitError" = _)) by discriminate.
  rewrite decide_True by reflexivity. cbn.
  rewrite decide_False by exact Htext.
  repeat split.
Qed.

(** What a limiter throws. *)
Lemma createRateLimiter_thrown limiter req now now' store :
  (createRateLimiter limiter req now now' store).2
  = if bool_decide (max (config limiter)
                    < totalHits (increment now (requestKey req)
                                   (windowMs (config limiter)) store).2)
    then Some (RateLimitError
                 (Some (orElse (message limiter)
                          "Too many requests, please try again later")))
    else None.
Proof.
  unfold createRateLimiter, rateLimiter.
  destruct (increment now _ _ store) as [store' result]. reflexivity.
Qed.

(** X9.  A limiter stops a request exactly when the hit count exceeds its
    limit, and what it throws then is answered by [errorHandler] with
    status 429 and code RATE_LIMIT_EXCEEDED, carrying the limiter's
    message, or the standard one when the limiter has none or an empty
    one. *)
Theorem over_limit_answered_429 (limiter : Limiter) (req : Request)
    (now now' : Z) (store : gmap string Entry) (development : bool) (t : Z) :
  let result := createRateLimiter limiter req now now' store in
  (result.2 = None <-> totalHits (hit result.1.2) <= max (config limiter))
  /\ forall error, result.2 = Some error ->
       let response := errorHandler development t error in
       status response = 429
       /\ errorCode response = "RATE_LIMIT_EXCEEDED"
       /\ success response = false
       /\ errorMessage response
          = orElse (message limiter) "Too many requests, please try again later"
       /\ errorMessage response <> EmptyString.
Proof.
  cbv zeta. rewrite createRateLimiter_thrown.
  assert (Hmessage :
    orElse (message limiter) "Too many requests, please try again later"
    <> EmptyString) by (apply orElse_nonempty; discriminate).
  assert (Hhit : hit (createRateLimiter limiter req now now' store).1.2
                 = (increment now (requestKey req) (windowMs (config limiter)) store).2).
  { unfold createRateLimiter, rateLimiter.
    destruct (increment now _ _ store) as [store' result]. reflexivity. }
  rewrite Hhit. case_bool_decide as Hover; split.
  - split; [discriminate|lia].
  - intros error [= <-].
    destruct (rateLimitError_answer development t _ Hmessage)
      as (Hstatus & Hcode & Hsuccess & Htext).
    rewrite Htext. repeat split; assumption.
  - split; [lia|reflexivity].
  - discriminate.
Qed.

Lemma over_limit_answered_429_witness :
  let result := createRateLimiter authRateLimiter sampleRequest 6 6
                  (serve (config authRateLimiter) sampleRequest
                     [(1, 1); (2, 2); (3, 3); (4, 4); (5, 5)] ∅).1 in
  (status ∘ errorHandler false 7) <$> result.2 = Some 429.
Proof.
  intros result.
  destruct (over_limit_answered_429 authRateLimiter sampleRequest 6 6
              (serve (config authRateLimiter) sampleRequest
                 [(1, 1); (2, 2); (3, 3); (4, 4); (5, 5)] ∅).1 false 7)
    as [_ Hanswer].
  destruct (Hanswer (RateLimitError
                       (Some "Too many authentication attempts, please try again later"))
              eq_refl) as [Hstatus _].
  change ((status ∘ errorHandler false 7) <$> result.2)
    with (Some (status (errorHandler false 7
                  (RateLimitError
                     (Some "Too many authentication attempts, please try again later"))))).
  exact (f_equal Some Hstatus).
Defined.

(** X10.  Whatever error reaches it, [errorHandler] answers with
    [success: false], a status other than 0, and a code and a message
    that are not empty; outside development it sends no details.  The
    five error classes are answered with 400, 401, 403, 404 and 429. *)
Theorem error_handler_answers (development : bool) (now : Z) (error : APIError) :
  let response := errorHandler development now error in
  success response = false
  /\ status response <> 0
  /\ errorCode response <> EmptyString
  /\ errorMessage response <> EmptyString
  /\ (development = false -> errorDetails response = None)
  /\ forall text details message,
       status (errorHandler development now (ValidationError text details)) = 400
       /\ status (errorHandler development now (UnauthorizedError message)) = 401
       /\ status (errorHandler development now (ForbiddenError message)) = 403
       /\ status (errorHandler development now (NotFoundError message)) = 404
       /\ status (errorHandler development now (RateLimitError message)) = 429.
Proof.
  cbv zeta. unfold errorHandler.
  assert (Hmessage :
    stringOr (Some (ErrorHandler.message error)) "An unexpected error occurred"
    <> EmptyString) by (apply stringOr_nonempty; discriminate).
  assert (Hcode : stringOr (code error) "INTERNAL_ERROR" <> EmptyString)
    by (apply stringOr_nonempty; discriminate).
  assert (Hstatus : numberOr (statusCode error) 500 <> 0).
  { unfold numberOr. destruct (statusCode error) as [n|]; [|discriminate].
    destruct (decide (n = 0)); [discriminate|assumption]. }
  repeat case_decide; cbn;
    (split; [reflexivity|]); (split; [first [discriminate|exact Hstatus]|]);
    (split; [first [discriminate|exact Hcode]|]); (split; [exact Hmessage|]);
    (split; [intros ->; reflexivity|]); intros; repeat split.
Qed.

Lemma error_handler_answers_witness :
  errorDetails (errorHandler false 0 (ValidationError "Invalid analysis type"
                                        (Some (JS.JStr "analysisType"))))
  = None.
Proof.
  destruct (error_handler_answers false 0
              (ValidationError "Invalid analysis type" (Some (JS.JStr "analysisType"))))
    as (_ & _ & _ & _ & Hdetails & _).
  apply Hdetails. reflexivity.
Defined.

End RateLimiterExtra.

(** ** Authentication middleware and the analysis route *)

Module AnalysisRoutesExtra.
Import ErrorHandler Auth RateLimiter AnalysisRoutes Samples.

(** X11.  Permissions and subscription checks follow the levels FREE <
    CREATOR < PRO, every other status counting as FREE: a check passed
    by a user is passed by every user of the same or a higher level.
    Every authenticated user may create analyses and passes
    [requireSubscription('FREE')]; [requireSubscription(minLevel)] passes
    exactly from the level of [minLevel] on; and EXPORT_DATA is granted
    exactly to the users who pass [requireSubscription('CREATOR')],
    UNLIMITED_ANALYSES to those who pass [requireSubscription('PRO')]. *)
Theorem checks_follow_levels (row row' : User) (permission : UserPermission)
    (minLevel : MinLevel) :
  let u := Some (authUser row) in
  let u' := Some (authUser row') in
  (userLevel (user_subscriptionStatus row) <= userLevel (user_subscriptionStatus row') ->
   (requirePermission permission u = None -> requirePermission permission u' = None)
   /\ (requireSubscription minLevel u = None ->
       requireSubscription minLevel u' = None))
  /\ requirePermission CREATE_ANALYSIS u = None
  /\ requireSubscription MinFREE u = None
  /\ (requireSubscription minLevel u = None
      <-> requiredLevel minLevel <= userLevel (user_subscriptionStatus row))
  /\ (requirePermission EXPORT_DATA u = None
      <-> requireSubscription MinCREATOR u = None)
  /\ (requirePermission UNLIMITED_ANALYSES u = None
      <-> requireSubscription MinPRO u = None).
Proof.
  cbv zeta. unfold requirePermission, requireSubscription, authUser. cbn.
  split; [|split; [|split; [|split; [|split]]]].
  - intros Hlevel. split.
    + destruct (user_subscriptionStatus row), (user_subscriptionStatus row'),
        permission; cbn in Hlevel; try lia; vm_compute; congruence.
    + repeat case_decide; try discriminate; try reflexivity. lia.
  - destruct (user_subscriptionStatus row); reflexivity.
  - destruct (user_subscriptionStatus row); reflexivity.
  - case_decide; split; try discriminate; try reflexivity; lia.
  - destruct (user_subscriptionStatus row); vm_compute; split; congruence.
  - destruct (user_subscriptionStatus row); vm_compute; split; congruence.
Qed.

Lemma checks_follow_levels_witness :
  requirePermission EXPORT_DATA (Some (authUser (sampleUser PRO 50 0))) = None.
Proof.
  assert (Hlevel : userLevel CREATOR <= userLevel PRO) by (vm_compute; discriminate).
  destruct (checks_follow_levels (sampleUser CREATOR 50 0) (sampleUser PRO 50 0)
              EXPORT_DATA MinCREATOR) as (Hgrow & _).
  destruct (Hgrow Hlevel) as [Hpermission _]. apply Hpermission. reflexivity.
Defined.

Lemma includes_valid (value : JS.JsValue) :
  includes validAnalysisTypes value = true
  <-> exists a, value = JS.JStr a /\ a ∈ validAnalysisTypes.
Proof.
  unfold includes, validAnalysisTypes. split.
  - destruct value as [| | | |s| |]; cbn; try discriminate.
    intros Hs. exists s. split; [reflexivity|].
    rewrite !orb_true_iff, !bool_decide_eq_true in Hs.
    rewrite !elem_of_cons. intuition discriminate.
  - intros (a & -> & Hin). cbn.
    rewrite !elem_of_cons, elem_of_nil in Hin.
    rewrite !orb_true_iff, !bool_decide_eq_true. intuition.
Qed.

(** X12.  The head of the POST /api/analysis handler lets a body through
    exactly when its channel id is truthy, its analysis type is one of
    the four valid strings, and it is not a DEEP_DIVE asked for by a FREE
    user; whatever it throws is answered with status 400 and code
    VALIDATION_ERROR.  The channel id is not required to be a string: the
    number 123 passes. *)
Theorem validation_accepts (user : AuthUser) (body : CreateAnalysisRequest)
    (development : bool) (t : Z) :
  (validateInput user body = None
   <-> JS.truthy (channelId body) = true
       /\ (exists a, analysisType body = JS.JStr a /\ a ∈ validAnalysisTypes
                     /\ ~ (a = "DEEP_DIVE" /\ subscriptionStatus user = FREE)))
  /\ (forall error, validateInput user body = Some error ->
        status (errorHandler development t error) = 400
        /\ errorCode (errorHandler development t error) = "VALIDATION_ERROR")
  /\ validateInput user
       {| channelId := JS.JNum (JS.Fin 123); analysisType := JS.JStr "QUICK_SCAN" |}
     = None.
Proof.
  unfold validateInput, missing. split; [|split].
  - destruct (JS.truthy (channelId body)) eqn:Hc; cbn [negb orb].
    2:{ split; [discriminate|]. intros [Hchannel _]. discriminate. }
    destruct (includes validAnalysisTypes (analysisType body)) eqn:Hin.
    + apply includes_valid in Hin as (a & Htype & Hin). rewrite Htype.
      assert (Htruthy : JS.truthy (JS.JStr a) = true).
      { unfold validAnalysisTypes in Hin.
        rewrite !elem_of_cons, elem_of_nil in Hin.
        destruct Hin as [->|[->|[->|[->|[]]]]]; reflexivity. }
      rewrite Htruthy. cbn [negb strictEquals].
      case_bool_decide as Hdeep; cbn [andb]; [case_bool_decide as Hfree|].
      * split; [discriminate|]. intros [_ (a' & [= <-] & _ & Hnot)].
        exfalso. apply Hnot. split; assumption.
      * split; [|reflexivity]. intros _. split; [reflexivity|].
        exists a. split; [reflexivity|]. split; [exact Hin|]. tauto.
      * split; [|reflexivity]. intros _. split; [reflexivity|].
        exists a. split; [reflexivity|]. split; [exact Hin|]. tauto.
    + assert (Hnot : ~ exists a, analysisType body = JS.JStr a
                                 /\ a ∈ validAnalysisTypes).
      { intros Hvalid. apply includes_valid in Hvalid. congruence. }
      destruct (negb (JS.truthy (analysisType body))); cbn [negb];
        (split; [discriminate|]);
        intros [_ (a & Htype & Hin' & _)]; exfalso; apply Hnot; eauto.
  - intros error.
    repeat (match goal with
            | |- context [if ?b then _ else _] => destruct b
            end);
      intros [= <-]; split; reflexivity.
  - destruct (subscriptionStatus user); reflexivity.
Qed.

Lemma validation_accepts_witness :
  status (errorHandler false 0
            (ValidationError "Deep dive analysis requires paid subscription" None))
  = 400.
Proof.
  destruct (validation_accepts (authUser (sampleUser FREE 5 0))
              (sampleBody "DEEP_DIVE") false 0) as (_ & Hanswer & _).
  apply (Hanswer (ValidationError "Deep dive analysis requires paid subscription" None)).
  reflexivity.
Defined.

(** X13.  The checks of POST /api/analysis run in the order permission,
    quota, rate limit, validation.  A request without user is answered
    401 and a user whose quota is used up is answered 403, neither being
    counted by the rate limiter.  A user with quota left always has the
    permission, is counted by the limiter of their subscription, and is
    then either stopped by it or handed to the validation of the body. *)
Theorem create_analysis_checks (req : UserRequest) (body : CreateAnalysisRequest)
    (now now' : Z) (store : gmap string Entry) (development : bool) (t : Z) :
  let result := createAnalysis req body now now' store in
  let limited := subscriptionBasedRateLimiter req now now' store in
  (user req = None ->
   result.1 = store
   /\ (status ∘ errorHandler development t) <$> result.2 = Some 401)
  /\ forall row, user req = Some (authUser row) ->
       (monthlyQuota row <= usedQuota row ->
        result.1 = store
        /\ (status ∘ errorHandler development t) <$> result.2 = Some 403)
       /\ (usedQuota row < monthlyQuota row ->
           result.1 = limited.1.1
           /\ result.1
              = (increment now (requestKey (requestOf req)) 3600000 store).1
           /\ (limited.2 = None ->
               result.2 = validateInput (authUser row) body)
           /\ (limited.2 <> None ->
               (status ∘ errorHandler development t) <$> result.2 = Some 429)).
Proof.
  cbv zeta. unfold createAnalysis. split.
  - intros ->. cbn. split; reflexivity.
  - intros row Huser. rewrite Huser.
    assert (Hpermission :
      requirePermission CREATE_ANALYSIS (Some (authUser row)) = None)
      by (unfold requirePermission, authUser; cbn;
          destruct (user_subscriptionStatus row); reflexivity).
    rewrite Hpermission. unfold requireQuota. cbn [authUser quotaInfo remaining].
    split.
    + intros Hquota. rewrite decide_True by lia. split; reflexivity.
    + intros Hquota. rewrite decide_False by lia.
      assert (Hanswer : forall limiter,
        let limited := createRateLimiter limiter (requestOf req) now now' store in
        (let '(store', _, thrown) := limited in
         match thrown with
         | Some error => (store', Some error)
         | None => (store', validateInput (authUser row) body)
         end).1 = limited.1.1
        /\ limited.1.1 = (increment now (requestKey (requestOf req))
                            (windowMs (config limiter)) store).1
        /\ (limited.2 = None ->
            (let '(store', _, thrown) := limited in
             match thrown with
             | Some error => (store', Some error)
             | None => (store', validateInput (authUser row) body)
             end).2 = validateInput (authUser row) body)
        /\ (limited.2 <> None ->
            (status ∘ errorHandler development t)
              <$> (let '(store', _, thrown) := limited in
                   match thrown with
                   | Some error => (store', Some error)
                   | None => (store', validateInput (authUser row) body)
                   end).2 = Some 429)).
      { intros limiter. cbv zeta.
        pose proof (RateLimiterExtra.createRateLimiter_thrown
                      limiter (requestOf req) now now' store) as Hthrown.
        assert (Hstore :
          (createRateLimiter limiter (requestOf req) now now' store).1.1
          = (increment now (requestKey (requestOf req))
               (windowMs (config limiter)) store).1).
        { unfold createRateLimiter, rateLimiter.
          destruct (increment now _ _ store) as [store' result]. reflexivity. }
        destruct (createRateLimiter limiter (requestOf req) now now' store)
          as [[store' outcome] thrown].
        cbn [fst snd] in *. subst thrown. case_bool_decide.
        - split; [reflexivity|]. split; [exact Hstore|].
          split; [discriminate|]. intros _.
          destruct (RateLimiterExtra.rateLimitError_answer development t
                      (orElse (message limiter)
                         "Too many requests, please try again later"))
            as [Hstatus _]; [apply RateLimiterExtra.orElse_nonempty; discriminate|].
          exact (f_equal Some Hstatus).
        - split; [reflexivity|]. split; [exact Hstore|].
          split; [reflexivity|]. intros Hnone. contradiction. }
      unfold subscriptionBasedRateLimiter. rewrite Huser.
      cbn [authUser subscriptionStatus].
      destruct (user_subscriptionStatus row);
        match goal with
        | |- context [createRateLimiter ?limiter _ now now' store] =>
            destruct (Hanswer limiter) as (Hstore & Hkey & Hpass & Hstop)
        end;
        (split; [exact Hstore|]);
        (split; [rewrite Hstore, Hkey; reflexivity|]);
        (split; [exact Hpass|exact Hstop]).
Qed.

Lemma create_analysis_checks_witness :
  (status ∘ errorHandler false 0)
    <$> (createAnalysis (sampleUserRequest (Some (sampleUser FREE 5 5)))
           (sampleBody "QUICK_SCAN") 0 0 ∅).2
  = Some 403.
Proof.
  destruct (create_analysis_checks (sampleUserRequest (Some (sampleUser FREE 5 5)))
              (sampleBody "QUICK_SCAN") 0 0 ∅ false 0) as [_ Huser].
  destruct (Huser (sampleUser FREE 5 5) eq_refl) as [Hused _].
  apply Hused. vm_compute. discriminate.
Defined.

End AnalysisRoutesExtra.

(** ** Provider clients: responses, models, extraction, confidence *)

Module ProviderExtra.
Import JS Types Samples.

Section WithHost.
Context `{Host}.

Lemma openai_tagged call request model :
  tagged "OPENAI_ERROR" openai (generatedRequestId call) (elapsed call)
    model (OpenAIService.analyzeChannel call request model).
Proof.
  unfold OpenAIService.analyzeChannel, tagged. cbv zeta.
  destruct (PromptTemplates.getPromptTemplate _) as [promptTemplate|m];
    cbn [mbind completion_bind bind];
    [|cbn; repeat split; right; repeat split; eauto].
  destruct (OpenAIService.MODEL_CONFIGS model) as [config| |];
    cbn [mbind completion_bind bind];
    [|destruct (exchangeWithoutModel call _);
      cbn; repeat split; right; repeat split; eauto
     |cbn; repeat split; right; repeat split; eauto].
  destruct (OpenAIService.makeAPICall _) as [response|m];
    cbn [mbind completion_bind bind];
    [|cbn; repeat split; right; repeat split; eauto].
  destruct (OpenAIService.parseAnalysisResponse _) as [analysisResult|m];
    cbn [mbind completion_bind bind];
    [|cbn; repeat split; right; repeat split; eauto].
  cbn. repeat split. left. repeat split. eexists. repeat split.
Qed.

Lemma claude_tagged call request model :
  tagged "CLAUDE_ERROR" claude (generatedRequestId call) (elapsed call)
    model (ClaudeService.analyzeChannel call request model).
Proof.
  unfold ClaudeService.analyzeChannel, tagged. cbv zeta.
  destruct (PromptTemplates.getPromptTemplate _) as [promptTemplate|m];
    cbn [mbind completion_bind bind];
    [|cbn; repeat split; right; repeat split; eauto].
  destruct (ClaudeService.MODEL_CONFIGS model) as [config| |];
    cbn [mbind completion_bind bind];
    [|destruct (exchangeWithoutModel call _);
      cbn; repeat split; right; repeat split; eauto
     |cbn; repeat split; right; repeat split; eauto].
  destruct (ClaudeService.makeAPICall _) as [response|m];
    cbn [mbind completion_bind bind];
    [|cbn; repeat split; right; repeat split; eauto].
  destruct (ClaudeService.parseAnalysisResponse _) as [analysisResult|m];
    cbn [mbind completion_bind bind];
    [|cbn; repeat split; right; repeat split; eauto].
  cbn. repeat split. left. repeat split. eexists. repeat split.
Qed.

(** X14.  Whatever the exchange comes to, each provider client returns a
    tagged response: it carries the generated request id and the elapsed
    time, and is either a success with a result, no error, and the model,
    time and cost repeated in the result's metadata, or a failure with no
    result, zero tokens, zero cost and an error whose code and provider
    name the client. *)
Theorem client_response_tagged (openaiCall : Invocation OpenAIService.Usage)
    (claudeCall : Invocation ClaudeService.Usage)
    (request : AIAnalysisRequest) (model : string) :
  tagged "OPENAI_ERROR" openai (generatedRequestId openaiCall) (elapsed openaiCall)
    model (OpenAIService.analyzeChannel openaiCall request model)
  /\ tagged "CLAUDE_ERROR" claude (generatedRequestId claudeCall) (elapsed claudeCall)
       model (ClaudeService.analyzeChannel claudeCall request model).
Proof.
  split; [apply openai_tagged|apply claude_tagged].
Qed.

Ltac decide_model :=
  repeat match goal with
         | |- context [decide (?name = ?m)] =>
             destruct (decide (name = m)) as [<-|?]
         | H : context [decide (?name = ?m)] |- _ =>
             destruct (decide (name = m)) as [<-|?]
         end.

Lemma openai_models model :
  model ∈ OpenAIService.getAvailableModels
  <-> exists config, OpenAIService.getModelConfig model = Own config.
Proof.
  unfold OpenAIService.getAvailableModels, OpenAIService.getModelConfig,
    OpenAIService.MODEL_CONFIGS, property. cbn.
  rewrite !elem_of_cons, elem_of_nil. decide_model;
    (split; [intros _; eexists; reflexivity|tauto])
    || (split; [intros [|[|[|[]]]]; congruence
               |destruct (inherited model); intros [? [=]]]).
Qed.

Lemma claude_models model :
  model ∈ ClaudeService.getAvailableModels
  <-> exists config, ClaudeService.getModelConfig model = Own config.
Proof.
  unfold ClaudeService.getAvailableModels, ClaudeService.getModelConfig,
    ClaudeService.MODEL_CONFIGS, property. cbn.
  rewrite !elem_of_cons, elem_of_nil. decide_model;
    (split; [intros _; eexists; reflexivity|tauto])
    || (split; [intros [|[|[|[]]]]; congruence
               |destruct (inherited model); intros [? [=]]]).
Qed.

(** Every price in the two tables is positive. *)
Lemma model_prices model config :
  OpenAIService.getModelConfig model = Own config
  \/ ClaudeService.getModelConfig model = Own config ->
  (0 < costPerInputToken config)%Q /\ (0 < costPerOutputToken config)%Q.
Proof.
  unfold OpenAIService.getModelConfig, OpenAIService.MODEL_CONFIGS,
    ClaudeService.getModelConfig, ClaudeService.MODEL_CONFIGS, property.
  cbn.
  intros [Hconfig|Hconfig]; revert Hconfig; decide_model;
    try (destruct (inherited model); discriminate);
    intros [= <-]; split; reflexivity.
Qed.

Lemma template_known (t : AnalysisType) :
  exists promptTemplate,
    PromptTemplates.getPromptTemplate (analysisTypeName t) = Normal promptTemplate.
Proof. destruct t; eexists; reflexivity. Qed.

(** What [MODEL_CONFIGS[model]] is for a name outside the table. *)
Lemma property_outside {A} model (entries : list (string * A)) :
  model ∉ entries.*1 ->
  property model entries = if inherited model then Inherited else Absent.
Proof.
  intros Hout. unfold property.
  assert (Hnone : ownProperty model entries = None).
  { induction entries as [|[k v] entries IH]; [reflexivity|].
    cbn [ownProperty]. rewrite fmap_cons, not_elem_of_cons in Hout.
    destruct Hout as [Hne Hout]. cbn in Hne.
    rewrite decide_False by congruence. apply IH, Hout. }
  rewrite Hnone. reflexivity.
Qed.

(** X15.  The models [getAvailableModels] lists are those for which
    [getModelConfig] returns a configuration; none of them is a name
    that every object inherits, and no model is offered by both
    providers.  For a model that is neither listed nor such a name, a
    client returns its failure response with the message [Unsupported
    model: ...], whatever the exchange would have come to.  For a name
    that every object inherits, such as [constructor], [getModelConfig]
    returns the inherited property and the client does not refuse the
    model: it sends a request that names no model and returns the failure
    that exchange ends in. *)
Theorem available_models (model : string)
    (openaiCall : Invocation OpenAIService.Usage)
    (claudeCall : Invocation ClaudeService.Usage) (request : AIAnalysisRequest) :
  (model ∈ OpenAIService.getAvailableModels
   <-> exists config, OpenAIService.getModelConfig model = Own config)
  /\ (model ∈ ClaudeService.getAvailableModels
      <-> exists config, ClaudeService.getModelConfig model = Own config)
  /\ ~ (model ∈ OpenAIService.getAvailableModels
        /\ model ∈ ClaudeService.getAvailableModels)
  /\ Forall (fun name => inherited name = false)
            (OpenAIService.getAvailableModels ++ ClaudeService.getAvailableModels)
  /\ (model ∉ OpenAIService.getAvailableModels -> inherited model = false ->
      OpenAIService.analyzeChannel openaiCall request model
      = unsupportedModel "OPENAI_ERROR" openai
          (generatedRequestId openaiCall) (elapsed openaiCall) model)
  /\ (model ∉ ClaudeService.getAvailableModels -> inherited model = false ->
      ClaudeService.analyzeChannel claudeCall request model
      = unsupportedModel "CLAUDE_ERROR" claude
          (generatedRequestId claudeCall) (elapsed claudeCall) model)
  /\ (inherited model = true ->
      OpenAIService.getModelConfig model = Inherited
      /\ ClaudeService.getModelConfig model = Inherited
      /\ (exists prompt text,
            OpenAIService.makeAPICallWithoutModel (A := unit)
              (exchangeWithoutModel openaiCall prompt) = Throw text
            /\ OpenAIService.analyzeChannel openaiCall request model
               = failedWith "OPENAI_ERROR" openai
                   (generatedRequestId openaiCall) (elapsed openaiCall) text)
      /\ (exists prompt text,
            ClaudeService.makeAPICallWithoutModel (A := unit)
              (exchangeWithoutModel claudeCall prompt) = Throw text
            /\ ClaudeService.analyzeChannel claudeCall request model
               = failedWith "CLAUDE_ERROR" claude
                   (generatedRequestId claudeCall) (elapsed claudeCall) text)).
Proof.
  pose proof (openai_models model) as Hopenai.
  pose proof (claude_models model) as Hclaude.
  assert (Hlisted : Forall (fun name => inherited name = false)
            (OpenAIService.getAvailableModels ++ ClaudeService.getAvailableModels))
    by (repeat constructor).
  split; [exact Hopenai|]. split; [exact Hclaude|].
  split; [|split; [exact Hlisted|split; [|split]]].
  - unfold OpenAIService.getAvailableModels, ClaudeService.getAvailableModels.
    cbn. rewrite !elem_of_cons, !elem_of_nil.
    intros [[->|[->|[->|[]]]] [|[|[|[]]]]]; discriminate.
  - intros Hout Hown.
    unfold OpenAIService.analyzeChannel, OpenAIService.MODEL_CONFIGS. cbv zeta.
    rewrite (property_outside _ _ Hout), Hown.
    destruct request as [c []]; reflexivity.
  - intros Hout Hown.
    unfold ClaudeService.analyzeChannel, ClaudeService.MODEL_CONFIGS. cbv zeta.
    rewrite (property_outside _ _ Hout), Hown.
    destruct request as [c []]; reflexivity.
  - intros Hin.
    assert (Hout1 : model ∉ OpenAIService.getAvailableModels).
    { intros Hlist. apply Forall_app in Hlisted as [Hl _].
      rewrite Forall_forall in Hl. specialize (Hl _ Hlist). congruence. }
    assert (Hout2 : model ∉ ClaudeService.getAvailableModels).
    { intros Hlist. apply Forall_app in Hlisted as [_ Hl].
      rewrite Forall_forall in Hl. specialize (Hl _ Hlist). congruence. }
    assert (Hconfig1 : OpenAIService.MODEL_CONFIGS model = Inherited).
    { unfold OpenAIService.MODEL_CONFIGS.
      rewrite (property_outside _ _ Hout1), Hin. reflexivity. }
    assert (Hconfig2 : ClaudeService.MODEL_CONFIGS model = Inherited).
    { unfold ClaudeService.MODEL_CONFIGS.
      rewrite (property_outside _ _ Hout2), Hin. reflexivity. }
    split; [exact Hconfig1|]. split; [exact Hconfig2|]. split.
    + unfold OpenAIService.analyzeChannel. cbv zeta. rewrite Hconfig1.
      destruct (template_known (analysisType request))
        as [promptTemplate ->].
      cbn [mbind completion_bind bind].
      exists (PromptTemplates.replaceVariables
                (PromptTemplates.template promptTemplate)
                (promptVariables request)).
      destruct (exchangeWithoutModel openaiCall _); eexists; split; reflexivity.
    + unfold ClaudeService.analyzeChannel. cbv zeta. rewrite Hconfig2.
      destruct (template_known (analysisType request))
        as [promptTemplate ->].
      cbn [mbind completion_bind bind].
      exists (PromptTemplates.replaceVariables
                (PromptTemplates.template promptTemplate)
                (promptVariables request)).
      destruct (exchangeWithoutModel claudeCall _); eexists; split; reflexivity.
Qed.

End WithHost.

Section Witness.
#[local] Existing Instance sampleHost.

(** The model [gpt-5] is refused before any exchange; the model
    [constructor] is not, and the answer of the API to the request
    without model comes back as the failure. *)
Lemma available_models_witness :
  OpenAIService.analyzeChannel
    (answeringCall sampleContent (OpenAIService.mkUsage 1 2 3))
    (sampleAnalysisRequest QUICK_SCAN) "gpt-5"
  = unsupportedModel "OPENAI_ERROR" openai "req_2" 900 "gpt-5"
  /\ OpenAIService.getModelConfig "constructor" = Inherited.
Proof.
  destruct (@available_models sampleHost "gpt-5"
              (answeringCall sampleContent (OpenAIService.mkUsage 1 2 3))
              (answeringCall sampleContent (ClaudeService.mkUsage 1 2))
              (sampleAnalysisRequest QUICK_SCAN))
    as (_ & _ & _ & _ & Hopenai & _).
  destruct (@available_models sampleHost "constructor"
              (answeringCall sampleContent (OpenAIService.mkUsage 1 2 3))
              (answeringCall sampleContent (ClaudeService.mkUsage 1 2))
              (sampleAnalysisRequest QUICK_SCAN))
    as (_ & _ & _ & _ & _ & _ & Hinherited).
  split.
  - apply Hopenai; [|reflexivity]. unfold OpenAIService.getAvailableModels.
    cbn. rewrite !elem_of_cons, elem_of_nil. intros [|[|[|[]]]]; discriminate.
  - apply Hinherited. reflexivity.
Defined.

End Witness.

(** *** Extraction of the JSON text from an answer of Claude *)

Lemma occurs_char_cons c d s :
  PromptTemplates.occurs (String c EmptyString) (String d s) = false
  <-> c <> d /\ PromptTemplates.occurs (String c EmptyString) s = false.
Proof.
  unfold PromptTemplates.occurs.
  rewrite PromptTemplatesSpec.splitAtFirst_unfold.
  cbn [PromptTemplates.stripPrefix].
  destruct (Ascii.eqb_spec c d) as [->|Hne].
  - destruct s; split; try discriminate; intros [? _]; congruence.
  - destruct (PromptTemplates.splitAtFirst (String c EmptyString) s) as [[a b]|];
      split; try discriminate; tauto.
Qed.

Lemma throughLastBrace_None post :
  ClaudeService.throughLastBrace post = None
  <-> PromptTemplates.occurs "}" post = false.
Proof.
  induction post as [|c post IH]; [split; reflexivity|].
  cbn [ClaudeService.throughLastBrace]. rewrite occurs_char_cons, <- IH.
  destruct (ClaudeService.throughLastBrace post) as [r|].
  - split; [discriminate|]. intros [_ ?]. discriminate.
  - destruct (Ascii.eqb_spec c "}") as [->|Hne].
    + split; [discriminate|]. intros [? _]. congruence.
    + split; [|reflexivity]. intros _. split; [congruence|reflexivity].
Qed.

Lemma throughLastBrace_app body post :
  PromptTemplates.occurs "}" post = false ->
  ClaudeService.throughLastBrace (body +:+ "}" +:+ post) = Some (body +:+ "}").
Proof.
  intros Hpost. apply throughLastBrace_None in Hpost.
  induction body as [|c body IH].
  - change (EmptyString +:+ "}" +:+ post) with (String "}" post).
    cbn [ClaudeService.throughLastBrace]. rewrite Hpost. reflexivity.
  - rewrite PromptTemplatesSpec.text_app_cons.
    cbn [ClaudeService.throughLastBrace]. rewrite IH. reflexivity.
Qed.

Lemma throughLastBrace_Some s r :
  ClaudeService.throughLastBrace s = Some r ->
  exists body post,
    s = body +:+ "}" +:+ post /\ r = body +:+ "}"
    /\ PromptTemplates.occurs "}" post = false.
Proof.
  revert r. induction s as [|c s IH]; intros r; [discriminate|].
  cbn [ClaudeService.throughLastBrace].
  destruct (ClaudeService.throughLastBrace s) as [r'|] eqn:Hs.
  - intros [= <-]. destruct (IH r' eq_refl) as (body & post & -> & -> & Hpost).
    exists (String c body), post. repeat split. exact Hpost.
  - destruct (Ascii.eqb_spec c "}") as [->|]; [|discriminate].
    intros [= <-]. exists EmptyString, s. repeat split.
    apply throughLastBrace_None, Hs.
Qed.

Lemma jsonMatch_app pre rest :
  PromptTemplates.occurs "{" pre = false ->
  ClaudeService.jsonMatch (pre +:+ String "{" rest)
  = ClaudeService.throughLastBrace (String "{" rest).
Proof.
  induction pre as [|c pre IH]; intros Hpre; [reflexivity|].
  apply occurs_char_cons in Hpre as [Hne Hpre].
  rewrite PromptTemplatesSpec.text_app_cons. cbn [ClaudeService.jsonMatch].
  destruct (Ascii.eqb_spec c "{") as [->|_]; [congruence|].
  apply IH, Hpre.
Qed.

Lemma jsonMatch_Some s m :
  ClaudeService.jsonMatch s = Some m ->
  exists pre rest,
    s = pre +:+ String "{" rest /\ PromptTemplates.occurs "{" pre = false
    /\ ClaudeService.throughLastBrace (String "{" rest) = Some m.
Proof.
  induction s as [|c s IH]; [discriminate|].
  cbn [ClaudeService.jsonMatch].
  destruct (Ascii.eqb_spec c "{") as [->|Hne].
  - intros Hm. exists EmptyString, s. repeat split. exact Hm.
  - intros Hm. destruct (IH Hm) as (pre & rest & -> & Hpre & Hrest).
    exists (String c pre), rest. split; [reflexivity|]. split; [|exact Hrest].
    apply occurs_char_cons. split; [congruence|exact Hpre].
Qed.

Lemma jsonMatch_found pre body post :
  PromptTemplates.occurs "{" pre = false ->
  PromptTemplates.occurs "}" post = false ->
  ClaudeService.jsonMatch (pre +:+ "{" +:+ body +:+ "}" +:+ post)
  = Some ("{" +:+ body +:+ "}").
Proof.
  intros Hpre Hpost.
  change ("{" +:+ body +:+ "}" +:+ post) with (String "{" (body +:+ "}" +:+ post)).
  rewrite jsonMatch_app by exact Hpre.
  apply (throughLastBrace_app (String "{" body) post Hpost).
Qed.

(** X16.  [content.match(/\{[\s\S]*\}/)] finds the text from the first
    opening brace to the last closing brace: with no opening brace in
    [pre] and no closing brace in [post], the match in [pre{body}post] is
    [{body}], and every match arises in this way.  Matching is
    idempotent. *)
Theorem json_extraction :
  (forall pre body post,
     PromptTemplates.occurs "{" pre = false ->
     PromptTemplates.occurs "}" post = false ->
     ClaudeService.jsonMatch (pre +:+ "{" +:+ body +:+ "}" +:+ post)
     = Some ("{" +:+ body +:+ "}"))
  /\ (forall content matched,
        ClaudeService.jsonMatch content = Some matched ->
        ClaudeService.jsonMatch matched = Some matched
        /\ exists pre body post,
             content = pre +:+ "{" +:+ body +:+ "}" +:+ post
             /\ matched = "{" +:+ body +:+ "}"
             /\ PromptTemplates.occurs "{" pre = false
             /\ PromptTemplates.occurs "}" post = false).
Proof.
  pose proof jsonMatch_found as Hfound.
  split; [exact Hfound|].
  intros content matched Hmatch.
  destruct (jsonMatch_Some _ _ Hmatch) as (pre & rest & -> & Hpre & Hrest).
  destruct (throughLastBrace_Some _ _ Hrest) as (body0 & post & Hsplit & -> & Hpost).
  destruct body0 as [|c body]; [discriminate|].
  injection Hsplit as <- ->.
  split.
  - apply (Hfound EmptyString body EmptyString); reflexivity.
  - exists pre, body, post. repeat split; assumption.
Qed.

Lemma json_extraction_witness :
  ClaudeService.jsonMatch "Here you go: {a: {b}} I hope it helps"
  = Some "{a: {b}}".
Proof.
  destruct json_extraction as [Hfound _].
  apply (Hfound "Here you go: " "a: {b}" " I hope it helps"); reflexivity.
Defined.

Section Parsing.
Context `{Host}.

Ltac step_both :=
  cbn [mbind completion_bind bind tryCatch];
  match goal with
  | |- context [tryCatch (mbind _ ?c) _] => destruct c
  | |- context [tryCatch (if ?b then _ else _) _] => destruct b
  end.

(** X17.  The two clients parse alike.  On a text that starts with an
    opening brace and ends with a closing one, the Claude client parses
    what the OpenAI client parses, and fails where it fails, with the
    same cause behind its own prefix; and prose around that text, with
    no opening brace before it and no closing brace after it, makes no
    difference to the Claude client. *)
Theorem claude_parse_ignores_prose (pre body post : string) :
  PromptTemplates.occurs "{" pre = false ->
  PromptTemplates.occurs "}" post = false ->
  let json := "{" +:+ body +:+ "}" in
  ClaudeService.parseAnalysisResponse (pre +:+ json +:+ post)
  = ClaudeService.parseAnalysisResponse json
  /\ match OpenAIService.parseAnalysisResponse json with
     | Normal result => ClaudeService.parseAnalysisResponse json = Normal result
     | Throw text =>
         exists cause,
           text = "Failed to parse AI response: " +:+ cause
           /\ ClaudeService.parseAnalysisResponse json
              = Throw ("Failed to parse Claude response: " +:+ cause)
     end.
Proof.
  intros Hpre Hpost. cbv zeta.
  pose proof jsonMatch_found as Hfound.
  pose proof (Hfound pre body post Hpre Hpost) as Hprose.
  pose proof (Hfound EmptyString body EmptyString eq_refl eq_refl) as Hbare.
  rewrite PromptTemplatesSpec.text_app_nil_r in Hbare.
  change (EmptyString +:+ "{" +:+ body +:+ "}") with ("{" +:+ body +:+ "}") in Hbare.
  assert (Hshape :
    pre +:+ ("{" +:+ body +:+ "}") +:+ post
    = pre +:+ "{" +:+ body +:+ "}" +:+ post).
  { f_equal.
    change ("{" +:+ body +:+ "}") with (String "{" (body +:+ "}")).
    rewrite PromptTemplatesSpec.text_app_cons, PromptTemplatesSpec.text_app_assoc.
    reflexivity. }
  split.
  - unfold ClaudeService.parseAnalysisResponse.
    rewrite Hshape, Hprose, Hbare. reflexivity.
  - unfold ClaudeService.parseAnalysisResponse, OpenAIService.parseAnalysisResponse.
    rewrite Hbare. generalize ("{" +:+ body +:+ "}"). intros json.
    repeat step_both;
      cbn [mbind completion_bind bind tryCatch];
      first [reflexivity | eexists; split; reflexivity].
Qed.

End Parsing.

Section ParsingWitness.
#[local] Existing Instance sampleHost.

Lemma claude_parse_ignores_prose_witness :
  ClaudeService.parseAnalysisResponse ("Sure: " +:+ sampleContent +:+ " Done.")
  = ClaudeService.parseAnalysisResponse sampleContent.
Proof.
  destruct (@claude_parse_ignores_prose sampleHost "Sure: " "..." " Done."
              eq_refl eq_refl) as [Hprose _].
  exact Hprose.
Defined.

End ParsingWitness.

Ltac confidence_cases :=
  unfold OpenAIService.calculateConfidence, ClaudeService.calculateConfidence;
  repeat match goal with
         | |- context [decide ?P] => destruct (decide P)
         | |- context [greaterThanZero ?n] => destruct (greaterThanZero n) eqn:?
         | |- context [truthy ?v] => destruct (truthy v) eqn:?
         end; cbv zeta.

(** X18.  For one and the same result the Claude client's confidence is
    never below the OpenAI client's.  The OpenAI confidence is at least
    0.5 and the Claude confidence at least 0.6; neither exceeds 1.  The
    Claude confidence is 1 exactly when the result has three strengths,
    two weaknesses, a recommendation, a positive overall score and a
    content strategy.  The OpenAI confidence never reaches 1: for such a
    result the five additions of 0.1 to 0.5 come, in binary floating
    point, to the double just below 1, which is (2^53 - 1) / 2^53. *)
Theorem claude_confidence_dominates (result : AIAnalysisResponse) :
  let complete :=
    (3 <= length (strengths_details (strengths result)))%nat
    /\ (2 <= length (weaknesses_details (weaknesses result)))%nat
    /\ (1 <= length (recommendations (opportunities result)))%nat
    /\ greaterThanZero (overall (scores result)) = true
    /\ truthy (contentStrategy result) = true in
  Double.leb (OpenAIService.calculateConfidence result)
             (ClaudeService.calculateConfidence result) = true
  /\ Double.between (Double.literal (5 # 10)) (Double.ofZ 1)
       (OpenAIService.calculateConfidence result)
  /\ Double.between (Double.literal (6 # 10)) (Double.ofZ 1)
       (ClaudeService.calculateConfidence result)
  /\ (ClaudeService.calculateConfidence result = Double.ofZ 1 <-> complete)
  /\ Double.ltb (OpenAIService.calculateConfidence result) (Double.ofZ 1) = true
  /\ (Double.toQ (OpenAIService.calculateConfidence result)
      = Some (9007199254740991 # 9007199254740992)%Q <-> complete).
Proof.
  cbv zeta. split; [|split; [|split; [|split; [|split]]]].
  - confidence_cases; vm_compute; reflexivity.
  - confidence_cases; split; vm_compute; reflexivity.
  - confidence_cases; split; vm_compute; reflexivity.
  - confidence_cases; split;
      try (intros Hone; vm_compute in Hone; discriminate);
      try (intros (? & ? & ? & ? & ?); first [lia | discriminate]);
      intros; first [vm_compute; reflexivity
                    | repeat split; first [lia | reflexivity]].
  - confidence_cases; vm_compute; reflexivity.
  - confidence_cases; split;
      try (intros Hone; vm_compute in Hone; discriminate);
      try (intros (? & ? & ? & ? & ?); first [lia | discriminate]);
      intros; first [vm_compute; reflexivity
                    | repeat split; first [lia | reflexivity]].
Qed.

End ProviderExtra.

(** ** Analyzer: provider selection, effects, batches *)

Module AIAnalyzerExtra.
Import JS Types AIAnalyzer Samples.

(** X19.  [selectOptimalProvider] only ever picks a provider whose
    service was constructed, that is one of [getAvailableProviders()],
    and fails exactly when there is none.  The default model of the
    provider it picks is one of [getAvailableModels(provider)], so with
    no options the statements before the [try] block of [analyzeChannel]
    succeed as soon as one service is there.  Claude is preferred for
    DEEP_DIVE and GROWTH_STRATEGY, OpenAI for the other two types. *)
Theorem selection_among_available (this : Services) (request : AIAnalysisRequest) :
  (forall p, selectOptimalProvider this request = Normal p ->
     p ∈ getAvailableProviders this
     /\ exists m, getDefaultModel p = Normal m
                  /\ m ∈ getAvailableModels p
                  /\ beforeTry this request None = Normal (p, m))
  /\ ((exists text, selectOptimalProvider this request = Throw text)
      <-> getAvailableProviders this = [])
  /\ (claudeService this = true ->
      analysisType request = DEEP_DIVE \/ analysisType request = GROWTH_STRATEGY ->
      selectOptimalProvider this request = Normal claude)
  /\ (openaiService this = true ->
      analysisType request = QUICK_SCAN \/ analysisType request = COMPETITOR_COMPARE ->
      selectOptimalProvider this request = Normal openai).
Proof.
  split; [|split; [|split]].
  - intros p Hselect.
    destruct this as [[] []], request as [c []];
      vm_compute in Hselect; try discriminate; injection Hselect as <-;
      (split;
       [unfold getAvailableProviders; cbn; rewrite ?elem_of_cons; auto
       |eexists; split; [reflexivity|]; split;
        [cbn; unfold OpenAIService.getAvailableModels,
           ClaudeService.getAvailableModels;
         rewrite ?elem_of_cons; auto|reflexivity]]).
  - split.
    + intros [text Hselect].
      destruct this as [[] []], request as [c []];
        vm_compute in Hselect; try discriminate; reflexivity.
    + intros Hnone.
      destruct this as [[] []], request as [c []];
        vm_compute in Hnone; try discriminate; eexists; reflexivity.
  - intros Hclaude Htype. destruct this as [o cl], request as [c t].
    cbn in Hclaude, Htype. subst cl.
    destruct Htype as [->| ->]; destruct o; reflexivity.
  - intros Hopenai Htype. destruct this as [o cl], request as [c t].
    cbn in Hopenai, Htype. subst o.
    destruct Htype as [->| ->]; destruct cl; reflexivity.
Qed.

Lemma selection_among_available_witness :
  selectOptimalProvider bothServices (sampleAnalysisRequest DEEP_DIVE) = Normal claude.
Proof.
  destruct (selection_among_available bothServices (sampleAnalysisRequest DEEP_DIVE))
    as (_ & _ & Hclaude & _).
  apply Hclaude; [reflexivity|left; reflexivity].
Defined.

Lemma estimateInputTokens_floor request : 850 <= estimateInputTokens request.
Proof.
  unfold estimateInputTokens, ceilQuarter. cbv zeta.
  pose proof (Z.div_pos (Z.of_nat (String.length (title (channelData request))) + 3) 4).
  pose proof (Z.div_pos
                (Z.of_nat (String.length (description (channelData request))) + 3) 4).
  destruct (recentVideos (channelData request)), (analysisType request); lia.
Qed.

Lemma property_Inherited {A} model (entries : list (string * A)) :
  property model entries = Inherited ->
  inherited model = true /\ model ∉ entries.*1.
Proof.
  unfold property. intros Hproperty.
  destruct (ownProperty model entries) as [a|] eqn:Hown; [discriminate|].
  destruct (inherited model); [|discriminate]. split; [reflexivity|].
  clear Hproperty. induction entries as [|[k v] entries IH].
  - apply not_elem_of_nil.
  - cbn [ownProperty] in Hown. rewrite fmap_cons. apply not_elem_of_cons.
    destruct (decide (k = model)) as [|Hne]; [discriminate|].
    split; [cbn; congruence|apply IH, Hown].
Qed.

(** X23.  When [estimateCost] returns, its estimate names the provider
    asked for, OpenAI or Claude, and counts at least 850 input tokens.
    Either the model is one of that provider's available models, and the
    estimated cents are [Math.round] of one hundred times the cost that
    the formula of the OpenAI client gives for the estimated token
    counts, whichever the provider; or the model is a name that every
    object inherits, such as [toString], which is not an available model,
    and the estimated cents are NaN.  For the Claude client the estimate
    is not always what the client would report for the same token counts:
    with 1500 input and 1500 output tokens on [claude-3-opus] the
    estimate is 13 cents and the formula of the Claude client gives 14. *)
Theorem estimate_uses_client_formula (request : AIAnalysisRequest)
    (p : AIProvider) (model : option string) (estimate : CostEstimate) :
  estimateCost request p model = Normal estimate ->
  let selected := estimate_model estimate in
  estimate_provider estimate = p
  /\ (p = openai \/ p = claude)
  /\ estimatedInputTokens estimate = estimateInputTokens request
  /\ estimatedOutputTokens estimate = estimateOutputTokens (analysisType request)
  /\ 850 <= estimatedInputTokens estimate
  /\ ((exists config,
         (p = openai /\ OpenAIService.getModelConfig selected = Own config
          \/ p = claude /\ ClaudeService.getModelConfig selected = Own config)
         /\ selected ∈ getAvailableModels p
         /\ estimatedCostCents estimate
            = Double.Math_round
                (Double.mul
                   (OpenAIService.calculateCost (A := binary64)
                      (estimatedInputTokens estimate)
                      (estimatedOutputTokens estimate) config)
                   (Double.ofZ 100)))
      \/ (inherited selected = true
          /\ (selected ∉ getAvailableModels p)
          /\ estimatedCostCents estimate = NaN))
  /\ ((estimatedCostCents
         <$> match estimateCost longTitleRequest claude (Some "claude-3-opus") with
             | Normal e => Some e
             | Throw _ => None
             end)
      = Some (Fin 13)
      /\ estimateInputTokens longTitleRequest = 1500
      /\ estimateOutputTokens (analysisType longTitleRequest) = 1500
      /\ Double.Math_round
           (Double.mul
              (ClaudeService.calculateCost (A := binary64) 1500 1500 opusConfig)
              (Double.ofZ 100))
         = Fin 14).
Proof.
  unfold estimateCost.
  destruct (orDefault model (getDefaultModel p)) as [chosen|text];
    cbn [mbind completion_bind bind]; [|discriminate].
  pose proof (estimateInputTokens_floor request) as Hinput.
  assert (Hexample :
    (estimatedCostCents
       <$> match estimateCost longTitleRequest claude (Some "claude-3-opus") with
           | Normal e => Some e
           | Throw _ => None
           end)
    = Some (Fin 13)
    /\ estimateInputTokens longTitleRequest = 1500
    /\ estimateOutputTokens (analysisType longTitleRequest) = 1500
    /\ Double.Math_round
         (Double.mul
            (ClaudeService.calculateCost (A := binary64) 1500 1500 opusConfig)
            (Double.ofZ 100))
       = Fin 14)
    by (repeat split; vm_compute; reflexivity).
  destruct p; cbn [mbind completion_bind bind]; [| |discriminate].
  - destruct (OpenAIService.getModelConfig chosen) as [config| |] eqn:Hconfig;
      [| |discriminate]; cbv zeta; intros [= <-];
      cbn [estimate_provider estimate_model estimatedInputTokens
           estimatedOutputTokens estimatedCostCents getAvailableModels];
      (split; [reflexivity|]); (split; [left; reflexivity|]);
      (split; [reflexivity|]); (split; [reflexivity|]);
      (split; [exact Hinput|]); (split; [|exact Hexample]).
    + left. exists config. split; [left; split; [reflexivity|exact Hconfig]|].
      split; [apply ProviderExtra.openai_models; eauto|reflexivity].
    + right. apply property_Inherited in Hconfig as [Hin Hout].
      split; [exact Hin|]. split; [exact Hout|reflexivity].
  - destruct (ClaudeService.getModelConfig chosen) as [config| |] eqn:Hconfig;
      [| |discriminate]; cbv zeta; intros [= <-];
      cbn [estimate_provider estimate_model estimatedInputTokens
           estimatedOutputTokens estimatedCostCents getAvailableModels];
      (split; [reflexivity|]); (split; [right; reflexivity|]);
      (split; [reflexivity|]); (split; [reflexivity|]);
      (split; [exact Hinput|]); (split; [|exact Hexample]).
    + left. exists config. split; [right; split; [reflexivity|exact Hconfig]|].
      split; [apply ProviderExtra.claude_models; eauto|reflexivity].
    + right. apply property_Inherited in Hconfig as [Hin Hout].
      split; [exact Hin|]. split; [exact Hout|reflexivity].
Qed.

(** The estimate for a quick scan of the sample channel on the default
    model of Claude, and the estimate for the model name [toString]. *)
Lemma estimate_uses_client_formula_witness :
  (estimate_provider
     {| estimate_provider := claude; estimate_model := "claude-3-sonnet";
        estimatedInputTokens := 960; estimatedOutputTokens := 800;
        estimatedCostCents := Fin 1 |} = claude
   /\ 850 <= 960)
  /\ estimateCost (sampleAnalysisRequest QUICK_SCAN) openai (Some "toString")
     = Normal {| estimate_provider := openai; estimate_model := "toString";
                 estimatedInputTokens := 960; estimatedOutputTokens := 800;
                 estimatedCostCents := NaN |}.
Proof.
  assert (Hestimate :
    estimateCost (sampleAnalysisRequest QUICK_SCAN) claude None
    = Normal {| estimate_provider := claude; estimate_model := "claude-3-sonnet";
                estimatedInputTokens := 960; estimatedOutputTokens := 800;
                estimatedCostCents := Fin 1 |}) by (vm_compute; reflexivity).
  destruct (estimate_uses_client_formula _ _ _ _ Hestimate)
    as (Hprovider & _ & _ & _ & Hfloor & _).
  split; [split; [exact Hprovider|exact Hfloor]|].
  vm_compute. reflexivity.
Defined.

Lemma anyKey_keyOr (a b : option string) :
  anyKey [a; b] = negb (bool_decide (OpenAIService.keyOr a (OpenAIService.keyOr b EmptyString)
                                     = EmptyString)).
Proof.
  unfold anyKey, OpenAIService.keyOr. cbn [existsb].
  destruct a as [s|], b as [t|]; repeat case_decide; subst;
    repeat case_bool_decide; try congruence; reflexivity.
Qed.

(** X29.  The constructor of [AIAnalyzer] never throws: it constructs a
    service exactly when a non-empty key for it is given, in the
    configuration or in the environment, and then the service's own
    constructor finds that key, the one of the configuration first.  A
    service constructed on its own without any key does throw. *)
Theorem analyzer_constructs (openaiApiKey claudeApiKey : option string)
    (OPENAI_API_KEY ANTHROPIC_API_KEY : option string) :
  let this := create openaiApiKey claudeApiKey OPENAI_API_KEY ANTHROPIC_API_KEY in
  (exists openaiKey claudeKey,
     construct openaiApiKey claudeApiKey OPENAI_API_KEY ANTHROPIC_API_KEY
     = Normal (openaiKey, claudeKey)
     /\ (is_Some openaiKey <-> openaiService this = true)
     /\ (is_Some claudeKey <-> claudeService this = true)
     /\ (forall key, openaiKey = Some key ->
           key <> EmptyString
           /\ key = OpenAIService.keyOr openaiApiKey
                      (OpenAIService.keyOr OPENAI_API_KEY EmptyString))
     /\ (forall key, claudeKey = Some key ->
           key <> EmptyString
           /\ key = ClaudeService.keyOr claudeApiKey
                      (ClaudeService.keyOr ANTHROPIC_API_KEY EmptyString)))
  /\ OpenAIService.construct None None = Throw "OpenAI API key is required"
  /\ ClaudeService.construct None None = Throw "Anthropic API key is required".
Proof.
  cbv zeta. split; [|split; reflexivity].
  unfold construct, create, OpenAIService.construct, ClaudeService.construct.
  cbn [openaiService claudeService]. cbv zeta.
  rewrite !anyKey_keyOr.
  change ClaudeService.keyOr with OpenAIService.keyOr.
  destruct (decide (OpenAIService.keyOr openaiApiKey
                      (OpenAIService.keyOr OPENAI_API_KEY EmptyString) = EmptyString))
    as [Ho|Ho];
    destruct (decide (OpenAIService.keyOr claudeApiKey
                        (OpenAIService.keyOr ANTHROPIC_API_KEY EmptyString)
                      = EmptyString)) as [Hc|Hc];
    try rewrite (bool_decide_eq_true_2 _ Ho);
    try rewrite (bool_decide_eq_false_2 _ Ho);
    try rewrite (bool_decide_eq_true_2 _ Hc);
    try rewrite (bool_decide_eq_false_2 _ Hc);
    cbn [negb mbind completion_bind bind];
    eexists _, _; (split; [reflexivity|]);
    repeat split; intros;
    try match goal with
        | Hnone : is_Some None |- _ => destruct Hnone as [? [=]]
        end;
    try discriminate; try (eexists; reflexivity); try reflexivity;
    try match goal with
        | Hkey : Some _ = Some _ |- _ => injection Hkey as <-
        end;
    try assumption; try reflexivity.
Qed.

Lemma analyzer_constructs_witness :
  exists openaiKey claudeKey,
    construct (Some "sk-1") None None (Some "ak-2") = Normal (openaiKey, claudeKey).
Proof.
  destruct (analyzer_constructs (Some "sk-1") None None (Some "ak-2"))
    as [(openaiKey & claudeKey & Hrun & _) _].
  exists openaiKey, claudeKey. exact Hrun.
Defined.

Section WithHost.
Context `{Host}.

Lemma after_nothing t w : after t [] [] w = w.
Proof. destruct w as [h i]. unfold after. cbn. rewrite app_nil_r. reflexivity. Qed.

Lemma after_record t record w : after t [record] [] w = recordUsage t record w.
Proof. destruct w as [h i]. unfold after, recordUsage. cbn. rewrite app_nil_r. reflexivity. Qed.

(** What the [switch] does to the state: nothing when it throws, one
    invocation when a client answers. *)
Lemma dispatch_after this env request p m :
  exists clients outcome,
    (forall w, dispatch this env request p m w = (after (now env) [] clients w, outcome))
    /\ match outcome with
       | Normal _ => clients = [(p, m)]
       | Throw _ => clients = []
       end.
Proof.
  unfold dispatch. destruct p.
  - destruct (openaiService this); cbn [negb].
    + eexists [(openai, m)], _. split; [intros w; reflexivity|reflexivity].
    + eexists [], _. split; [intros w; rewrite after_nothing; reflexivity|reflexivity].
  - destruct (claudeService this); cbn [negb].
    + eexists [(claude, m)], _. split; [intros w; reflexivity|reflexivity].
    + eexists [], _. split; [intros w; rewrite after_nothing; reflexivity|reflexivity].
  - eexists [], _. split; [intros w; rewrite after_nothing; reflexivity|reflexivity].
Qed.

Lemma effects_without_fallback this env request options fuel :
  options ≫= fallbackProvider = None ->
  exists records clients outcome,
    effects this env request options (S fuel) records clients outcome.
Proof.
  intros Hfallback. unfold effects. cbn [analyzeChannel]. rewrite Hfallback.
  destruct (beforeTry this request options) as [[p m]|text].
  - destruct (dispatch_after this env request p m)
      as (clients & [result|text] & Hdispatch & Hclients); subst clients.
    + destruct (success result) eqn:Hsuccess.
      * exists [successRecord p m request result], [(p, m)], (Normal result).
        split; [intros w; rewrite Hdispatch, Hsuccess; reflexivity|].
        split; [cbn; lia|]. split; [cbn; lia|]. split; [|discriminate].
        intros record Hin. apply list_elem_of_singleton in Hin as ->. cbn.
        exists p, m, result. repeat split; assumption.
      * exists [], [(p, m)], (Normal result).
        split; [intros w; rewrite Hdispatch, Hsuccess; reflexivity|].
        split; [cbn; lia|]. split; [cbn; lia|]. split; [|discriminate].
        intros record Hin. apply elem_of_nil in Hin as [].
    + exists [failureRecord p m request text], [],
        (Normal (analysisFailed p text (now env))).
      split; [intros w; rewrite Hdispatch, after_nothing, after_record; reflexivity|].
      split; [cbn; lia|]. split; [cbn; lia|]. split; [|discriminate].
      intros record Hin. apply list_elem_of_singleton in Hin as ->. cbn.
      split; [reflexivity|]. eexists. split; reflexivity.
  - exists [], [], (Throw text).
    split; [intros w; rewrite after_nothing; reflexivity|].
    split; [cbn; lia|]. split; [cbn; lia|].
    split; [|intros; split; reflexivity].
    intros record Hin. apply elem_of_nil in Hin as [].
Qed.

Lemma analyzeChannel_effects this env request options fuel :
  exists records clients outcome,
    effects this env request options (S (S fuel)) records clients outcome.
Proof.
  destruct (options ≫= fallbackProvider) as [fallback|] eqn:Hfallback;
    [|apply effects_without_fallback, Hfallback].
  destruct (beforeTry this request options) as [[p m]|text] eqn:Hbefore.
  - destruct (dispatch_after this env request p m)
      as (clients & [result|text] & Hdispatch & Hclients); subst clients.
    + destruct (success result) eqn:Hsuccess.
      * exists [successRecord p m request result], [(p, m)], (Normal result).
        split; [intros w; cbn [analyzeChannel];
                rewrite Hbefore, Hdispatch, Hsuccess; reflexivity|].
        split; [cbn; lia|]. split; [cbn; lia|]. split; [|discriminate].
        intros record Hin. apply list_elem_of_singleton in Hin as ->. cbn.
        exists p, m, result. repeat split; assumption.
      * exists [], [(p, m)], (Normal result).
        split; [intros w; cbn [analyzeChannel];
                rewrite Hbefore, Hdispatch, Hsuccess; reflexivity|].
        split; [cbn; lia|]. split; [cbn; lia|]. split; [|discriminate].
        intros record Hin. apply elem_of_nil in Hin as [].
    + destruct (decide (fallback <> p)) as [Hother|Hsame].
      * destruct (getDefaultModel fallback) as [fallbackModel|text'] eqn:Hmodel.
        -- destruct (effects_without_fallback this env request
                       (Some {| provider := Some fallback;
                                model := Some fallbackModel;
                                fallbackProvider := None |}) fuel eq_refl)
             as (records & clients & outcome & Hrun & Hrest).
           exists records, clients, outcome. split; [|exact Hrest].
           intros w. rewrite <- Hrun.
           change (analyzeChannel (S (S fuel)) this env request options w)
             with (match beforeTry this request options with
                   | Throw m => Some (w, Throw m)
                   | Normal (provider, model) =>
                       match dispatch this env request provider model w with
                       | (w1, Normal result) =>
                           Some (if success result
                                 then recordUsage (now env)
                                        (successRecord provider model request result) w1
                                 else w1, Normal result)
                       | (w1, Throw errorMessage) =>
                           match options ≫= fallbackProvider with
                           | Some fallback =>
                               if decide (fallback <> provider)
                               then
                                 match getDefaultModel fallback with
                                 | Throw m => Some (w1, Throw m)
                                 | Normal fallbackModel =>
                                     analyzeChannel (S fuel) this env request
                                       (Some {| provider := Some fallback;
                                                model := Some fallbackModel;
                                                fallbackProvider := None |}) w1
                                 end
                               else
                                 Some (recordUsage (now env)
                                         (failureRecord provider model request
                                            errorMessage) w1,
                                       Normal (analysisFailed provider errorMessage
                                                 (now env)))
                           | None =>
                               Some (recordUsage (now env)
                                       (failureRecord provider model request
                                          errorMessage) w1,
                                     Normal (analysisFailed provider errorMessage
                                               (now env)))
                           end
                       end
                   end).
           rewrite Hbefore, Hdispatch, Hfallback, after_nothing.
           rewrite decide_True by exact Hother. rewrite Hmodel. reflexivity.
        -- exists [], [], (Throw text').
           split; [intros w; cbn [analyzeChannel];
                   rewrite Hbefore, Hdispatch, Hfallback, !after_nothing;
                   rewrite decide_True by exact Hother; rewrite Hmodel; reflexivity|].
           split; [cbn; lia|]. split; [cbn; lia|].
           split; [|intros; split; reflexivity].
           intros record Hin. apply elem_of_nil in Hin as [].
      * exists [failureRecord p m request text], [],
          (Normal (analysisFailed p text (now env))).
        split; [intros w; cbn [analyzeChannel];
                rewrite Hbefore, Hdispatch, Hfallback, after_nothing, after_record;
                rewrite decide_False by exact Hsame; reflexivity|].
        split; [cbn; lia|]. split; [cbn; lia|]. split; [|discriminate].
        intros record Hin. apply list_elem_of_singleton in Hin as ->. cbn.
        split; [reflexivity|]. eexists. split; reflexivity.
  - exists [], [], (Throw text).
    split; [intros w; cbn [analyzeChannel]; rewrite Hbefore, after_nothing;
            reflexivity|].
    split; [cbn; lia|]. split; [cbn; lia|].
    split; [|intros; split; reflexivity].
    intros record Hin. apply elem_of_nil in Hin as [].
Qed.

(** A successful response comes from the one provider client the call
    invoked, and is recorded. *)
Lemma successful_response this env request options fuel w w' result :
  options ≫= fallbackProvider = None ->
  analyzeChannel (S fuel) this env request options w = Some (w', Normal result) ->
  success result = true ->
  exists p m,
    w' = recordUsage (now env) (successRecord p m request result) (invoked p m w)
    /\ ((p = openai
         /\ result = OpenAIService.analyzeChannel (openaiCall env) request m)
        \/ (p = claude
            /\ result = ClaudeService.analyzeChannel (claudeCall env) request m)).
Proof.
  intros Hfallback. cbn [analyzeChannel]. rewrite Hfallback.
  destruct (beforeTry this request options) as [[p m]|text]; [|discriminate].
  unfold dispatch. destruct p.
  - destruct (openaiService this); cbn [negb].
    + intros [= <- <-] Hsuccess. rewrite Hsuccess. exists openai, m.
      split; [reflexivity|left; split; reflexivity].
    + intros [= <- <-]. discriminate.
  - destruct (claudeService this); cbn [negb].
    + intros [= <- <-] Hsuccess. rewrite Hsuccess. exists claude, m.
      split; [reflexivity|right; split; reflexivity].
    + intros [= <- <-]. discriminate.
  - intros [= <- <-]. discriminate.
Qed.

(** X20.  [analyzeChannel] never reads the usage history: from any two
    states a call has the same outcome and the same effects.  A call
    invokes at most one provider client and writes at most one usage
    record; a record marked successful goes with exactly one invocation,
    a record marked failed with none; and a call that throws records
    nothing and invokes no client. *)
Theorem analyzer_ignores_history (fuel : nat) (this : Services)
    (env : Environment) (request : AIAnalysisRequest)
    (options : option Options) (w w0 : World) :
  exists records clients outcome,
    analyzeChannel (S (S fuel)) this env request options w
    = Some (after (now env) records clients w, outcome)
    /\ analyzeChannel (S (S fuel)) this env request options w0
       = Some (after (now env) records clients w0, outcome)
    /\ (length records <= 1)%nat /\ (length clients <= 1)%nat
    /\ (forall record, record ∈ records ->
          (CostTracker.success record = true -> length clients = 1%nat)
          /\ (CostTracker.success record = false -> clients = []))
    /\ (forall text, outcome = Throw text -> records = [] /\ clients = []).
Proof.
  destruct (analyzeChannel_effects this env request options fuel)
    as (records & clients & outcome & Hrun & Hrecords & Hclients & Hmarks & Hthrow).
  exists records, clients, outcome.
  split; [apply Hrun|]. split; [apply Hrun|].
  split; [exact Hrecords|]. split; [exact Hclients|]. split; [|exact Hthrow].
  intros record Hin. specialize (Hmarks record Hin).
  destruct (CostTracker.success record).
  - destruct Hmarks as (p & m & response & -> & _). split; [reflexivity|discriminate].
  - destruct Hmarks as [-> _]. split; [discriminate|reflexivity].
Qed.

(** *** Batches *)

Lemma throws_before_try this env request options fuel w w' text :
  options ≫= fallbackProvider = None ->
  analyzeChannel (S fuel) this env request options w = Some (w', Throw text) ->
  beforeTry this request options = Throw text.
Proof.
  intros Hfallback. cbn [analyzeChannel]. rewrite Hfallback.
  destruct (beforeTry this request options) as [[p m]|text']; [|congruence].
  destruct (dispatch this env request p m w) as [w1 [result|text']]; discriminate.
Qed.

Lemma analyzeBatch_spec this provider batch w :
  exists w' outcome,
    analyzeBatch this provider batch w = Some (w', outcome)
    /\ (forall results, outcome = Normal results ->
          Forall2 (answers this provider) batch results)
    /\ (forall text, outcome = Throw text ->
          exists call, call ∈ batch
            /\ beforeTry this call.2 (batchCallOptions provider) = Throw text).
Proof.
  revert w. induction batch as [|[env request] rest IH]; intros w.
  - exists w, (Normal []). split; [reflexivity|].
    split; [intros results [= <-]; constructor|discriminate].
  - cbn [analyzeBatch].
    destruct (analyzeChannel_effects this env request (batchCallOptions provider) 0)
      as (records & clients & outcome & Hrun & _).
    change (Some {| provider := provider; model := None; fallbackProvider := None |})
      with (batchCallOptions provider).
    rewrite Hrun.
    destruct (IH (after (now env) records clients w))
      as (w2 & outcomes & -> & Hresults & Hthrown).
    eexists _, _. split; [reflexivity|].
    destruct outcome as [result|text]; cbn [mbind completion_bind bind].
    + destruct outcomes as [results|text]; cbn [mbind completion_bind bind]; split.
      * intros ? [= <-]. constructor; [|apply Hresults; reflexivity].
        intros w0. eexists. apply Hrun.
      * discriminate.
      * discriminate.
      * intros ? [= <-]. destruct (Hthrown text eq_refl) as (call & Hin & Hcall).
        exists call. split; [apply list_elem_of_further, Hin|exact Hcall].
    + split; [discriminate|]. intros ? [= <-].
      exists (env, request). split; [apply list_elem_of_here|].
      apply (throws_before_try this env request (batchCallOptions provider) 1 w
               (after (now env) records clients w) text eq_refl), Hrun.
Qed.

Lemma slice_take_drop {A} (i c : Z) (l : list A) :
  0 <= i -> 0 <= c ->
  CostTracker.slice i (i + c) l = take (Z.to_nat c) (drop (Z.to_nat i) l).
Proof.
  intros Hi Hc. unfold CostTracker.slice, CostTracker.relativeIndex. cbv zeta.
  rewrite !decide_False by lia.
  destruct (decide (i <= Z.of_nat (length l))) as [Hin|Hout].
  - replace (Z.to_nat (Z.min i (Z.of_nat (length l)))) with (Z.to_nat i) by lia.
    destruct (decide (i + c <= Z.of_nat (length l))).
    + f_equal. lia.
    + rewrite !take_ge by (rewrite length_drop; lia). reflexivity.
  - rewrite !drop_ge by lia. rewrite !take_nil. reflexivity.
Qed.

Lemma batchLoop_spec this provider c d requests :
  0 < c ->
  forall fuel i results delays w,
    0 <= i ->
    (length requests - Z.to_nat i < fuel)%nat ->
    Forall2 (answers this provider) (take (Z.to_nat i) requests) results ->
    exists w' delays' outcome,
      batchLoop fuel this provider c d requests i results delays w
      = Some (w', delays', outcome)
      /\ (forall rs, outcome = Normal rs ->
            Forall2 (answers this provider) requests rs
            /\ delays'
               = delays
                 ++ replicate
                      (if decide (0 < d)
                       then Z.to_nat ((Z.of_nat (length requests) - 1 - i) / c)
                       else 0%nat) d)
      /\ (forall text, outcome = Throw text ->
            exists call, call ∈ requests
              /\ beforeTry this call.2 (batchCallOptions provider) = Throw text).
Proof.
  intros Hc. induction fuel as [|fuel IH]; intros i results delays w Hi Hfuel Hso;
    [lia|].
  cbn [batchLoop]. destruct (decide (i < Z.of_nat (length requests))) as [Hin|Hout].
  - destruct (analyzeBatch_spec this provider
                (CostTracker.slice i (i + c) requests) w)
      as (w1 & outcome & -> & Hresults & Hthrown).
    destruct outcome as [batchResults|text].
    + assert (Hnext : Forall2 (answers this provider)
                        (take (Z.to_nat (i + c)) requests) (results ++ batchResults)).
      { rewrite Z2Nat.inj_add by lia. rewrite <- take_take_drop.
        apply Forall2_app; [exact Hso|].
        rewrite <- slice_take_drop by lia. apply Hresults. reflexivity. }
      destruct (IH (i + c) (results ++ batchResults)
                  (if decide (i + c < Z.of_nat (length requests) /\ 0 < d)
                   then delays ++ [d] else delays) w1)
        as (w' & delays' & outcome & -> & Hnormal & Hthrow);
        [lia|lia|exact Hnext|].
      exists w', delays', outcome. split; [reflexivity|]. split; [|exact Hthrow].
      intros rs Hrs. destruct (Hnormal rs Hrs) as [Hall ->]. split; [exact Hall|].
      destruct (decide (0 < d)) as [Hd|Hd].
      * destruct (decide (i + c < Z.of_nat (length requests))) as [Hmore|Hlast].
        -- rewrite decide_True by tauto.
           replace (Z.of_nat (length requests) - 1 - i)
             with ((Z.of_nat (length requests) - 1 - (i + c)) + 1 * c) by lia.
           rewrite Z.div_add by lia.
           assert (0 <= (Z.of_nat (length requests) - 1 - (i + c)) / c)
             by (apply Z.div_pos; lia).
           rewrite Z2Nat.inj_add by lia.
           rewrite Nat.add_comm. cbn [Z.to_nat Pos.to_nat Pos.iter_op Nat.add].
           rewrite replicate_S, <- app_assoc. reflexivity.
        -- rewrite decide_False by tauto.
           rewrite (Z.div_small (Z.of_nat (length requests) - 1 - i)) by lia.
           assert ((Z.of_nat (length requests) - 1 - (i + c)) / c < 0)
             by (apply Z.div_lt_upper_bound; lia).
           replace (Z.to_nat ((Z.of_nat (length requests) - 1 - (i + c)) / c))
             with 0%nat by lia.
           reflexivity.
      * rewrite decide_False by tauto. reflexivity.
    + eexists _, _, _. split; [reflexivity|]. split; [discriminate|].
      intros ? [= <-]. destruct (Hthrown text eq_refl) as (call & Hcall & Hbefore).
      exists call. split; [|exact Hbefore].
      rewrite slice_take_drop in Hcall by lia.
      apply (subseteq_drop (Z.to_nat i)), (subseteq_take (Z.to_nat c)), Hcall.
  - eexists _, _, _. split; [reflexivity|]. split; [|discriminate].
    intros rs [= <-]. rewrite take_ge in Hso by lia. split; [exact Hso|].
    assert ((Z.of_nat (length requests) - 1 - i) / c < 0)
      by (apply Z.div_lt_upper_bound; lia).
    replace (Z.to_nat ((Z.of_nat (length requests) - 1 - i) / c)) with 0%nat by lia.
    destruct (decide (0 < d)); cbn; rewrite app_nil_r; reflexivity.
Qed.

(** X21.  With a positive concurrency, [analyzeMultipleChannels] ends
    after at most one round per request.  When it returns, its results
    are, in the order of the requests and one for each, what
    [analyzeChannel] answers to that request; and the delays it has
    waited for are one fewer than the number of batches, each of
    [delayMs], or none at all when [delayMs] is negative.  Neither a
    concurrency nor a delay of zero can be asked for: each stands for
    its default.  When it throws, a call has thrown before its [try]
    block, which does not happen when the caller names the OpenAI or the
    Claude provider. *)
Theorem batch_results_in_order (fuel : nat) (this : Services)
    (requests : list (Environment * AIAnalysisRequest))
    (options : option BatchOptions) (w : World) :
  let c := numberOr (options ≫= concurrency) 3 in
  let d := numberOr (options ≫= delayMs) 1000 in
  let provider := options ≫= batch_provider in
  c <> 0 /\ d <> 0
  /\ (0 < c -> (length requests < fuel)%nat ->
      exists w' delays outcome,
        analyzeMultipleChannels fuel this requests options w
        = Some (w', delays, outcome)
        /\ (forall results, outcome = Normal results ->
              Forall2 (answers this provider) requests results
              /\ delays
                 = replicate
                     (if decide (0 < d)
                      then Z.to_nat ((Z.of_nat (length requests) - 1) / c)
                      else 0%nat) d)
        /\ (forall text, outcome = Throw text ->
              exists call, call ∈ requests
                /\ beforeTry this call.2 (batchCallOptions provider) = Throw text)
        /\ (provider = Some openai \/ provider = Some claude ->
            exists results, outcome = Normal results)).
Proof.
  cbv zeta.
  assert (Hnonzero : forall a b, b <> 0 -> numberOr a b <> 0).
  { intros a b Hb. unfold numberOr. destruct a as [n|]; [|exact Hb].
    destruct (decide (n = 0)); assumption. }
  split; [apply Hnonzero; discriminate|]. split; [apply Hnonzero; discriminate|].
  intros Hc Hfuel. unfold analyzeMultipleChannels.
  destruct (batchLoop_spec this (options ≫= batch_provider)
              (numberOr (options ≫= concurrency) 3)
              (numberOr (options ≫= delayMs) 1000) requests Hc
              fuel 0 [] [] w)
    as (w' & delays & outcome & Hrun & Hnormal & Hthrow);
    [lia|cbn; lia|constructor|].
  exists w', delays, outcome. split; [exact Hrun|]. split; [|split; [exact Hthrow|]].
  - intros results Hresults. destruct (Hnormal results Hresults) as [Hall ->].
    split; [exact Hall|]. rewrite Z.sub_0_r. reflexivity.
  - intros Hprovider. destruct outcome as [results|text]; [eexists; reflexivity|].
    destruct (Hthrow text eq_refl) as ([env [channel t]] & _ & Hbefore).
    exfalso. destruct Hprovider as [Hp|Hp]; rewrite Hp in Hbefore;
      destruct t; discriminate Hbefore.
Qed.

Lemma batchLoop_negative this provider c d requests :
  c < 0 -> requests <> [] ->
  provider = Some openai \/ provider = Some claude ->
  forall fuel i results delays w,
    i <= 0 ->
    batchLoop fuel this provider c d requests i results delays w = None.
Proof.
  intros Hc Hrequests Hprovider.
  assert (Hlength : 0 < Z.of_nat (length requests))
    by (destruct requests; [congruence|cbn; lia]).
  induction fuel as [|fuel IH]; intros i results delays w Hi; [reflexivity|].
  cbn [batchLoop]. rewrite decide_True by lia.
  destruct (analyzeBatch_spec this provider
              (CostTracker.slice i (i + c) requests) w)
    as (w1 & outcome & -> & _ & Hthrown).
  destruct outcome as [batchResults|text]; [apply IH; lia|].
  exfalso. destruct (Hthrown text eq_refl) as ([env [channel t]] & _ & Hbefore).
  destruct Hprovider as [Hp|Hp]; rewrite Hp in Hbefore;
    destruct t; discriminate Hbefore.
Qed.

(** X22.  A negative [concurrency] makes the loop of
    [analyzeMultipleChannels] run for ever: when the caller names the
    OpenAI or the Claude provider and there is at least one request, the
    index only moves down, and no bound on the number of rounds is
    enough for the call to return. *)
Theorem negative_concurrency_never_returns (fuel : nat) (this : Services)
    (requests : list (Environment * AIAnalysisRequest))
    (options : option BatchOptions) (w : World) :
  numberOr (options ≫= concurrency) 3 < 0 ->
  requests <> [] ->
  options ≫= batch_provider = Some openai
  \/ options ≫= batch_provider = Some claude ->
  analyzeMultipleChannels fuel this requests options w = None.
Proof.
  intros Hc Hrequests Hprovider. unfold analyzeMultipleChannels.
  apply batchLoop_negative; [exact Hc|exact Hrequests|exact Hprovider|lia].
Qed.

End WithHost.

Section Witness.
#[local] Existing Instance sampleHost.

Lemma negative_concurrency_never_returns_witness :
  analyzeMultipleChannels 1000 bothServices
    [(sampleEnvironment, sampleAnalysisRequest QUICK_SCAN)]
    (Some {| batch_provider := Some openai; concurrency := Some (-1);
             delayMs := None |}) emptyWorld
  = None.
Proof.
  apply (@negative_concurrency_never_returns sampleHost);
    [reflexivity|discriminate|left; reflexivity].
Defined.

Lemma analyzer_ignores_history_witness :
  exists records clients outcome,
    analyzeChannel 2 bothServices sampleEnvironment
      (sampleAnalysisRequest DEEP_DIVE) None emptyWorld
    = Some (after 5 records clients emptyWorld, outcome)
    /\ (length records <= 1)%nat.
Proof.
  destruct (@analyzer_ignores_history sampleHost 0 bothServices sampleEnvironment
              (sampleAnalysisRequest DEEP_DIVE) None emptyWorld emptyWorld)
    as (records & clients & outcome & Hrun & _ & Hrecords & _).
  exists records, clients, outcome. split; [exact Hrun|exact Hrecords].
Defined.

Lemma batch_results_in_order_witness :
  exists w' outcome,
    analyzeMultipleChannels 8 bothServices
      (replicate 7 (sampleEnvironment, sampleAnalysisRequest QUICK_SCAN))
      (Some {| batch_provider := Some claude; concurrency := Some 3;
               delayMs := None |}) emptyWorld
    = Some (w', [1000; 1000], outcome).
Proof.
  destruct (@batch_results_in_order sampleHost 8 bothServices
              (replicate 7 (sampleEnvironment, sampleAnalysisRequest QUICK_SCAN))
              (Some {| batch_provider := Some claude; concurrency := Some 3;
                       delayMs := None |}) emptyWorld)
    as (_ & _ & Hrun).
  destruct Hrun as (w' & delays & outcome & Hrun & Hnormal & _ & Hnamed);
    [reflexivity|cbn; lia|].
  destruct Hnamed as [results ->]; [right; reflexivity|].
  destruct (Hnormal results eq_refl) as [_ Hdelays].
  exists w', (Normal results). rewrite Hrun, Hdelays. reflexivity.
Defined.

End Witness.

End AIAnalyzerExtra.

(** ** The background job *)

Module BackgroundAnalysisExtra.
Import JS Types AIAnalyzer BackgroundAnalysis.

Section WithHost.
Context `{Host}.
Variable join : list JsValue -> string.
Variable refuses : Update -> option string.

Lemma resultsOf_fields analysis results :
  resultsOf join analysis = Normal results ->
  overallScore results = overall (scores analysis)
  /\ contentQualityScore results = contentQuality (scores analysis)
  /\ engagementScore results = engagement (scores analysis)
  /\ growthPotentialScore results = growthPotential (scores analysis)
  /\ results_aiModel results = aiModel (analysis_metadata analysis)
  /\ processingTimeMs results = analysis_processingTime (analysis_metadata analysis)
  /\ results_costCents results = analysis_costCents (analysis_metadata analysis).
Proof.
  unfold resultsOf.
  destruct (competitorNames join _) as [names|text];
    cbn [mbind completion_bind bind]; [|discriminate].
  destruct (recommendedTopics join _) as [topics|text];
    cbn [mbind completion_bind bind]; [|discriminate].
  intros [= <-]. repeat split.
Qed.

(** X26.  When the database accepts every write,
    [processAnalysisInBackground] resolves after exactly two writes: the
    status PROCESSING, then either the status FAILED or the results,
    which set the status COMPLETED; the row is never left PROCESSING.
    Results are only written for a response that was recorded in the
    cost tracker as a success: the four scores written are integers from
    0 to 100, and the cost, the processing time and the model written
    are those of the usage record. *)
Theorem background_job_settles (fuel : nat) (this : Services)
    (env : Environment) (channel : Channel) (analysisType : AnalysisType)
    (w : World) (log : list Update) :
  (forall update, refuses update = None) ->
  exists w' rest,
    processAnalysisInBackground join refuses (S (S fuel)) this env channel
      analysisType w log
    = Some (w', log ++ UpdateStatus PROCESSING :: rest, Normal tt)
    /\ (forall initial,
          statusAfter initial (log ++ UpdateStatus PROCESSING :: rest) = FAILED
          \/ statusAfter initial (log ++ UpdateStatus PROCESSING :: rest) = COMPLETED)
    /\ (rest = [UpdateStatus FAILED]
        \/ exists results record,
             rest = [UpdateResults results]
             /\ validScore (overallScore results)
             /\ validScore (contentQualityScore results)
             /\ validScore (engagementScore results)
             /\ validScore (growthPotentialScore results)
             /\ usageHistory w'
                = CostTracker.recordUsage (now env) record (usageHistory w)
             /\ CostTracker.success record = true
             /\ CostTracker.costCents record = results_costCents results
             /\ CostTracker.processingTime record = processingTimeMs results
             /\ CostTracker.model record = results_aiModel results).
Proof.
  intros Hdatabase.
  assert (Hlast : forall initial update,
            statusAfter initial (log ++ [UpdateStatus PROCESSING; update])
            = match update with
              | UpdateStatus status => status
              | UpdateResults _ => COMPLETED
              end).
  { intros initial update. unfold statusAfter.
    change [UpdateStatus PROCESSING; update]
      with ([UpdateStatus PROCESSING] ++ [update]).
    rewrite app_assoc, last_snoc. reflexivity. }
  unfold processAnalysisInBackground, write. rewrite !Hdatabase.
  destruct (AIAnalyzerSpec.analyzeChannel_terminates fuel this env
              (aiRequest channel analysisType) None w)
    as (w1 & outcome & Hrun).
  rewrite Hrun. rewrite <- !app_assoc. cbn [app].
  destruct outcome as [result|text].
  - destruct (success result) eqn:Hsuccess.
    + destruct (data result) as [analysis|] eqn:Hdata.
      * destruct (resultsOf join analysis) as [results|text] eqn:Hresults.
        -- rewrite ?Hdatabase, <- ?app_assoc. cbn [app].
           exists w1, [UpdateResults results]. split; [reflexivity|].
           split; [intros initial; rewrite Hlast; right; reflexivity|]. right.
           destruct (AIAnalyzerExtra.successful_response this env _ None (S fuel) w w1 result
                       eq_refl Hrun Hsuccess) as (p & m & -> & Hclient).
           destruct (resultsOf_fields _ _ Hresults)
             as (Ho & Hq & He & Hg & Hm & Ht & Hc).
           exists results, (successRecord p m (aiRequest channel analysisType) result).
           split; [reflexivity|]. rewrite Ho, Hq, He, Hg, Hm, Ht, Hc.
           assert (Hfacts :
             validScores analysis
             /\ aiModel (analysis_metadata analysis) = m
             /\ analysis_processingTime (analysis_metadata analysis)
                = processingTime (metadata result)
             /\ analysis_costCents (analysis_metadata analysis)
                = costCents (metadata result)).
           { destruct Hclient as [[-> ->]|[-> ->]].
             - split; [apply (ProviderSpec.openai_client_valid _ _ _ _ Hdata)|].
               destruct (ProviderExtra.openai_tagged (openaiCall env)
                           (aiRequest channel analysisType) m)
                 as (_ & Htime & [(_ & _ & analysis' & Hdata' & Hm' & Ht' & Hc')
                                 |(Hfalse & _)]); [|congruence].
               rewrite Hdata in Hdata'. injection Hdata' as <-.
               rewrite Htime. repeat split; assumption.
             - split; [apply (ProviderSpec.claude_client_valid _ _ _ _ Hdata)|].
               destruct (ProviderExtra.claude_tagged (claudeCall env)
                           (aiRequest channel analysisType) m)
                 as (_ & Htime & [(_ & _ & analysis' & Hdata' & Hm' & Ht' & Hc')
                                 |(Hfalse & _)]); [|congruence].
               rewrite Hdata in Hdata'. injection Hdata' as <-.
               rewrite Htime. repeat split; assumption. }
           destruct Hfacts as ((_ & Hoverall & Hquality & Hengagement & Hgrowth)
                               & Hmodel & Htime & Hcost).
           repeat split; try assumption; try reflexivity; cbn; congruence.
        -- rewrite ?Hdatabase.
           exists w1, [UpdateStatus FAILED].
           split; [rewrite <- ?app_assoc; reflexivity|].
           split; [intros initial; rewrite Hlast; left; reflexivity|].
           left. reflexivity.
      * rewrite ?Hdatabase, <- ?app_assoc. cbn [app].
        exists w1, [UpdateStatus FAILED]. split; [reflexivity|].
        split; [intros initial; rewrite Hlast; left; reflexivity|].
        left. reflexivity.
    + rewrite ?Hdatabase, <- ?app_assoc. cbn [app].
      exists w1, [UpdateStatus FAILED]. split; [reflexivity|].
      split; [intros initial; rewrite Hlast; left; reflexivity|].
      left. reflexivity.
  - rewrite ?Hdatabase.
    exists w1, [UpdateStatus FAILED].
    split; [rewrite <- ?app_assoc; reflexivity|].
    split; [intros initial; rewrite Hlast; left; reflexivity|].
    left. reflexivity.
Qed.

(** X27.  A successful analysis that was recorded, and so counted in
    the costs, still ends FAILED when its optional [competitors] section
    is an object whose [similarChannels] is not an array: building the
    results throws, the [catch] block writes FAILED, and nothing of the
    analysis is stored. *)
Theorem malformed_section_discards_analysis (fuel : nat) (this : Services)
    (env : Environment) (channel : Channel) (analysisType : AnalysisType)
    (w w1 : World) (log : list Update) (result : AIServiceResponse)
    (analysis : AIAnalysisResponse) (properties : list (string * JsValue)) :
  (forall update, refuses update = None) ->
  analyzeChannel (S (S fuel)) this env (aiRequest channel analysisType) None w
  = Some (w1, Normal result) ->
  success result = true ->
  data result = Some analysis ->
  competitors analysis = JObj properties ->
  (forall elements, lookupProperty "similarChannels" properties <> JArr elements) ->
  processAnalysisInBackground join refuses (S (S fuel)) this env channel
    analysisType w log
  = Some (w1, log ++ [UpdateStatus PROCESSING; UpdateStatus FAILED], Normal tt)
  /\ exists record,
       usageHistory w1
       = CostTracker.recordUsage (now env) record (usageHistory w)
       /\ CostTracker.success record = true
       /\ CostTracker.costCents record = costCents (metadata result).
Proof.
  intros Hdatabase Hrun Hsuccess Hdata Hcompetitors Hmissing. split.
  - unfold processAnalysisInBackground, write. rewrite !Hdatabase, Hrun.
    rewrite Hsuccess, Hdata.
    assert (Hthrows : exists text, resultsOf join analysis = Throw text).
    { unfold resultsOf, competitorNames. rewrite Hcompetitors.
      cbn [getProp mbind completion_bind bind].
      destruct (lookupProperty "similarChannels" properties) as [| | | | |elements|]
        eqn:Hlookup; try (eexists; reflexivity).
      destruct (Hmissing elements eq_refl). }
    destruct Hthrows as [text ->]. rewrite <- app_assoc. reflexivity.
  - destruct (AIAnalyzerExtra.successful_response this env _ None (S fuel) w w1
                result eq_refl Hrun Hsuccess) as (p & m & -> & _).
    exists (successRecord p m (aiRequest channel analysisType) result).
    repeat split.
Qed.

End WithHost.

Section Witness.
Import Samples.

Lemma background_job_settles_witness :
  exists w' rest,
    processAnalysisInBackground (H := sampleHost) (fun _ => EmptyString)
      (fun _ => None) 2 bothServices sampleEnvironment sampleChannelRow
      QUICK_SCAN emptyWorld []
    = Some (w', UpdateStatus PROCESSING :: rest, Normal tt).
Proof.
  destruct (@background_job_settles sampleHost (fun _ => EmptyString)
              (fun _ => None) 0 bothServices sampleEnvironment sampleChannelRow
              QUICK_SCAN emptyWorld [] (fun _ => eq_refl))
    as (w' & rest & Hrun & _).
  exists w', rest. exact Hrun.
Defined.

Lemma malformed_section_discards_analysis_witness :
  exists w',
    processAnalysisInBackground (H := competitorsHost) (fun _ => EmptyString)
      (fun _ => None) 2 claudeOnly claudeAnswers sampleChannelRow
      COMPETITOR_COMPARE emptyWorld []
    = Some (w', [UpdateStatus PROCESSING; UpdateStatus FAILED], Normal tt)
    /\ length (usageHistory w') = 1%nat.
Proof.
  destruct (analyzeChannel (H := competitorsHost) 2 claudeOnly claudeAnswers
              (aiRequest sampleChannelRow COMPETITOR_COMPARE) None emptyWorld)
    as [[w' [result|text]]|] eqn:Hrun;
    [|vm_compute in Hrun; discriminate|vm_compute in Hrun; discriminate].
  destruct (data result) as [analysis|] eqn:Hdata;
    [|vm_compute in Hrun; injection Hrun as <- <-; discriminate].
  exists w'.
  destruct (@malformed_section_discards_analysis competitorsHost
              (fun _ => EmptyString) (fun _ => None) 0 claudeOnly claudeAnswers
              sampleChannelRow COMPETITOR_COMPARE emptyWorld w' [] result analysis
              [("gaps", JArr [])] (fun _ => eq_refl) Hrun)
    as [Hjob (record & Hhistory & _)].
  - vm_compute in Hrun. injection Hrun as <- <-. reflexivity.
  - exact Hdata.
  - vm_compute in Hrun. injection Hrun as <- <-.
    injection Hdata as <-. reflexivity.
  - intros elements. discriminate.
  - split; [exact Hjob|]. rewrite Hhistory. reflexivity.
Defined.

End Witness.

End BackgroundAnalysisExtra.

(** ** Prompt templates: lookup, conditional blocks *)

Module PromptTemplatesExtra.
Import JS PromptTemplates PromptTemplatesSpec.

(** X24.  [getPromptTemplate] finds, for each of the four analysis
    types, the template that declares this type, in version 1.0, and
    whose [estimatedTokens] is the number of output tokens the analyzer
    estimates for the type; templates of different types have different
    ids.  For every other name it throws [Unknown analysis type: ...]. *)
Theorem prompt_template_lookup (name : string) :
  (forall t, exists promptTemplate,
     getPromptTemplate (Types.analysisTypeName t) = Normal promptTemplate
     /\ analysisType promptTemplate = Types.analysisTypeName t
     /\ version promptTemplate = "1.0"
     /\ estimatedTokens promptTemplate = AIAnalyzer.estimateOutputTokens t)
  /\ (forall t t' promptTemplate promptTemplate',
        getPromptTemplate (Types.analysisTypeName t) = Normal promptTemplate ->
        getPromptTemplate (Types.analysisTypeName t') = Normal promptTemplate' ->
        id promptTemplate = id promptTemplate' -> t = t')
  /\ (forall promptTemplate,
        getPromptTemplate name = Normal promptTemplate ->
        analysisType promptTemplate = name)
  /\ ((forall t, name <> Types.analysisTypeName t)
      <-> getPromptTemplate name = Throw ("Unknown analysis type: " +:+ name)).
Proof.
  split; [|split; [|split]].
  - intros []; eexists; (split; [reflexivity|]); repeat split.
  - intros [] [] ? ?; cbn; intros [= <-] [= <-]; cbn; intros [=]; reflexivity.
  - unfold getPromptTemplate. intros promptTemplate.
    repeat case_decide; subst; intros [= <-]; reflexivity.
  - unfold getPromptTemplate. split.
    + intros Hother.
      rewrite decide_False by apply (Hother Types.QUICK_SCAN).
      rewrite decide_False by apply (Hother Types.DEEP_DIVE).
      rewrite decide_False by apply (Hother Types.COMPETITOR_COMPARE).
      rewrite decide_False by apply (Hother Types.GROWTH_STRATEGY).
      reflexivity.
    + repeat case_decide; try discriminate. intros _ []; assumption.
Qed.

Lemma prompt_template_lookup_witness :
  analysisType DEEP_DIVE = "DEEP_DIVE".
Proof.
  destruct (prompt_template_lookup "DEEP_DIVE") as (_ & _ & Hnamed & _).
  apply Hnamed. reflexivity.
Defined.

(** X25.  A conditional block around a loop over the same variable, the
    way the DEEP_DIVE and GROWTH_STRATEGY templates use them, renders as
    follows when the keys of the mapping and the properties of the
    elements of its arrays are words that are not numbers, and none of
    the mapping's own tokens occurs in the block.  For an array the header
    is kept, followed by the body rendered for each element: an empty
    array still prints the header.  For a string that is not empty only
    the header is kept, and so it is for a variable the mapping does not
    have but every object inherits, such as [constructor]; for the empty
    string or a variable missing altogether nothing is kept. *)
Theorem conditional_loop_rendering (variables : list (string * Value))
    (name header body : string) :
  let loop := "{{#each " +:+ name +:+ "}}" +:+ body +:+ "{{/each}}" in
  let block := "{{#if " +:+ name +:+ "}}" +:+ (header +:+ loop) +:+ "{{/if}}" in
  Forall (fun entry => literalKey entry.1 = true) variables ->
  (forall items, lookup name variables = Some (VArr items) ->
                 Forall (Forall (fun property => literalKey property.1 = true)) items) ->
  isWord name = true ->
  (forall k v, In (k, v) variables -> occurs ("{{" +:+ k +:+ "}}") block = false) ->
  occurs "{{/if}}" ((header +:+ loop) +:+ "{{/if}") = false ->
  occurs "{{#each " (header +:+ "{{#each") = false ->
  occurs "{{/each}}" (body +:+ "{{/each}") = false ->
  replaceVariables block variables
  = match get name variables with
    | Own (VArr items) =>
        header +:+ String.concat EmptyString (map (renderItem body) items)
    | Own (VStr s) => if decide (s = EmptyString) then EmptyString else header
    | Inherited => header
    | Absent => EmptyString
    end.
Proof.
  intros loop block _ _ Hname Hkeys Hcontent Hheader Hbody.
  unfold replaceVariables. cbv zeta.
  rewrite (substituteVariables_id _ _ Hkeys).
  assert (Hif : expandConditionals variables block
                = (if isTruthy (get name variables)
                   then header +:+ loop else EmptyString) +:+ EmptyString)
    by exact (expandConditionals_block variables name (header +:+ loop)
                EmptyString EmptyString Hname eq_refl Hcontent).
  rewrite text_app_nil_r in Hif. rewrite Hif. clear Hif.
  assert (Heach : expandLoops variables (header +:+ loop)
                  = header +:+ eachReplacer variables name body +:+ EmptyString)
    by exact (expandLoops_block variables name body header EmptyString
                Hname Hheader Hbody).
  rewrite text_app_nil_r in Heach.
  unfold eachReplacer in Heach.
  destruct (get name variables) as [[s|items]| |]; cbn [isTruthy].
  - destruct (decide (s = EmptyString)) as [->|Hs].
    + reflexivity.
    + rewrite bool_decide_eq_false_2 by exact Hs. cbn [negb].
      rewrite Heach. apply text_app_nil_r.
  - exact Heach.
  - rewrite Heach. apply text_app_nil_r.
  - reflexivity.
Qed.

(** An empty array still prints the header, and so does a variable the
    mapping does not have when its name is [constructor]. *)
Lemma conditional_loop_rendering_witness :
  replaceVariables
    "{{#if recentVideos}}Recent:{{#each recentVideos}}- {{title}}{{/each}}{{/if}}"
    [("recentVideos", VArr [])]
  = "Recent:"
  /\ replaceVariables
       "{{#if constructor}}Recent:{{#each constructor}}- {{title}}{{/each}}{{/if}}"
       [("recentVideos", VArr [])]
     = "Recent:".
Proof.
  split.
  - apply (conditional_loop_rendering [("recentVideos", VArr [])]
             "recentVideos" "Recent:" "- {{title}}");
      try (vm_compute; reflexivity).
    + repeat constructor.
    + intros items [= <-]. constructor.
    + intros k v [[= <- <-]|[]]. vm_compute. reflexivity.
  - apply (conditional_loop_rendering [("recentVideos", VArr [])]
             "constructor" "Recent:" "- {{title}}");
      try (vm_compute; reflexivity).
    + repeat constructor.
    + intros items [=].
    + intros k v [[= <- <-]|[]]. vm_compute. reflexivity.
Defined.

End PromptTemplatesExtra.
